(** * Document-record pipeline (main.py): classification, field extraction,
      date normalisation and grouping, embedded from the Python source.

    Python strings are modelled as [string]; a character stands for the code
    point with the same number (0..255).  Values loaded by [json.load] are
    modelled by [json].  A Python exception is a value of [exn], and code that
    may raise lives in the error monad [res]. *)

From Stdlib Require Import Bool Arith Lia NArith ZArith List Ascii String.
From Stdlib Require Import DecimalString DecimalN Permutation Sorted Floats.
Import ListNotations.

Open Scope string_scope.
Open Scope list_scope.
Open Scope nat_scope.

(** ** Python exceptions and the error monad *)

Inductive exn : Type :=
| AttributeError
| TypeError
| KeyError
| ValueError
| IndexError.

Definition res (A : Type) : Type := (exn + A)%type.

Definition ret {A} (a : A) : res A := inr a.
Definition raise {A} (e : exn) : res A := inl e.
Definition bind {A B} (m : res A) (k : A -> res B) : res B :=
  match m with
  | inl e => inl e
  | inr a => k a
  end.

Notation "x <- m ;; k" := (bind m (fun x => k))
  (at level 61, m at next level, right associativity).
Notation "' p <- m ;; k" := (bind m (fun x => match x with p => k end))
  (at level 61, p pattern, m at next level, right associativity).

(** ** Characters and strings, as Python sees them *)

Definition code (c : ascii) : nat := nat_of_ascii c.

Definition between (lo hi n : nat) : bool := (lo <=? n) && (n <=? hi).

(** [str.isspace] on one character, which is also what [str.strip()] removes
    and what [\s] matches in a [str] pattern. *)
Definition is_space (c : ascii) : bool :=
  let n := code c in
  between 9 13 n || between 28 32 n || (n =? 133) || (n =? 160).

(** [\d] in a [str] pattern: the decimal digits. *)
Definition is_digit (c : ascii) : bool := between 48 57 (code c).

(** [\w] in a [str] pattern: alphanumeric characters and the underscore. *)
Definition is_word (c : ascii) : bool :=
  let n := code c in
  between 48 57 n || between 65 90 n || between 97 122 n || (n =? 95)
  || (n =? 170) || (n =? 178) || (n =? 179) || (n =? 181)
  || between 185 186 n || between 188 190 n
  || between 192 214 n || between 216 246 n || between 248 255 n.

(** [str.lower()] on one character. *)
Definition lower_char (c : ascii) : ascii :=
  let n := code c in
  if between 65 90 n || between 192 214 n || between 216 222 n
  then ascii_of_nat (n + 32) else c.

Fixpoint lower (s : string) : string :=
  match s with
  | EmptyString => EmptyString
  | String c s' => String (lower_char c) (lower s')
  end.

Definition is_empty (s : string) : bool :=
  match s with
  | EmptyString => true
  | String _ _ => false
  end.

Fixpoint lstrip (s : string) : string :=
  match s with
  | EmptyString => EmptyString
  | String c s' => if is_space c then lstrip s' else s
  end.

Fixpoint rstrip (s : string) : string :=
  match s with
  | EmptyString => EmptyString
  | String c s' =>
      let r := rstrip s' in
      if is_empty r && is_space c then EmptyString else String c r
  end.

(** [s.strip()] *)
Definition strip (s : string) : string := rstrip (lstrip s).

(** [sub in s] for two strings. *)
Fixpoint contains (sub s : string) : bool :=
  prefix sub s ||
  match s with
  | EmptyString => false
  | String _ s' => contains sub s'
  end.

(** [x in [..]] for a string and a list of strings. *)
Definition str_in (x : string) (l : list string) : bool :=
  existsb (String.eqb x) l.

(** ** Integers and their text *)

(** [int(s)] for a string of decimal digits; anything else raises
    [ValueError] (the source applies [int] to digit groups only). *)
Definition py_int (s : string) : res N :=
  if is_empty s then raise ValueError
  else match NilEmpty.uint_of_string s with
       | Some d => ret (N.of_uint d)
       | None => raise ValueError
       end.

(** [str(n)] and [f"{n}"] for a natural number. *)
Definition str_nat (n : N) : string := NilEmpty.string_of_uint (N.to_uint n).

(** [lo <= n <= hi] on integers. *)
Definition within (lo hi n : N) : bool := (lo <=? n)%N && (n <=? hi)%N.

(** [f"{n:02d}"] *)
Definition pad2 (n : N) : string :=
  let s := str_nat n in
  if String.length s <? 2 then ("0" ++ s)%string else s.

(** [str(z)] for an integer. *)
Definition str_Z (z : Z) : string :=
  match z with
  | Z0 => "0"
  | Zpos p => str_nat (Npos p)
  | Zneg p => ("-" ++ str_nat (Npos p))%string
  end.

(** ** JSON values *)

#[local] Set Warnings "-register-all".

Inductive json : Type :=
| JNull
| JBool (b : bool)
| JInt (z : Z)
| JFloat (f : float)
| JStr (s : string)
| JArr (items : list json)
| JObj (members : list (string * json)).

(** A Python [dict] with string keys, in insertion order. *)
Definition pydict (V : Type) : Type := list (string * V).

Fixpoint dict_get {V} (d : pydict V) (k : string) : option V :=
  match d with
  | [] => None
  | (k', v) :: d' => if String.eqb k' k then Some v else dict_get d' k
  end.

(** [d[k] = v]: the value is replaced in place, or the key is added last. *)
Fixpoint dict_set {V} (d : pydict V) (k : string) (v : V) : pydict V :=
  match d with
  | [] => [(k, v)]
  | (k', v') :: d' =>
      if String.eqb k' k then (k', v) :: d' else (k', v') :: dict_set d' k v
  end.

(** [bool(v)] *)
Definition truthy (v : json) : bool :=
  match v with
  | JNull => false
  | JBool b => b
  | JInt z => negb (Z.eqb z 0)
  | JFloat f => negb (PrimFloat.eqb f 0%float)
  | JStr s => negb (is_empty s)
  | JArr l => match l with [] => false | _ => true end
  | JObj m => match m with [] => false | _ => true end
  end.

(** [v.get(k, d)]: only a dict has [get]. *)
Definition py_get (v : json) (k : string) (d : json) : res json :=
  match v with
  | JObj m => ret (match dict_get m k with Some x => x | None => d end)
  | _ => raise AttributeError
  end.

(** [v.lower()]: only a string has [lower]. *)
Definition py_lower (v : json) : res string :=
  match v with
  | JStr s => ret (lower s)
  | _ => raise AttributeError
  end.

Fixpoint chars (s : string) : list json :=
  match s with
  | EmptyString => []
  | String c s' => JStr (String c EmptyString) :: chars s'
  end.

(** [for x in v]: the elements of a list, the keys of a dict, the characters
    of a string; the other values are not iterable. *)
Definition py_iter (v : json) : res (list json) :=
  match v with
  | JArr l => ret l
  | JObj m => ret (map (fun kv => JStr (fst kv)) m)
  | JStr s => ret (chars s)
  | _ => raise TypeError
  end.

(** ** Regular expressions of the date patterns

    Every pattern of [parse_date] is a sequence of character classes, each with
    a repetition range and possibly captured as a group, between [^] and [$].
    [re.match] tries the longest repetition first and backtracks. *)

Record item : Type := Item {
  cls : ascii -> bool;
  rmin : nat;
  rmax : option nat;
  captured : bool
}.

Fixpoint take (k : nat) (s : string) : string :=
  match k, s with
  | S k', String c s' => String c (take k' s')
  | _, _ => EmptyString
  end.

Fixpoint drop (k : nat) (s : string) : string :=
  match k, s with
  | S k', String _ s' => drop k' s'
  | _, _ => s
  end.

(** Length of the longest prefix of [s] in the class, up to the limit. *)
Fixpoint run (p : ascii -> bool) (lim : option nat) (s : string) : nat :=
  match s with
  | EmptyString => 0
  | String c s' =>
      if p c then
        match lim with
        | None => S (run p None s')
        | Some 0 => 0
        | Some (S l) => S (run p (Some l) s')
        end
      else 0
  end.

(** Try the lengths [k], [k-1], ... down to [lo]. *)
Fixpoint backtrack {R} (k lo : nat) (try : nat -> option R) : option R :=
  if k <? lo then None
  else match try k with
       | Some r => Some r
       | None => match k with
                 | 0 => None
                 | S k' => backtrack k' lo try
                 end
       end.

(** [$]: the end of the string, or just before a final newline. *)
Definition at_end (s : string) : bool :=
  match s with
  | EmptyString => true
  | String c EmptyString => code c =? 10
  | _ => false
  end.

(** [re.match] of an anchored pattern: the captured groups, in order. *)
Fixpoint match_items (its : list item) (s : string) : option (list string) :=
  match its with
  | [] => if at_end s then Some [] else None
  | it :: rest =>
      backtrack (run (cls it) (rmax it) s) (rmin it)
        (fun k =>
           match match_items rest (drop k s) with
           | Some gs => Some (if captured it then take k s :: gs else gs)
           | None => None
           end)
  end.

Definition is_char (a : ascii) (c : ascii) : bool := Ascii.eqb a c.
Definition is_sep (c : ascii) : bool := is_char "/" c || is_char "-" c.

Definition group (p : ascii -> bool) (lo : nat) (hi : option nat) : item :=
  Item p lo hi true.
Definition plain (p : ascii -> bool) (lo : nat) (hi : option nat) : item :=
  Item p lo hi false.

(** [^(\d{1,2})[/-](\d{1,2})[/-](\d{4})$] *)
Definition re_numeric : list item :=
  [group is_digit 1 (Some 2); plain is_sep 1 (Some 1);
   group is_digit 1 (Some 2); plain is_sep 1 (Some 1);
   group is_digit 4 (Some 4)].

(** [^(\d{1,2})[-](\w+)[-](\d{4})$] *)
Definition re_day_month_name : list item :=
  [group is_digit 1 (Some 2); plain (is_char "-") 1 (Some 1);
   group is_word 1 None; plain (is_char "-") 1 (Some 1);
   group is_digit 4 (Some 4)].

(** [^(\w+)\s+(\d{1,2}),?\s+(\d{4})$] *)
Definition re_month_name_day : list item :=
  [group is_word 1 None; plain is_space 1 None;
   group is_digit 1 (Some 2); plain (is_char ",") 0 (Some 1);
   plain is_space 1 None; group is_digit 4 (Some 4)].

(** [^(\d{4})[-](\d{1,2})[-](\d{1,2})$] *)
Definition re_iso : list item :=
  [group is_digit 4 (Some 4); plain (is_char "-") 1 (Some 1);
   group is_digit 1 (Some 2); plain (is_char "-") 1 (Some 1);
   group is_digit 1 (Some 2)].

(** The three groups [match[1]], [match[2]], [match[3]]. *)
Definition groups3 (gs : list string) : res (string * string * string) :=
  match gs with
  | g1 :: g2 :: g3 :: _ => ret (g1, g2, g3)
  | _ => raise IndexError
  end.

Definition month_names : pydict N :=
  [("january", 1); ("jan", 1); ("february", 2); ("feb", 2);
   ("march", 3); ("mar", 3); ("april", 4); ("apr", 4); ("may", 5);
   ("june", 6); ("jun", 6); ("july", 7); ("jul", 7);
   ("august", 8); ("aug", 8);
   ("september", 9); ("sep", 9); ("sept", 9);
   ("october", 10); ("oct", 10); ("november", 11); ("nov", 11);
   ("december", 12); ("dec", 12)]%N.

(** [f"{month:02d}/{day:02d}/{year}"] *)
Definition format_date (month day year : N) : string :=
  (pad2 month ++ "/" ++ pad2 day ++ "/" ++ str_nat year)%string.

(** ** Dates of the [datetime] module *)

Definition is_leap (y : N) : bool :=
  ((y mod 4 =? 0) && negb (y mod 100 =? 0) || (y mod 400 =? 0))%N.

Definition days_in_month (y m : N) : N :=
  (if m =? 2 then (if is_leap y then 29 else 28)
   else if (m =? 4) || (m =? 6) || (m =? 9) || (m =? 11) then 30
   else 31)%N.

(** What the constructor of [datetime] accepts. *)
Definition valid_date (y m d : N) : bool :=
  within 1 9999 y && within 1 12 m && within 1 (days_in_month y m) d.

Record datetime : Type := Datetime {
  dt_year : N;
  dt_month : N;
  dt_day : N;
  dt_valid : valid_date dt_year dt_month dt_day = true
}.

(** [f"{n:04d}"], the year as [%Y] is documented to print it. *)
Definition pad4 (n : N) : string :=
  let s := str_nat n in
  (take (4 - String.length s) "0000" ++ s)%string.

(** [date_obj.strftime("%m/%d/%Y")] *)
Definition strftime_mdY (d : datetime) : string :=
  (pad2 (dt_month d) ++ "/" ++ pad2 (dt_day d) ++ "/" ++ pad4 (dt_year d))%string.

(** The result of one rule of a function body: [Some r] when the rule
    executed [return r], [None] when control goes on to the next statement. *)
Definition step : Type := res (option string).

Definition returns (r : string) : step := ret (Some r).
Definition goes_on : step := ret None.

Definition and_then (a b : step) : step :=
  x <- a ;;
  match x with
  | Some r => returns r
  | None => b
  end.

Section Pipeline.

(** [str(v)] for a float, a list or a dict: Python's [repr] of these is not
    part of the program and is taken as given. *)
Variable py_repr : json -> string.

Definition py_str (v : json) : string :=
  match v with
  | JNull => "None"
  | JBool true => "True"
  | JBool false => "False"
  | JInt z => str_Z z
  | JStr s => s
  | _ => py_repr v
  end.

(** ** get_field_value *)

Definition sentinels : list string := [""; " "; "N/A"; "null"; "None"].

Definition get_field_value (value : json) : string :=
  if negb (truthy value) || str_in (strip (py_str value)) sentinels
  then "N/A"
  else strip (py_str value).

(** ** parse_date *)

(** [dateutil.parser.parse(date_str, fuzzy=False)]: the date it finds, or
    [None] when the call or the import raises.  The library is not part of the
    program. *)
Variable dateutil_parse : string -> option datetime.

Definition in_range_mdy (month day year : N) : bool :=
  within 1 12 month && within 1 31 day && within 1000 9999 year.

(** Pattern 1: MM/DD/YYYY or MM-DD-YYYY *)
Definition rule_month_first (date_str : string) : step :=
  match match_items re_numeric date_str with
  | Some gs =>
      '(g1, g2, g3) <- groups3 gs ;;
      month <- py_int g1 ;; day <- py_int g2 ;; year <- py_int g3 ;;
      if in_range_mdy month day year
      then returns (format_date month day year)
      else goes_on
  | None => goes_on
  end.

(** Pattern 2: DD/MM/YYYY or DD-MM-YYYY *)
Definition rule_day_first (date_str : string) : step :=
  match match_items re_numeric date_str with
  | Some gs =>
      '(g1, g2, g3) <- groups3 gs ;;
      day <- py_int g1 ;; month <- py_int g2 ;; year <- py_int g3 ;;
      if in_range_mdy month day year
      then returns (format_date month day year)
      else goes_on
  | None => goes_on
  end.

(** Pattern 3: DD-Month-YYYY *)
Definition rule_day_month_name (date_str : string) : step :=
  match match_items re_day_month_name date_str with
  | Some gs =>
      '(g1, g2, g3) <- groups3 gs ;;
      let month_str := lower g2 in
      year <- py_int g3 ;;
      match dict_get month_names month_str with
      | Some month =>
          day <- py_int g1 ;;
          if within 1 31 day
          then returns (format_date month day year)
          else goes_on
      | None => goes_on
      end
  | None => goes_on
  end.

(** Pattern 4: Month DD, YYYY *)
Definition rule_month_name_day (date_str : string) : step :=
  match match_items re_month_name_day date_str with
  | Some gs =>
      '(g1, g2, g3) <- groups3 gs ;;
      let month_str := lower g1 in
      day <- py_int g2 ;; year <- py_int g3 ;;
      match dict_get month_names month_str with
      | Some month =>
          if within 1 31 day
          then returns (format_date month day year)
          else goes_on
      | None => goes_on
      end
  | None => goes_on
  end.

(** Pattern 5: YYYY-MM-DD *)
Definition rule_iso (date_str : string) : step :=
  match match_items re_iso date_str with
  | Some gs =>
      '(g1, g2, g3) <- groups3 gs ;;
      year <- py_int g1 ;; month <- py_int g2 ;; day <- py_int g3 ;;
      if within 1 12 month && within 1 31 day
      then returns (format_date month day year)
      else goes_on
  | None => goes_on
  end.

(** The inner [try] around dateutil: any exception there is swallowed. *)
Definition rule_dateutil (date_str : string) : step :=
  match dateutil_parse date_str with
  | Some date_obj => returns (strftime_mdY date_obj)
  | None => goes_on
  end.

(** The body of the outer [try]. *)
Definition parse_date_rules (date_str : string) : step :=
  and_then (rule_month_first date_str)
  (and_then (rule_day_first date_str)
  (and_then (rule_day_month_name date_str)
  (and_then (rule_month_name_day date_str)
  (and_then (rule_iso date_str)
            (rule_dateutil date_str))))).

(** [except (ValueError, TypeError, IndexError)]: the error is printed and
    control leaves the [try]; any other exception goes to the caller. *)
Definition caught_by_parse_date (e : exn) : bool :=
  match e with
  | ValueError | TypeError | IndexError => true
  | _ => false
  end.

Definition parse_date (date_str : string) : res string :=
  if is_empty date_str || String.eqb date_str "N/A" then ret "N/A"
  else
    let date_str := strip date_str in
    match parse_date_rules date_str with
    | inr (Some r) => ret r
    | inr None => ret date_str
    | inl e => if caught_by_parse_date e then ret date_str else raise e
    end.

(** [parse_date] with the pattern-2 branch removed, to compare with. *)
Definition parse_date_rules_without_rule2 (date_str : string) : step :=
  and_then (rule_month_first date_str)
  (and_then (rule_day_month_name date_str)
  (and_then (rule_month_name_day date_str)
  (and_then (rule_iso date_str)
            (rule_dateutil date_str)))).

Definition parse_date_without_rule2 (date_str : string) : res string :=
  if is_empty date_str || String.eqb date_str "N/A" then ret "N/A"
  else
    let date_str := strip date_str in
    match parse_date_rules_without_rule2 date_str with
    | inr (Some r) => ret r
    | inr None => ret date_str
    | inl e => if caught_by_parse_date e then ret date_str else raise e
    end.

(** ** identify_document_type *)

Definition w2_indicators : list string := ["w2"; "w-2"; "income w-2"].
Definition form1120_indicators : list string := ["1120"; "form 1120"].

(** [any(ind in meta_type or ind in title for ind in indicators)] *)
Definition any_indicator (indicators : list string) (meta_type title : string)
  : bool :=
  existsb (fun ind => contains ind meta_type || contains ind title) indicators.

(** [v == s] for a string literal [s]. *)
Definition py_eq_str (v : json) (s : string) : bool :=
  match v with
  | JStr x => String.eqb x s
  | _ => false
  end.

(** First loop over the skills: substrings of the lowered name. *)
Fixpoint scan_skill_names (skills : list json) : step :=
  match skills with
  | [] => goes_on
  | skill :: rest =>
      n <- py_get skill "SkillName" (JStr "") ;;
      skill_name <- py_lower n ;;
      if contains "1120" skill_name then returns "1120"
      else if contains "w2" skill_name || contains "w-2" skill_name
      then returns "w2"
      else if contains "paystub" skill_name then returns "paystub"
      else scan_skill_names rest
  end.

(** Second loop over the skills: the exact names. *)
Fixpoint scan_exact_names (skills : list json) : step :=
  match skills with
  | [] => goes_on
  | skill :: rest =>
      skill_name <- py_get skill "SkillName" (JStr "") ;;
      if py_eq_str skill_name "IC - 1120" then returns "1120"
      else if py_eq_str skill_name "IC - W2" then returns "w2"
      else if py_eq_str skill_name "IC - Paystubs" then returns "paystub"
      else scan_exact_names rest
  end.

(** [for skill in json_data.get("Summary", []): ...] with the loop body given. *)
Definition over_summary (json_data : json) (loop : list json -> step) : step :=
  summary <- py_get json_data "Summary" (JArr []) ;;
  skills <- py_iter summary ;;
  loop skills.

(** A rule followed by the rest of a body that ends in a [return]. *)
Definition or_return (a : step) (b : res string) : res string :=
  x <- a ;;
  match x with
  | Some r => ret r
  | None => b
  end.

(** The body of the [try] of [identify_document_type]. *)
Definition identify_body (json_data : json) : res string :=
  meta <- py_get json_data "Meta" (JObj []) ;;
  ty <- py_get meta "Type" (JStr "") ;;
  meta_type <- py_lower ty ;;
  t <- py_get json_data "Title" (JStr "") ;;
  title <- py_lower t ;;
  if any_indicator w2_indicators meta_type title then ret "w2"
  else if any_indicator form1120_indicators meta_type title then ret "1120"
  else
    or_return (over_summary json_data scan_skill_names)
   (or_return (over_summary json_data scan_exact_names)
              (ret "paystub")).

(** [except Exception: return "paystub"] *)
Definition identify_document_type (json_data : json) : string :=
  match identify_body json_data with
  | inr doc_type => doc_type
  | inl _ => "paystub"
  end.

(** ** extract_from_labels *)

(** The canonical record under construction: a dict of strings. *)
Definition record : Type := pydict string.

(** The loop over [label["Values"]]: the cleaned values that are not "N/A". *)
Fixpoint valid_values (items : list json) : res (list string) :=
  match items with
  | [] => ret []
  | value_item :: rest =>
      v <- py_get value_item "Value" (JStr "N/A") ;;
      let value := get_field_value v in
      vs <- valid_values rest ;;
      ret (if negb (is_empty value) && negb (String.eqb value "N/A")
           then value :: vs else vs)
  end.

(** [label_name in label_map]: the field the name maps to, if any.  A list or
    a dict is not hashable. *)
Definition mapped_field (label_map : pydict string) (label_name : json)
  : res (option string) :=
  match label_name with
  | JStr n => ret (dict_get label_map n)
  | JArr _ | JObj _ => raise TypeError
  | _ => ret None
  end.

(** The first [if] of the loop body: what one label writes. *)
Definition read_label (label_map : pydict string) (label : json)
  (base_data : record) : res record :=
  label_name <- py_get label "LabelName" JNull ;;
  field <- mapped_field label_map label_name ;;
  match field with
  | Some f =>
      values <- py_get label "Values" JNull ;;
      if truthy values then
        items <- py_iter values ;;
        vs <- valid_values items ;;
        match vs with
        | v :: _ => ret (dict_set base_data f v)
        | [] => ret base_data
        end
      else ret base_data
  | None => ret base_data
  end.

(** Lookup of a member with both continuations given. *)
Definition with_member {R} (k : string) (found : json -> R) (absent : R)
  : list (string * json) -> R :=
  fix go (m : list (string * json)) : R :=
    match m with
    | [] => absent
    | (k', v) :: m' => if String.eqb k' k then found v else go m'
    end.

(** The body of a loop run on each element of a list, in order. *)
Definition for_each (body : json -> record -> res record)
  : list json -> record -> res record :=
  fix go (l : list json) (bd : record) : res record :=
    match l with
    | [] => ret bd
    | label :: l' => bd' <- body label bd ;; go l' bd'
    end.

(** [for label in labels: body(label)] on the record.  The elements of a
    dict or of a string are strings, on which the body's first statement
    [label.get("LabelName")] raises [AttributeError]; lemma
    [extract_from_labels_iterates] states the loop through [py_iter]. *)
Definition for_labels (body : json -> record -> res record)
  : json -> record -> res record :=
  fun labels base_data =>
    match labels with
    | JArr l => for_each body l base_data
    | JObj m => match m with [] => ret base_data | _ => raise AttributeError end
    | JStr s => if is_empty s then ret base_data else raise AttributeError
    | _ => raise TypeError
    end.

(** The loop body of [extract_from_labels] for one label: the write of the
    label, then the recursive call on its [ChildLabels] when the label has
    the key and its value is truthy.  (A label that is not a dict has raised
    in [read_label] already.) *)
Fixpoint extract_label (label_map : pydict string) (label : json)
  (base_data : record) {struct label} : res record :=
  base_data <- read_label label_map label base_data ;;
  match label with
  | JObj members =>
      with_member "ChildLabels"
        (fun children =>
           if truthy children
           then for_labels (extract_label label_map) children base_data
           else ret base_data)
        (ret base_data) members
  | _ => raise AttributeError
  end.

Definition extract_from_labels (labels : json) (label_map : pydict string)
  (base_data : record) : res record :=
  for_labels (extract_label label_map) labels base_data.

(** ** parse_date_fields *)

Definition date_fields_of (doc_type : string) : list string :=
  if String.eqb doc_type "paystub"
  then ["pay_period_end_date"; "pay_period_start_date"]
  else if String.eqb doc_type "1120"
  then ["beginning_tax_year"; "ending_tax_year"]
  else [].

(** The loop over the date fields; an exception ends it with the record as
    it is ([except Exception: return base_data]). *)
Fixpoint parse_date_loop (fields : list string) (base_data : record) : record :=
  match fields with
  | [] => base_data
  | field :: rest =>
      match dict_get base_data field with
      | Some v =>
          if negb (String.eqb v "N/A") then
            match parse_date v with
            | inr parsed_date =>
                parse_date_loop rest (dict_set base_data field parsed_date)
            | inl _ => base_data
            end
          else parse_date_loop rest base_data
      | None => parse_date_loop rest base_data
      end
  end.

Definition parse_date_fields (base_data : record) (doc_type : string) : record :=
  parse_date_loop (date_fields_of doc_type) base_data.

(** ** extract_document_data *)

(** What [extract_document_data] returns:
    [(base_data, doc_type, None)], [(None, doc_type, reason)] or
    [(None, None, f"Error extracting data: {e}")]. *)
Inductive outcome : Type :=
| Extracted (base_data : record) (doc_type : string)
| Rejected (doc_type : string) (reason : string)
| Failed (e : exn).

(** [base_data.update(d)] *)
Definition dict_update {V} (base : pydict V) (d : pydict V) : pydict V :=
  fold_left (fun b kv => dict_set b (fst kv) (snd kv)) d base.

Definition all_na (fields : list string) : pydict string :=
  map (fun f => (f, "N/A")) fields.

(** The three branches on [doc_type]: required fields, skill name, label map. *)
Definition required_fields_of (doc_type : string) : list string :=
  if String.eqb doc_type "paystub"
  then ["employee_name"; "employer_name"; "pay_period_end_date";
        "pay_period_start_date"; "year_to_date_earnings"]
  else if String.eqb doc_type "w2"
  then ["employee_name"; "employer_name"; "year"]
  else ["name"; "year"; "beginning_tax_year"; "ending_tax_year"].

Definition skill_name_of (doc_type : string) : string :=
  if String.eqb doc_type "paystub" then "IC - Paystubs"
  else if String.eqb doc_type "w2" then "IC - W2"
  else "2023 1120 Corporation1".

Definition label_map_of (doc_type : string) : pydict string :=
  if String.eqb doc_type "paystub"
  then [("Employee Name", "employee_name");
        ("Employer Name", "employer_name");
        ("Pay Period End Date", "pay_period_end_date");
        ("Pay Period Start Date", "pay_period_start_date");
        ("Year to Date Earnings", "year_to_date_earnings")]
  else if String.eqb doc_type "w2"
  then [("Employee Name", "employee_name");
        ("Employer Name", "employer_name");
        ("Year", "year")]
  else [("Name", "name");
        ("1120 Year", "year");
        ("Beginning Date Of Tax Year", "beginning_tax_year");
        ("Ending Date Of Tax Year", "ending_tax_year")].

(** The loop over the skills: the record after extraction from the first
    skill of the wanted name, or [None] when there is none. *)
Fixpoint find_skill (skill_name : string) (label_map : pydict string)
  (skills : list json) (base_data : record) : res (option record) :=
  match skills with
  | [] => ret None
  | skill :: rest =>
      n <- py_get skill "SkillName" JNull ;;
      if py_eq_str n skill_name then
        labels <- py_get skill "Labels" (JArr []) ;;
        bd <- extract_from_labels labels label_map base_data ;;
        ret (Some bd)
      else find_skill skill_name label_map rest base_data
  end.

(** [base_data.get(field) == "N/A" or base_data.get(field) == ""] *)
Definition is_missing (base_data : record) (field : string) : bool :=
  match dict_get base_data field with
  | Some v => String.eqb v "N/A" || String.eqb v ""
  | None => false
  end.

Definition extract_body (json_data : json) (filename : string) : res outcome :=
  let doc_type := identify_document_type json_data in
  meta <- py_get json_data "Meta" (JObj []) ;;
  name <- py_get meta "FileName" (JStr filename) ;;
  let base_data : record :=
    [("document_type", doc_type);
     ("filename", (get_field_value name ++ ".json")%string);
     ("docId", "")] in
  let required_fields := required_fields_of doc_type in
  let base_data := dict_update base_data (all_na required_fields) in
  let skill_name := skill_name_of doc_type in
  let label_map := label_map_of doc_type in
  summary <- py_get json_data "Summary" (JArr []) ;;
  skills <- py_iter summary ;;
  found <- find_skill skill_name label_map skills base_data ;;
  match found with
  | None =>
      ret (Rejected doc_type
             ("Required skill '" ++ skill_name ++ "' not found")%string)
  | Some base_data =>
      let base_data := parse_date_fields base_data doc_type in
      let missing_fields := filter (is_missing base_data) required_fields in
      match missing_fields with
      | _ :: _ =>
          ret (Rejected doc_type
                 ("Missing fields: " ++ String.concat ", " missing_fields)%string)
      | [] => ret (Extracted (dict_set base_data "status" "original") doc_type)
      end
  end.

(** [except Exception as e: return None, None, ...] *)
Definition extract_document_data (json_data : json) (filename : string)
  : outcome :=
  match extract_body json_data filename with
  | inr o => o
  | inl e => Failed e
  end.

(** ** get_grouping_key *)

(** [doc[k]] *)
Definition py_index {V} (doc : pydict V) (k : string) : res V :=
  match dict_get doc k with
  | Some v => ret v
  | None => raise KeyError
  end.

(** The tuple [(get_field_value(doc[k1]), ..., get_field_value(doc[kn]))],
    its components evaluated from left to right. *)
Fixpoint cleaned_tuple (doc : record) (keys : list string) : res (list string) :=
  match keys with
  | [] => ret []
  | k :: keys' =>
      v <- py_index doc k ;;
      vs <- cleaned_tuple doc keys' ;;
      ret (get_field_value (JStr v) :: vs)
  end.

Definition identity_fields (doc_type : string) : list string :=
  if String.eqb doc_type "paystub"
  then ["employee_name"; "employer_name"; "pay_period_start_date";
        "pay_period_end_date"; "year_to_date_earnings"]
  else if String.eqb doc_type "w2"
  then ["employee_name"; "employer_name"; "year"]
  else ["name"; "year"; "beginning_tax_year"; "ending_tax_year"].

(** The tuples of the [except] branch. *)
Definition na_tuple (doc_type : string) : list string :=
  if String.eqb doc_type "paystub" then ["N/A"; "N/A"; "N/A"; "N/A"; "N/A"]
  else if String.eqb doc_type "w2" then ["N/A"; "N/A"; "N/A"]
  else ["N/A"; "N/A"; "N/A"; "N/A"].

Definition get_grouping_key (doc : record) (doc_type : string) : list string :=
  match cleaned_tuple doc (identity_fields doc_type) with
  | inr key => key
  | inl _ => na_tuple doc_type
  end.

(** ** Grouping and marking (process_documents, one document type) *)

Definition key_eqb (k1 k2 : list string) : bool :=
  if list_eq_dec string_dec k1 k2 then true else false.

(** [groups[key].append(doc)] on a [defaultdict(list)]: keys stay in the
    order of their first insertion. *)
Fixpoint group_append (groups : list (list string * list record))
  (key : list string) (doc : record) : list (list string * list record) :=
  match groups with
  | [] => [(key, [doc])]
  | (k, g) :: rest =>
      if key_eqb k key then (k, g ++ [doc]) :: rest
      else (k, g) :: group_append rest key doc
  end.

Definition group_by_key (doc_type : string) (docs : list record)
  : list (list string * list record) :=
  fold_left
    (fun groups doc => group_append groups (get_grouping_key doc doc_type) doc)
    docs [].

(** Stable sort by a string key, ascending. *)
Fixpoint insert_by_key (x : string * record) (l : list (string * record))
  : list (string * record) :=
  match l with
  | [] => [x]
  | y :: l' =>
      if String.leb (fst x) (fst y) then x :: y :: l'
      else y :: insert_by_key x l'
  end.

Fixpoint sort_by_key (l : list (string * record)) : list (string * record) :=
  match l with
  | [] => []
  | x :: l' => insert_by_key x (sort_by_key l')
  end.

Fixpoint keyed (group_docs : list record) : res (list (string * record)) :=
  match group_docs with
  | [] => ret []
  | x :: rest =>
      k <- py_index x "filename" ;;
      ks <- keyed rest ;;
      ret ((k, x) :: ks)
  end.

(** [group_docs.sort(key=lambda x: x["filename"])] *)
Definition sort_by_filename (group_docs : list record) : res (list record) :=
  ks <- keyed group_docs ;;
  ret (map snd (sort_by_key ks)).

(** The loop [for i, doc in enumerate(group_docs)] from index [i] on. *)
Fixpoint mark_from (i : nat) (group_docs : list record) : list record :=
  match group_docs with
  | [] => []
  | doc :: rest =>
      let doc_copy :=
        filter (fun kv => negb (String.eqb (fst kv) "status")) doc in
      dict_set doc_copy "status"
        (match i with 0 => "original" | _ => "duplicate" end)
      :: mark_from (S i) rest
  end.

(** The loop over [groups.values()]. *)
Fixpoint mark_groups (groups : list (list string * list record))
  : res (list record) :=
  match groups with
  | [] => ret []
  | (_, group_docs) :: rest =>
      sorted <- sort_by_filename group_docs ;;
      others <- mark_groups rest ;;
      ret (mark_from 0 sorted ++ others)
  end.

Definition processed_docs (doc_type : string) (docs : list record)
  : res (list record) :=
  mark_groups (group_by_key doc_type docs).

(** ** process_documents: the loop over the files and the final output

    A file is given by its base name and by what [json.load] returns for it,
    [None] when opening or decoding the file raises.  The run is given by
    what it writes and prints: the [final_output] mapping of the output file
    and the counters of the report. *)

Record run_state : Type := RunState {
  documents : pydict (list record);
  processed_files : nat;
  error_files : nat;
  error_file_list : list string
}.

Definition initial_state : run_state :=
  RunState [("paystub", []); ("w2", []); ("1120", [])] 0 0 [].

(** [error_files += 1; error_file_list.append(basename)] *)
Definition count_error (st : run_state) (name : string) : run_state :=
  RunState (documents st) (processed_files st) (S (error_files st))
    (error_file_list st ++ [name]).

(** [bool(d)] for a dict. *)
Definition dict_truthy {V} (d : pydict V) : bool :=
  match d with
  | [] => false
  | _ => true
  end.

(** The body of the loop over the files.  [documents[doc_type]] raises
    [KeyError] on an unknown type, which [except Exception] counts as an
    error of the file. *)
Definition load_file (st : run_state) (file : string * option json)
  : run_state :=
  match snd file with
  | None => count_error st (fst file)
  | Some json_data =>
      match extract_document_data json_data (fst file) with
      | Extracted data doc_type =>
          if dict_truthy data && negb (is_empty doc_type) then
            match dict_get (documents st) doc_type with
            | Some docs =>
                RunState (dict_set (documents st) doc_type (docs ++ [data]))
                  (S (processed_files st)) (error_files st)
                  (error_file_list st)
            | None => count_error st (fst file)
            end
          else count_error st (fst file)
      | Rejected _ _ => count_error st (fst file)
      | Failed _ => count_error st (fst file)
      end
  end.

Definition load_files (files : list (string * option json)) : run_state :=
  fold_left load_file files initial_state.

(** The key of [final_output] for a document type. *)
Definition output_key (doc_type : string) : string :=
  if String.eqb doc_type "paystub" then "Paystubs"
  else if String.eqb doc_type "w2" then "W2"
  else "1120".

(** The loop over [documents.items()]: group, sort and mark each type. *)
Fixpoint finalize (items : list (string * list record))
  (final_output : pydict (list record)) : res (pydict (list record)) :=
  match items with
  | [] => ret final_output
  | (doc_type, docs) :: rest =>
      out <- processed_docs doc_type docs ;;
      finalize rest (dict_set final_output (output_key doc_type) out)
  end.

(** The run: the mapping written under ["finalisation"] and the state the
    report is printed from. *)
Definition process_documents (files : list (string * option json))
  : res (pydict (list record) * run_state) :=
  let st := load_files files in
  final_output <- finalize (documents st) [] ;;
  ret (final_output, st).

(** [len(final_output.get(key, []))], the count printed for a type. *)
Definition found_count (final_output : pydict (list record))
  (doc_type : string) : nat :=
  match dict_get final_output (output_key doc_type) with
  | Some docs => List.length docs
  | None => 0
  end.

End Pipeline.


(** ** The specification's reading of dates *)

Fixpoint string_forall (p : ascii -> bool) (s : string) : bool :=
  match s with
  | EmptyString => true
  | String c s' => p c && string_forall p s'
  end.

(** The number a string of digits denotes (0 for any other string). *)
Definition digits_value (s : string) : N :=
  match NilEmpty.uint_of_string s with
  | Some d => N.of_uint d
  | None => 0
  end.

(** The normalised form MM/DD/YYYY: zero-padded, month 1-12, day 1-31,
    year 1000-9999. *)
Definition is_mmddyyyy (s : string) : bool :=
  let mm := take 2 s in
  let dd := take 2 (drop 3 s) in
  let yyyy := drop 6 s in
  (String.length s =? 10)
  && string_forall is_digit mm && string_forall is_digit dd
  && string_forall is_digit yyyy
  && String.eqb (take 1 (drop 2 s)) "/" && String.eqb (take 1 (drop 5 s)) "/"
  && within 1 12 (digits_value mm) && within 1 31 (digits_value dd)
  && within 1000 9999 (digits_value yyyy).

(** The three numbers of an input of the shape of patterns 1 and 2. *)
Definition numeric_triple (date_str : string) : option (N * N * N) :=
  match match_items re_numeric date_str with
  | Some (g1 :: g2 :: g3 :: _) =>
      match py_int g1, py_int g2, py_int g3 with
      | inr a, inr b, inr y => Some (a, b, y)
      | _, _, _ => None
      end
  | _ => None
  end.

(** The inputs that pattern 2 decides: a numeric triple whose first number
    is a day above 12 and whose second number is a month. *)
Definition rule2_decides (date_str : string) : bool :=
  negb (is_empty date_str || String.eqb date_str "N/A") &&
  match numeric_triple (strip date_str) with
  | Some (a, b, y) => within 13 31 a && within 1 12 b && within 1000 9999 y
  | None => false
  end.

(** ** The specification's reading of field extraction *)

(** The labels of a tree in depth-first order: a label, then its children
    from left to right, each with its own subtree. *)
Fixpoint visit_order (label : json) : list json :=
  label ::
  match label with
  | JObj members =>
      with_member "ChildLabels"
        (fun children =>
           match children with
           | JArr l => flat_map visit_order l
           | _ => []
           end)
        [] members
  | _ => []
  end.

Definition forest_order (labels : json) : list json :=
  match labels with
  | JArr l => flat_map visit_order l
  | _ => []
  end.

Definition is_object (v : json) : bool :=
  match v with
  | JObj _ => true
  | _ => false
  end.

(** The Label shape of the data model (section 3): an object whose
    [LabelName], when present, is a string; whose [Values], when present, is
    null or a sequence of objects; whose [ChildLabels], when present, is null
    or a sequence of labels. *)
Fixpoint wf_label (label : json) : bool :=
  match label with
  | JObj members =>
      match dict_get members "LabelName" with
      | None | Some (JStr _) => true
      | Some _ => false
      end
      &&
      match dict_get members "Values" with
      | None | Some JNull => true
      | Some (JArr items) => forallb is_object items
      | Some _ => false
      end
      &&
      with_member "ChildLabels"
        (fun children =>
           match children with
           | JNull => true
           | JArr l => forallb wf_label l
           | _ => false
           end)
        true members
  | _ => false
  end.

Definition wf_forest (labels : json) : bool :=
  match labels with
  | JArr l => forallb wf_label l
  | _ => false
  end.

Section ExtractionReading.

Variable py_repr : json -> string.
Variable label_map : pydict string.

(** The raw value a value-wrapper exposes ("N/A" when it has none). *)
Definition raw_value (value_item : json) : json :=
  match value_item with
  | JObj m =>
      match dict_get m "Value" with
      | Some v => v
      | None => JStr "N/A"
      end
  | _ => JNull
  end.

(** The first value of the sequence whose cleaned form is not "N/A". *)
Fixpoint first_valid_value (items : list json) : option string :=
  match items with
  | [] => None
  | value_item :: rest =>
      let v := get_field_value py_repr (raw_value value_item) in
      if String.eqb v "N/A" then first_valid_value rest else Some v
  end.

(** What a visited label writes: the field its name maps to and the first
    valid value of its [Values], when it has both. *)
Definition label_write (label : json) : option (string * string) :=
  match label with
  | JObj m =>
      match dict_get m "LabelName" with
      | Some (JStr n) =>
          match dict_get label_map n, dict_get m "Values" with
          | Some field, Some (JArr items) =>
              match first_valid_value items with
              | Some v => Some (field, v)
              | None => None
              end
          | _, _ => None
          end
      | _ => None
      end
  | _ => None
  end.

Definition apply_write (base_data : record) (label : json) : record :=
  match label_write label with
  | Some (field, v) => dict_set base_data field v
  | None => base_data
  end.

(** The value last written to [field], after one more label. *)
Definition note_write (field : string) (acc : option string) (label : json)
  : option string :=
  match label_write label with
  | Some (f, v) => if String.eqb f field then Some v else acc
  | None => acc
  end.

(** The value written to [field] by the last label of a visiting order that
    writes to it. *)
Definition last_write (field : string) (order : list json) : option string :=
  fold_left (note_write field) order None.

End ExtractionReading.

(** ** The specification's reading of grouping *)

(** A record without its status entry. *)
Definition without_status (doc : record) : record :=
  filter (fun kv => negb (String.eqb (fst kv) "status")) doc.

Definition status_of (doc : record) : option string := dict_get doc "status".
Definition filename_of (doc : record) : option string := dict_get doc "filename".

(** The CanonicalRecord of a type (section 3), as [extract_document_data]
    lays it out: type, filename, docId, the fields of the type, status. *)
Definition canonical_record (doc_type filename : string)
  (values : list string) : record :=
  [("document_type", doc_type); ("filename", filename); ("docId", "")]
  ++ combine (required_fields_of doc_type) values
  ++ [("status", "original")].

(** A cluster after marking: its first record is the original, every other
    one a duplicate, and no record of the cluster has a smaller filename
    than the original. *)
Definition cluster_marked (cluster : list record) : Prop :=
  match cluster with
  | [] => True
  | o :: rest =>
      status_of o = Some "original" /\
      Forall (fun d => status_of d = Some "duplicate") rest /\
      Forall (fun d => exists fo fd,
                  filename_of o = Some fo /\ filename_of d = Some fd /\
                  String.leb fo fd = true) rest
  end.

Section GroupingReading.

Variable py_repr : json -> string.

(** A valid CanonicalRecord: every field of the type holds a cleaned value
    other than "N/A". *)
Definition valid_canonical (doc_type : string) (doc : record) : Prop :=
  exists filename values,
    doc = canonical_record doc_type filename values /\
    List.length values = List.length (required_fields_of doc_type) /\
    Forall (fun v => v <> "N/A" /\ get_field_value py_repr (JStr v) = v) values.

(** The records of a collection that have the grouping key [k]. *)
Definition cluster_of (doc_type : string) (k : list string)
  (docs : list record) : list record :=
  filter (fun d => key_eqb (get_grouping_key py_repr d doc_type) k) docs.

(** The grouping keys of a collection, each once, in the order of their
    first record. *)
Definition keys_in_order (doc_type : string) (docs : list record)
  : list (list string) :=
  fold_left
    (fun ks d =>
       let k := get_grouping_key py_repr d doc_type in
       if existsb (key_eqb k) ks then ks else ks ++ [k])
    docs [].

End GroupingReading.

(** ** The specification's reading of the classifier and of a raw record *)

(** Number of components of a grouping key, by document type. *)
Definition key_arity (doc_type : string) : nat :=
  if String.eqb doc_type "paystub" then 5
  else if String.eqb doc_type "w2" then 3
  else 4.

(** The first element of a sequence on which a rule gives a type. *)
Fixpoint first_hit {A} (hit : A -> option string) (l : list A) : option string :=
  match l with
  | [] => None
  | x :: l' =>
      match hit x with
      | Some r => Some r
      | None => first_hit hit l'
      end
  end.

(** Step 2 of the resolution order, on a lowered skill name. *)
Definition substring_hit (skill_name : string) : option string :=
  if contains "1120" skill_name then Some "1120"
  else if contains "w2" skill_name || contains "w-2" skill_name then Some "w2"
  else if contains "paystub" skill_name then Some "paystub"
  else None.

(** Step 3 of the resolution order, on a skill name as given. *)
Definition exact_hit (skill_name : string) : option string :=
  if String.eqb skill_name "IC - 1120" then Some "1120"
  else if String.eqb skill_name "IC - W2" then Some "w2"
  else if String.eqb skill_name "IC - Paystubs" then Some "paystub"
  else None.

(** The resolution order as the specification words it (section 4.1), on
    the [Meta.Type], the [Title] and the skill names of a record. *)
Definition classify_in_order (meta_type title : string)
  (skill_names : list string) : string :=
  let mt := lower meta_type in
  let t := lower title in
  if existsb (fun i => contains i mt || contains i t) ["w2"; "w-2"; "income w-2"]
  then "w2"
  else if existsb (fun i => contains i mt || contains i t) ["1120"; "form 1120"]
  then "1120"
  else match first_hit substring_hit (map lower skill_names) with
       | Some r => r
       | None =>
           match first_hit exact_hit skill_names with
           | Some r => r
           | None => "paystub"
           end
       end.

(** An optional string member: absent reads as the empty string. *)
Definition optional_string (o : option json) : option string :=
  match o with
  | None => Some ""
  | Some (JStr s) => Some s
  | Some _ => None
  end.

Definition skill_name_view (skill : json) : option string :=
  match skill with
  | JObj m => optional_string (dict_get m "SkillName")
  | _ => None
  end.

Fixpoint skill_names_view (skills : list json) : option (list string) :=
  match skills with
  | [] => Some []
  | skill :: rest =>
      match skill_name_view skill, skill_names_view rest with
      | Some n, Some ns => Some (n :: ns)
      | _, _ => None
      end
  end.

(** The [Meta.Type], [Title] and skill names of a record of the RawRecord
    shape (section 3): optional [Meta] object with an optional [Type] string,
    optional [Title] string, optional [Summary] sequence of skill objects. *)
Definition raw_view (json_data : json)
  : option (string * string * list string) :=
  match json_data with
  | JObj m =>
      let meta_type :=
        match dict_get m "Meta" with
        | None => Some ""
        | Some (JObj meta) => optional_string (dict_get meta "Type")
        | Some _ => None
        end in
      let names :=
        match dict_get m "Summary" with
        | None => Some []
        | Some (JArr skills) => skill_names_view skills
        | Some _ => None
        end in
      match meta_type, optional_string (dict_get m "Title"), names with
      | Some mt, Some t, Some ns => Some (mt, t, ns)
      | _, _, _ => None
      end
  | _ => None
  end.

(** ** Notions used in the proofs *)

(** The three document types. *)
Definition is_doc_type (r : string) : Prop :=
  r = "paystub" \/ r = "w2" \/ r = "1120".

(** A skill object whose name is not the given one. *)
Definition other_skill (skill_name : string) (skill : json) : Prop :=
  exists m, skill = JObj m /\ dict_get m "SkillName" <> Some (JStr skill_name).

(** The digits, for exhaustive checks of short digit strings. *)
Definition digit_chars : list ascii :=
  ["0"; "1"; "2"; "3"; "4"; "5"; "6"; "7"; "8"; "9"]%char.

(** All the strings of [k] digits. *)
Fixpoint digit_strings (k : nat) : list string :=
  match k with
  | 0 => [EmptyString]
  | S k' => flat_map (fun c => map (String c) (digit_strings k')) digit_chars
  end.

(** The [k] numbers from [start] on. *)
Fixpoint N_range (k : nat) (start : N) : list N :=
  match k with
  | 0 => []
  | S k' => start :: N_range k' (N.succ start)
  end.

(** A string that an item can have matched. *)
Definition in_class (it : item) (g : string) : Prop :=
  string_forall (cls it) g = true /\
  rmin it <= String.length g /\
  match rmax it with
  | Some h => String.length g <= h
  | None => True
  end.

(** The groups of a match, item by item. *)
Fixpoint groups_ok (its : list item) (gs : list string) : Prop :=
  match its with
  | [] => gs = []
  | it :: rest =>
      if captured it then
        match gs with
        | g :: gs' => in_class it g /\ groups_ok rest gs'
        | [] => False
        end
      else groups_ok rest gs
  end.

(** A month/day/year text whose year is below 1000: the year is printed as
    it is, or zero-padded by [strftime]. *)
Definition short_year_date (r : string) : Prop :=
  exists m d y ytext,
    (1 <= m <= 12 /\ 1 <= d <= 31 /\ y < 1000)%N /\
    (ytext = str_nat y \/ ytext = pad4 y) /\
    r = (pad2 m ++ "/" ++ pad2 d ++ "/" ++ ytext)%string.

Definition date_result (r : string) : Prop :=
  is_mmddyyyy r = true \/ short_year_date r.

(** The copy of a record with its new status. *)
Definition marked (status : string) (doc : record) : record :=
  dict_set (without_status doc) "status" status.

(** The order of the sort: by the key of a decorated record. *)
Definition key_le (p q : string * record) : Prop :=
  String.leb (fst p) (fst q) = true.

(** The filename a record is sorted by. *)
Definition fname (d : record) : string :=
  match filename_of d with
  | Some f => f
  | None => EmptyString
  end.

Definition decorate (group_docs : list record) : list (string * record) :=
  map (fun d => (fname d, d)) group_docs.

(** A group sorted by filename. *)
Definition by_filename (group_docs : list record) : list record :=
  map snd (sort_by_key (decorate group_docs)).

Definition has_filename (d : record) : Prop := filename_of d <> None.

(** The output records of the cluster of [k]. *)
Definition block (py_repr : json -> string) (doc_type : string)
  (docs : list record) (k : list string) : list record :=
  mark_from 0 (by_filename (cluster_of py_repr doc_type k docs)).

(** A label on which extraction performs the writes of its subtree in
    depth-first order. *)
Definition extracts_in_order (py_repr : json -> string)
  (label_map : pydict string) (label : json) : Prop :=
  wf_label label = true ->
  forall base_data,
    extract_label py_repr label_map label base_data
    = ret (fold_left (apply_write py_repr label_map) (visit_order label)
             base_data).

(** The characters of a printed date. *)
Definition date_char (c : ascii) : bool := is_digit c || is_char "/" c.

(** A cleaned value: cleaning it again changes nothing. *)
Definition cleaned (py_repr : json -> string) (v : string) : Prop :=
  get_field_value py_repr (JStr v) = v.

(** The record before its status is set. *)
Definition partial_record (doc_type filename : string)
  (values : list string) : record :=
  [("document_type", doc_type); ("filename", filename); ("docId", "")]
  ++ combine (required_fields_of doc_type) values.

(** The record while [extract_document_data] fills it: the layout of the
    type, every field holding a cleaned value. *)
Definition under_construction (py_repr : json -> string)
  (doc_type : string) (bd : record) : Prop :=
  exists filename values,
    bd = partial_record doc_type filename values /\
    List.length values = List.length (required_fields_of doc_type) /\
    Forall (cleaned py_repr) values.

(** A label whose extraction keeps the layout of the record. *)
Definition keeps_layout (py_repr : json -> string) (doc_type : string)
  (label : json) : Prop :=
  forall bd bd',
    extract_label py_repr (label_map_of doc_type) label bd = inr bd' ->
    under_construction py_repr doc_type bd ->
    under_construction py_repr doc_type bd'.

Section JsonInduction.

Variable P : json -> Prop.
Hypothesis HNull : P JNull.
Hypothesis HBool : forall b, P (JBool b).
Hypothesis HInt : forall z, P (JInt z).
Hypothesis HFloat : forall f, P (JFloat f).
Hypothesis HStr : forall s, P (JStr s).
Hypothesis HArr : forall l, Forall P l -> P (JArr l).
Hypothesis HObj : forall m, Forall (fun kv => P (snd kv)) m -> P (JObj m).

(** Induction on a JSON value, with the hypothesis for every element of an
    array and every member of an object. *)
Fixpoint json_nested_ind (j : json) : P j :=
  match j with
  | JNull => HNull
  | JBool b => HBool b
  | JInt z => HInt z
  | JFloat f => HFloat f
  | JStr s => HStr s
  | JArr l =>
      HArr l
        ((fix go (l : list json) : Forall P l :=
            match l with
            | [] => Forall_nil P
            | x :: l' => Forall_cons x (json_nested_ind x) (go l')
            end) l)
  | JObj m =>
      HObj m
        ((fix go (m : list (string * json))
            : Forall (fun kv => P (snd kv)) m :=
            match m with
            | [] => Forall_nil _
            | kv :: m' =>
                Forall_cons (P := fun kv => P (snd kv)) kv
                  (json_nested_ind (snd kv)) (go m')
            end) m)
  end.

End JsonInduction.

(** ** Date texts *)

(** A string of [lo] to [hi] digits. *)
Definition digit_text (lo hi : nat) (s : string) : bool :=
  string_forall is_digit s && between lo hi (String.length s).

(** A non-empty string of whitespace. *)
Definition blank_text (s : string) : bool :=
  string_forall is_space s && negb (is_empty s).

(** The letters A-Z and a-z. *)
Definition is_letter (c : ascii) : bool :=
  between 65 90 (code c) || between 97 122 (code c).

Definition is_lower_letter (c : ascii) : bool := between 97 122 (code c).

(** A text without any digit. *)
Definition no_digit (s : string) : bool :=
  string_forall (fun c => negb (is_digit c)) s.

(** Where a greedy repetition that has matched [w] stops before [s]: at its
    upper bound, or before a character outside the class, or at the end. *)
Definition stops_at (it : item) (w s : string) : Prop :=
  rmax it = Some (String.length w) \/
  (match rmax it with
   | Some h => String.length w <= h
   | None => True
   end /\
   match s with
   | EmptyString => True
   | String c _ => cls it c = false
   end).

(** ** The classifier without its second loop *)

(** The body of [identify_document_type] with the loop over the exact skill
    names removed, to compare with. *)
Definition identify_body_without_exact_names (json_data : json) : res string :=
  meta <- py_get json_data "Meta" (JObj []) ;;
  ty <- py_get meta "Type" (JStr "") ;;
  meta_type <- py_lower ty ;;
  t <- py_get json_data "Title" (JStr "") ;;
  title <- py_lower t ;;
  if any_indicator w2_indicators meta_type title then ret "w2"
  else if any_indicator form1120_indicators meta_type title then ret "1120"
  else
    or_return (over_summary json_data scan_skill_names) (ret "paystub").

Definition identify_document_type_without_exact_names (json_data : json)
  : string :=
  match identify_body_without_exact_names json_data with
  | inr doc_type => doc_type
  | inl _ => "paystub"
  end.

(** A value that is not a string, and a value that is not a dict. *)
Definition is_string (v : json) : bool :=
  match v with
  | JStr _ => true
  | _ => false
  end.

(** A member that is present with a value outside the given kind. *)
Definition member_not (kind : json -> bool) (m : list (string * json))
  (k : string) : bool :=
  match dict_get m k with
  | Some v => negb (kind v)
  | None => false
  end.

(** A document on which the first two statements of the classifier raise:
    it is no dict, or its "Meta" is present and no dict, or the "Type" of
    its "Meta" is present and no string, or its "Title" is present and no
    string. *)
Definition malformed_header (json_data : json) : bool :=
  match json_data with
  | JObj m =>
      member_not is_object m "Meta"
      || match dict_get m "Meta" with
         | Some (JObj o) => member_not is_string o "Type"
         | _ => false
         end
      || member_not is_string m "Title"
  | _ => true
  end.

(** ** Documents of the expected shape *)

(** A skill: a dict whose "Labels", when present, is a label forest. *)
Definition wf_skill (skill : json) : bool :=
  match skill with
  | JObj m =>
      match dict_get m "Labels" with
      | Some labels => wf_forest labels
      | None => true
      end
  | _ => false
  end.

(** A document: a dict whose "Meta", when present, is a dict and whose
    "Summary", when present, is a list of skills. *)
Definition wf_document (json_data : json) : bool :=
  match json_data with
  | JObj m =>
      match dict_get m "Meta" with
      | Some (JObj _) | None => true
      | Some _ => false
      end
      &&
      match dict_get m "Summary" with
      | Some (JArr skills) => forallb wf_skill skills
      | Some _ => false
      | None => true
      end
  | _ => false
  end.

(** A document on which the first statement after the classifier raises:
    it is no dict, or its "Meta" is present and no dict. *)
Definition without_meta_dict (json_data : json) : bool :=
  match json_data with
  | JObj m => member_not is_object m "Meta"
  | _ => true
  end.

(** ** The files of a run *)

Section RunReading.

Variable py_repr : json -> string.
Variable dateutil_parse : string -> option datetime.

(** A file whose content decodes and is accepted by
    [extract_document_data]. *)
Definition is_accepted (file : string * option json) : bool :=
  match snd file with
  | Some json_data =>
      match extract_document_data py_repr dateutil_parse json_data (fst file)
      with
      | Extracted _ _ => true
      | _ => false
      end
  | None => false
  end.

(** The record of a file accepted under the type [doc_type], if any. *)
Definition accepted_as (doc_type : string) (file : string * option json)
  : list record :=
  match snd file with
  | Some json_data =>
      match extract_document_data py_repr dateutil_parse json_data (fst file)
      with
      | Extracted data ty => if String.eqb ty doc_type then [data] else []
      | _ => []
      end
  | None => []
  end.

End RunReading.

(** * Properties *)

(** ** Trimming *)

Lemma rstrip_idem (s : string) : rstrip (rstrip s) = rstrip s.
Proof.
  induction s as [|c s IH]; simpl; [reflexivity|].
  destruct (is_empty (rstrip s) && is_space c) eqn:E; simpl; [reflexivity|].
  rewrite IH, E. reflexivity.
Qed.

Lemma lstrip_head (s : string) :
  lstrip s = EmptyString \/
  exists c t, lstrip s = String c t /\ is_space c = false.
Proof.
  induction s as [|c s IH]; simpl; [left; reflexivity|].
  destruct (is_space c) eqn:E; [exact IH|].
  right. exists c, s. split; [reflexivity | exact E].
Qed.

Lemma lstrip_rstrip_head (c : ascii) (t : string) :
  is_space c = false -> lstrip (rstrip (String c t)) = rstrip (String c t).
Proof.
  intros E. simpl. rewrite E, andb_false_r. simpl. rewrite E. reflexivity.
Qed.

Lemma strip_idem (s : string) : strip (strip s) = strip s.
Proof.
  unfold strip.
  destruct (lstrip_head s) as [E | (c & t & E & Hc)]; rewrite E.
  - reflexivity.
  - rewrite (lstrip_rstrip_head c t Hc). apply rstrip_idem.
Qed.

Lemma is_empty_true (s : string) : is_empty s = true -> s = EmptyString.
Proof. destruct s; [reflexivity | discriminate]. Qed.

Section CleaningProperties.

Variable py_repr : json -> string.

Local Notation "'clean'" := (get_field_value py_repr).

(** A cleaned value is the sentinel or a trimmed string outside the
    sentinel list. *)
Lemma get_field_value_cases (x : json) :
  clean x = "N/A" \/
  (clean x = strip (py_str py_repr x) /\
   str_in (strip (py_str py_repr x)) sentinels = false).
Proof.
  unfold get_field_value.
  destruct (negb (truthy x)); [left; reflexivity|].
  destruct (str_in (strip (py_str py_repr x)) sentinels) eqn:E.
  - left; reflexivity.
  - right; split; reflexivity.
Qed.

Lemma get_field_value_fixed (u : string) :
  strip u = u -> str_in u sentinels = false -> clean (JStr u) = u.
Proof.
  intros Hs Hn. unfold get_field_value. simpl py_str. rewrite Hs, Hn.
  destruct u as [|c u]; [discriminate Hn|]. reflexivity.
Qed.

Lemma get_field_value_clean (x : json) : clean (JStr (clean x)) = clean x.
Proof.
  destruct (get_field_value_cases x) as [E | [E Hn]]; rewrite E.
  - reflexivity.
  - apply get_field_value_fixed; [apply strip_idem | exact Hn].
Qed.

(** C9: cleaning a cleaned value changes nothing:
    [clean(clean(x)) = clean(x)] for every value [x]. *)
Theorem get_field_value_idempotent (x : json) :
  get_field_value py_repr (JStr (get_field_value py_repr x))
  = get_field_value py_repr x.
Proof.
  unfold get_field_value at 2 3.
  destruct (negb (truthy x) || str_in (strip (py_str py_repr x)) sentinels)
    eqn:E.
  - (* the sentinel is cleaned to itself *)
    reflexivity.
  - (* a trimmed value outside the sentinel list stays as it is *)
    apply orb_false_iff in E as [_ Hn].
    apply get_field_value_fixed; [apply strip_idem | exact Hn].
Qed.

End CleaningProperties.

(** ** get_grouping_key *)

Section GroupingKeyProperties.

Variable py_repr : json -> string.

Local Notation "'clean'" := (get_field_value py_repr).
Local Notation "'grouping_key'" := (get_grouping_key py_repr).

Lemma cleaned_tuple_present (doc : record) (keys : list string)
  (vs : list string) :
  map (dict_get doc) keys = map Some vs ->
  cleaned_tuple py_repr doc keys = inr (map (fun v => clean (JStr v)) vs).
Proof.
  revert vs. induction keys as [|k keys IH]; intros [|v vs] H;
    try discriminate H; [reflexivity|].
  simpl in H. injection H as Hk Hks.
  simpl. unfold py_index. rewrite Hk. simpl.
  rewrite (IH vs Hks). reflexivity.
Qed.

Lemma cleaned_tuple_missing (doc : record) (keys : list string) :
  In None (map (dict_get doc) keys) ->
  cleaned_tuple py_repr doc keys = inl KeyError.
Proof.
  induction keys as [|k keys IH]; simpl; [intros []|].
  intros H. unfold py_index.
  destruct (dict_get doc k) as [v|] eqn:E; [|reflexivity].
  destruct H as [H|H]; [discriminate H|].
  simpl. rewrite (IH H). reflexivity.
Qed.

Lemma cleaned_tuple_length (doc : record) (keys t : list string) :
  cleaned_tuple py_repr doc keys = inr t -> List.length t = List.length keys.
Proof.
  revert t. induction keys as [|k keys IH]; simpl; intros t H.
  - injection H as <-. reflexivity.
  - destruct (py_index doc k) as [e|v]; [discriminate H|]. simpl in H.
    destruct (cleaned_tuple py_repr doc keys) as [e|vs]; [discriminate H|].
    simpl in H. injection H as <-. simpl. f_equal. apply IH. reflexivity.
Qed.

Lemma identity_fields_length (doc_type : string) :
  List.length (identity_fields doc_type) = key_arity doc_type.
Proof.
  unfold identity_fields, key_arity.
  destruct (String.eqb doc_type "paystub"); [reflexivity|].
  destruct (String.eqb doc_type "w2"); reflexivity.
Qed.

Lemma na_tuple_repeat (doc_type : string) :
  na_tuple doc_type = repeat "N/A" (key_arity doc_type).
Proof.
  unfold na_tuple, key_arity.
  destruct (String.eqb doc_type "paystub"); [reflexivity|].
  destruct (String.eqb doc_type "w2"); reflexivity.
Qed.

(** C10: [get_grouping_key] always returns a tuple, of 5 components for
    paystub, 3 for w2 and 4 otherwise: the cleaned identity fields when every
    lookup succeeds, and the all-"N/A" tuple as soon as one lookup fails, so
    that two records of a type that each miss an identity field have the
    same key. *)
Theorem get_grouping_key_total (doc : record) (doc_type : string) :
  List.length (get_grouping_key py_repr doc doc_type) = key_arity doc_type /\
  (forall vs,
      map (dict_get doc) (identity_fields doc_type) = map Some vs ->
      get_grouping_key py_repr doc doc_type
      = map (fun v => get_field_value py_repr (JStr v)) vs) /\
  (In None (map (dict_get doc) (identity_fields doc_type)) ->
   get_grouping_key py_repr doc doc_type
   = repeat "N/A" (key_arity doc_type)) /\
  (forall doc' : record,
      In None (map (dict_get doc) (identity_fields doc_type)) ->
      In None (map (dict_get doc') (identity_fields doc_type)) ->
      get_grouping_key py_repr doc doc_type
      = get_grouping_key py_repr doc' doc_type).
Proof.
  assert (Hmiss : forall d : record,
             In None (map (dict_get d) (identity_fields doc_type)) ->
             grouping_key d doc_type = repeat "N/A" (key_arity doc_type)).
  { intros d H. unfold get_grouping_key.
    rewrite (cleaned_tuple_missing d _ H). apply na_tuple_repeat. }
  split; [|split; [|split]].
  - unfold get_grouping_key.
    destruct (cleaned_tuple py_repr doc (identity_fields doc_type)) as [e|t] eqn:E.
    + rewrite na_tuple_repeat. apply repeat_length.
    + rewrite (cleaned_tuple_length _ _ _ E). apply identity_fields_length.
  - intros vs H. unfold get_grouping_key.
    rewrite (cleaned_tuple_present _ _ _ H). reflexivity.
  - apply Hmiss.
  - intros doc' H H'. rewrite (Hmiss doc H), (Hmiss doc' H'). reflexivity.
Qed.

End GroupingKeyProperties.

(** ** identify_document_type *)

Section ClassifierProperties.

Lemma is_doc_type_paystub : is_doc_type "paystub".
Proof. left; reflexivity. Qed.
Lemma is_doc_type_w2 : is_doc_type "w2".
Proof. right; left; reflexivity. Qed.
Lemma is_doc_type_1120 : is_doc_type "1120".
Proof. right; right; reflexivity. Qed.

Create HintDb doc_types.

#[local] Hint Resolve is_doc_type_paystub is_doc_type_w2 is_doc_type_1120 : doc_types.

Lemma scan_skill_names_range (skills : list json) (r : string) :
  scan_skill_names skills = inr (Some r) -> is_doc_type r.
Proof.
  induction skills as [|skill rest IH]; simpl; intros H; [discriminate H|].
  destruct (py_get skill "SkillName" (JStr "")) as [e|n]; [discriminate H|].
  simpl in H.
  destruct (py_lower n) as [e|name]; [discriminate H|]. simpl in H.
  destruct (contains "1120" name);
    [injection H as <-; auto with doc_types|].
  destruct (contains "w2" name || contains "w-2" name);
    [injection H as <-; auto with doc_types|].
  destruct (contains "paystub" name);
    [injection H as <-; auto with doc_types|].
  apply IH, H.
Qed.

Lemma scan_exact_names_range (skills : list json) (r : string) :
  scan_exact_names skills = inr (Some r) -> is_doc_type r.
Proof.
  induction skills as [|skill rest IH]; simpl; intros H; [discriminate H|].
  destruct (py_get skill "SkillName" (JStr "")) as [e|n]; [discriminate H|].
  simpl in H.
  destruct (py_eq_str n "IC - 1120");
    [injection H as <-; auto with doc_types|].
  destruct (py_eq_str n "IC - W2");
    [injection H as <-; auto with doc_types|].
  destruct (py_eq_str n "IC - Paystubs");
    [injection H as <-; auto with doc_types|].
  apply IH, H.
Qed.

Lemma over_summary_range (json_data : json) (loop : list json -> step) :
  (forall skills r, loop skills = inr (Some r) -> is_doc_type r) ->
  forall r, over_summary json_data loop = inr (Some r) -> is_doc_type r.
Proof.
  intros Hloop r. unfold over_summary.
  destruct (py_get json_data "Summary" (JArr [])) as [e|summary];
    [discriminate|]. simpl.
  destruct (py_iter summary) as [e|skills]; [discriminate|]. simpl.
  apply Hloop.
Qed.

Lemma identify_body_range (json_data : json) (r : string) :
  identify_body json_data = inr r -> is_doc_type r.
Proof.
  unfold identify_body.
  destruct (py_get json_data "Meta" (JObj [])) as [e|meta]; [discriminate|].
  cbn [bind].
  destruct (py_get meta "Type" (JStr "")) as [e|ty]; [discriminate|]. cbn [bind].
  destruct (py_lower ty) as [e|meta_type]; [discriminate|]. cbn [bind].
  destruct (py_get json_data "Title" (JStr "")) as [e|t]; [discriminate|].
  cbn [bind].
  destruct (py_lower t) as [e|title]; [discriminate|]. cbn [bind].
  destruct (any_indicator w2_indicators meta_type title);
    [intros H; injection H as <-; auto with doc_types|].
  destruct (any_indicator form1120_indicators meta_type title);
    [intros H; injection H as <-; auto with doc_types|].
  unfold or_return.
  destruct (over_summary json_data scan_skill_names) as [e|[r1|]] eqn:E1;
    cbn [bind]; [discriminate| |].
  { intros H; injection H as <-.
    exact (over_summary_range _ _ scan_skill_names_range _ E1). }
  destruct (over_summary json_data scan_exact_names) as [e|[r2|]] eqn:E2;
    cbn [bind]; [discriminate| |].
  { intros H; injection H as <-.
    exact (over_summary_range _ _ scan_exact_names_range _ E2). }
  intros H; injection H as <-; auto with doc_types.
Qed.

Lemma optional_string_get (m : list (string * json)) (k n : string) :
  optional_string (dict_get m k) = Some n ->
  match dict_get m k with Some x => x | None => JStr "" end = JStr n.
Proof.
  destruct (dict_get m k) as [[]|]; simpl; intros H;
    try discriminate H; injection H as <-; reflexivity.
Qed.

Lemma scan_skill_names_view (skills : list json) (ns : list string) :
  skill_names_view skills = Some ns ->
  scan_skill_names skills = ret (first_hit substring_hit (map lower ns)).
Proof.
  revert ns. induction skills as [|skill rest IH]; simpl; intros ns H.
  - injection H as <-. reflexivity.
  - destruct (skill_name_view skill) as [n|] eqn:En; [|discriminate H].
    destruct (skill_names_view rest) as [ns'|]; [|discriminate H].
    injection H as <-.
    destruct skill; try discriminate En. simpl in En.
    simpl. rewrite (optional_string_get _ _ _ En). simpl.
    unfold substring_hit.
    destruct (contains "1120" (lower n)); [reflexivity|].
    destruct (contains "w2" (lower n) || contains "w-2" (lower n));
      [reflexivity|].
    destruct (contains "paystub" (lower n)); [reflexivity|].
    apply IH. reflexivity.
Qed.

Lemma scan_exact_names_view (skills : list json) (ns : list string) :
  skill_names_view skills = Some ns ->
  scan_exact_names skills = ret (first_hit exact_hit ns).
Proof.
  revert ns. induction skills as [|skill rest IH]; simpl; intros ns H.
  - injection H as <-. reflexivity.
  - destruct (skill_name_view skill) as [n|] eqn:En; [|discriminate H].
    destruct (skill_names_view rest) as [ns'|]; [|discriminate H].
    injection H as <-.
    destruct skill; try discriminate En. simpl in En.
    simpl. rewrite (optional_string_get _ _ _ En). simpl.
    unfold exact_hit.
    destruct (String.eqb n "IC - 1120"); [reflexivity|].
    destruct (String.eqb n "IC - W2"); [reflexivity|].
    destruct (String.eqb n "IC - Paystubs"); [reflexivity|].
    apply IH. reflexivity.
Qed.

Lemma identify_body_view (json_data : json) (mt t : string)
  (ns : list string) :
  raw_view json_data = Some (mt, t, ns) ->
  identify_body json_data = ret (classify_in_order mt t ns).
Proof.
  destruct json_data as [| | | | |l|m]; try discriminate. simpl.
  intros H.
  assert (exists skills,
             match dict_get m "Summary" with Some x => x | None => JArr [] end
             = JArr skills /\ skill_names_view skills = Some ns
             /\ optional_string (dict_get m "Title") = Some t
             /\ py_get match dict_get m "Meta" with
                       | Some x => x | None => JObj [] end "Type" (JStr "")
                = ret (JStr mt)) as (skills & Hs & Hns & Ht & Hm).
  { destruct (dict_get m "Meta") as [[| | | | | |meta]|]; try discriminate H.
    - destruct (optional_string (dict_get meta "Type")) as [mt'|] eqn:Emt;
        [|discriminate H].
      destruct (optional_string (dict_get m "Title")) as [t'|];
        [|discriminate H].
      destruct (dict_get m "Summary") as [[| | | | |skills|]|];
        try discriminate H.
      + destruct (skill_names_view skills) as [ns'|] eqn:Ens;
          [|discriminate H].
        injection H as <- <- <-. exists skills.
        simpl. rewrite (optional_string_get _ _ _ Emt). auto.
      + injection H as <- <- <-. exists [].
        simpl. rewrite (optional_string_get _ _ _ Emt). auto.
    - destruct (optional_string (dict_get m "Title")) as [t'|];
        [|discriminate H].
      destruct (dict_get m "Summary") as [[| | | | |skills|]|];
        try discriminate H.
      + destruct (skill_names_view skills) as [ns'|] eqn:Ens;
          [|discriminate H].
        injection H as <- <- <-. exists skills. auto.
      + injection H as <- <- <-. exists []. auto. }
  unfold identify_body, classify_in_order, over_summary.
  cbn [py_get bind ret]. rewrite Hm. cbn [bind ret py_lower].
  rewrite (optional_string_get _ _ _ Ht), Hs. cbn [bind ret py_lower py_iter].
  change (existsb (fun i => contains i (lower mt) || contains i (lower t))
            ["w2"; "w-2"; "income w-2"])
    with (any_indicator w2_indicators (lower mt) (lower t)).
  change (existsb (fun i => contains i (lower mt) || contains i (lower t))
            ["1120"; "form 1120"])
    with (any_indicator form1120_indicators (lower mt) (lower t)).
  destruct (any_indicator w2_indicators (lower mt) (lower t)); [reflexivity|].
  destruct (any_indicator form1120_indicators (lower mt) (lower t));
    [reflexivity|].
  rewrite (scan_skill_names_view _ _ Hns), (scan_exact_names_view _ _ Hns).
  unfold or_return. cbn [bind ret].
  destruct (first_hit substring_hit (map lower ns)); [reflexivity|].
  destruct (first_hit exact_hit ns); reflexivity.
Qed.

(** C6: for every input value the classifier returns "paystub", "w2" or
    "1120"; it returns "paystub" whenever its body raises; and on a record of
    the RawRecord shape it follows the resolution order: indicators in
    Meta.Type or Title (w2, then 1120), then substrings of the lowered skill
    names in sequence order, then exact skill names, then "paystub". *)
Theorem identify_document_type_resolves (json_data : json) :
  is_doc_type (identify_document_type json_data) /\
  (forall e, identify_body json_data = inl e ->
             identify_document_type json_data = "paystub") /\
  match raw_view json_data with
  | Some (meta_type, title, skill_names) =>
      identify_document_type json_data
      = classify_in_order meta_type title skill_names
  | None => True
  end.
Proof.
  unfold identify_document_type. split; [|split].
  - destruct (identify_body json_data) as [e|r] eqn:E;
      [auto with doc_types | exact (identify_body_range _ _ E)].
  - intros e E. rewrite E. reflexivity.
  - destruct (raw_view json_data) as [[[mt t] ns]|] eqn:E; [|exact I].
    rewrite (identify_body_view _ _ _ _ E). reflexivity.
Qed.

End ClassifierProperties.

(** ** extract_document_data *)

Section ExtractionProperties.

Variable py_repr : json -> string.
Variable dateutil_parse : string -> option datetime.

Local Notation "'extract'" := (extract_document_data py_repr dateutil_parse).

Lemma income_w2_indicator (title : string) :
  any_indicator w2_indicators (lower "Income W-2") title = true.
Proof.
  unfold any_indicator, w2_indicators. cbn [existsb].
  replace (contains "w-2" (lower "Income W-2")) with true by reflexivity.
  cbn [orb]. apply orb_true_r.
Qed.

Lemma identify_income_w2 (members meta : list (string * json)) :
  dict_get members "Meta" = Some (JObj meta) ->
  dict_get meta "Type" = Some (JStr "Income W-2") ->
  optional_string (dict_get members "Title") <> None ->
  identify_document_type (JObj members) = "w2".
Proof.
  intros Hmeta Hty Htitle.
  unfold identify_document_type, identify_body.
  cbn [py_get bind ret]. rewrite Hmeta. cbn [py_get bind ret].
  rewrite Hty. cbn [py_lower bind ret].
  destruct (optional_string (dict_get members "Title")) as [t|] eqn:Et;
    [|contradiction].
  rewrite (optional_string_get _ _ _ Et). cbn [py_lower bind ret].
  rewrite income_w2_indicator. reflexivity.
Qed.

Lemma py_eq_str_other (m : list (string * json)) (skill_name : string) :
  dict_get m "SkillName" <> Some (JStr skill_name) ->
  py_eq_str match dict_get m "SkillName" with Some x => x | None => JNull end
    skill_name = false.
Proof.
  intros H. destruct (dict_get m "SkillName") as [[]|]; try reflexivity.
  simpl. destruct (String.eqb_spec s skill_name) as [->|]; [|reflexivity].
  contradiction H; reflexivity.
Qed.

Lemma find_skill_absent (skill_name : string) (label_map : pydict string)
  (skills : list json) (base_data : record) :
  Forall (other_skill skill_name) skills ->
  find_skill py_repr skill_name label_map skills base_data = ret None.
Proof.
  induction 1 as [|skill rest (m & -> & Hm) _ IH]; [reflexivity|].
  cbn [find_skill py_get bind ret]. rewrite (py_eq_str_other _ _ Hm).
  exact IH.
Qed.

(** C7: a record of the RawRecord shape whose Meta.Type is "Income W-2" and
    whose Summary holds no skill named exactly "IC - W2" is classified w2 and
    rejected, the reason naming the missing skill. *)
Theorem income_w2_without_skill_rejected
  (members meta : list (string * json)) (filename : string) :
  dict_get members "Meta" = Some (JObj meta) ->
  dict_get meta "Type" = Some (JStr "Income W-2") ->
  optional_string (dict_get members "Title") <> None ->
  match dict_get members "Summary" with
  | None => True
  | Some (JArr skills) => Forall (other_skill "IC - W2") skills
  | Some _ => False
  end ->
  identify_document_type (JObj members) = "w2" /\
  extract_document_data py_repr dateutil_parse (JObj members) filename
  = Rejected "w2" "Required skill 'IC - W2' not found".
Proof.
  intros Hmeta Hty Htitle Hsummary.
  pose proof (identify_income_w2 _ _ Hmeta Hty Htitle) as Hw2.
  split; [exact Hw2|].
  unfold extract_document_data, extract_body. rewrite Hw2.
  cbn [py_get bind ret]. rewrite Hmeta. cbn [py_get bind ret].
  assert (exists skills,
             match dict_get members "Summary" with
             | Some x => x | None => JArr [] end = JArr skills
             /\ Forall (other_skill "IC - W2") skills) as (skills & -> & Hsk).
  { destruct (dict_get members "Summary") as [[| | | | |skills|]|];
      try contradiction; eauto. }
  cbn [py_iter bind ret].
  change (skill_name_of "w2") with "IC - W2".
  rewrite (find_skill_absent _ _ _ _ Hsk). reflexivity.
Qed.

End ExtractionProperties.

(** The record of scenario C without any skill, read with dateutil absent. *)
Lemma income_w2_without_skill_rejected_example :
  extract_document_data (fun _ => "") (fun _ => None)
    (JObj [("Meta", JObj [("FileName", JStr "w2_a");
                          ("Type", JStr "Income W-2")]);
           ("Summary", JArr [JObj [("SkillName", JStr "IC - Paystubs")]])])
    "w2_a.json"
  = Rejected "w2" "Required skill 'IC - W2' not found".
Proof.
  refine (proj2 (income_w2_without_skill_rejected (fun _ => "") (fun _ => None)
            [("Meta", JObj [("FileName", JStr "w2_a");
                            ("Type", JStr "Income W-2")]);
             ("Summary", JArr [JObj [("SkillName", JStr "IC - Paystubs")]])]
            [("FileName", JStr "w2_a"); ("Type", JStr "Income W-2")]
            "w2_a.json" _ _ _ _)).
  - reflexivity.
  - reflexivity.
  - simpl. discriminate.
  - simpl. constructor; [|constructor].
    exists [("SkillName", JStr "IC - Paystubs")].
    split; [reflexivity | simpl; discriminate].
Defined.

(** ** parse_date *)

Section DateExamples.

Variable dateutil_parse : string -> option datetime.

Local Notation "'normalize'" := (parse_date dateutil_parse).

(** C4: patterns 3, 4 and 5 produce a result for a year below 1000, which
    patterns 1 and 2 refuse: the year is not checked there. *)
Theorem year_unchecked_after_rule2 :
  rule_iso "0999-01-01" = returns "01/01/999" /\
  parse_date dateutil_parse "0999-01-01" = ret "01/01/999" /\
  parse_date dateutil_parse "08-august-0005" = ret "08/08/5" /\
  parse_date dateutil_parse "August 08, 0005" = ret "08/08/5" /\
  rule_month_first "01/01/0999" = goes_on /\
  rule_day_first "01/01/0999" = goes_on /\
  within 1000 9999 999 = false.
Proof. repeat split; vm_compute; reflexivity. Qed.

End DateExamples.

(** ** Digits and numbers *)

Lemma is_digit_cases (c : ascii) : is_digit c = true -> In c digit_chars.
Proof.
  destruct c as [[] [] [] [] [] [] [] []]; intros H;
    try discriminate H; simpl; auto 12.
Qed.

Lemma in_digit_strings (s : string) :
  string_forall is_digit s = true -> In s (digit_strings (String.length s)).
Proof.
  induction s as [|c s IH]; simpl; [auto|].
  intros H. apply andb_true_iff in H as [Hc Hs].
  change (In (String c s)
            (flat_map (fun c => map (String c) (digit_strings (String.length s)))
               digit_chars)).
  apply in_flat_map. exists c. split; [apply is_digit_cases, Hc|].
  apply in_map, IH, Hs.
Qed.

Lemma in_N_range (k : nat) (start n : N) :
  (start <= n < start + N.of_nat k)%N -> In n (N_range k start).
Proof.
  revert start. induction k as [|k IH]; intros start H; [lia|].
  simpl. destruct (N.eq_dec start n) as [->|Hne]; [left; reflexivity|].
  right. apply IH. lia.
Qed.

(** A property checked on every string of [k] digits holds of each. *)
Lemma digit_strings_check (k : nat) (P : string -> bool) (s : string) :
  forallb P (digit_strings k) = true ->
  string_forall is_digit s = true -> String.length s = k -> P s = true.
Proof.
  intros Hall Hd <-. rewrite forallb_forall in Hall.
  apply Hall, in_digit_strings, Hd.
Qed.

(** A property checked on every number of a range holds of each. *)
Lemma N_range_check (k : nat) (start : N) (P : N -> bool) (n : N) :
  forallb P (N_range k start) = true ->
  (start <= n < start + N.of_nat k)%N -> P n = true.
Proof.
  intros Hall Hn. rewrite forallb_forall in Hall.
  apply Hall, in_N_range, Hn.
Qed.

Lemma digits_value_str_nat (n : N) : digits_value (str_nat n) = n.
Proof.
  unfold digits_value, str_nat. rewrite NilEmpty.usu.
  apply DecimalN.Unsigned.of_to.
Qed.

Lemma string_forall_digit_uint (d : Decimal.uint) :
  string_forall is_digit (NilEmpty.string_of_uint d) = true.
Proof. induction d; simpl; auto. Qed.

Lemma str_nat_digits (n : N) : string_forall is_digit (str_nat n) = true.
Proof. apply string_forall_digit_uint. Qed.

Lemma str_nat_nonempty (n : N) : str_nat n <> EmptyString.
Proof.
  unfold str_nat. intros H.
  assert (E : NilEmpty.uint_of_string (NilEmpty.string_of_uint (N.to_uint n))
              = Some Decimal.Nil) by (rewrite H; reflexivity).
  rewrite NilEmpty.usu in E. injection E as E.
  destruct n as [|p]; [discriminate E|].
  exact (DecimalPos.Unsigned.to_uint_nonnil p E).
Qed.

Lemma py_int_digits (s : string) :
  string_forall is_digit s = true -> s <> EmptyString ->
  py_int s = ret (digits_value s).
Proof.
  intros Hd Hne. unfold py_int, digits_value.
  destruct s as [|c s]; [contradiction Hne; reflexivity|].
  cbn [is_empty].
  assert (exists d, NilEmpty.uint_of_string (String c s) = Some d) as [d ->];
    [|reflexivity].
  clear Hne. revert Hd. generalize (String c s). clear c s.
  induction s as [|c s IH]; simpl; intros Hd; [eexists; reflexivity|].
  apply andb_true_iff in Hd as [Hc Hs].
  destruct (IH Hs) as [d ->].
  apply is_digit_cases in Hc. simpl in Hc.
  repeat (destruct Hc as [<-|Hc]; [eexists; reflexivity|]). contradiction.
Qed.

(** Two-digit and four-digit texts, by exhaustive evaluation. *)

Lemma pad2_below_100 (n : N) :
  (n < 100)%N ->
  String.length (pad2 n) = 2 /\ string_forall is_digit (pad2 n) = true
  /\ digits_value (pad2 n) = n.
Proof.
  intros Hn.
  pose (P := fun n => (String.length (pad2 n) =? 2)
                      && string_forall is_digit (pad2 n)
                      && (digits_value (pad2 n) =? n)%N).
  assert (H : P n = true).
  { apply (N_range_check 100 0); [vm_compute; reflexivity | lia]. }
  unfold P in H. apply andb_true_iff in H as [H H3].
  apply andb_true_iff in H as [H1 H2].
  apply Nat.eqb_eq in H1. apply N.eqb_eq in H3. auto.
Qed.

Lemma str_nat_year (y : N) :
  (1000 <= y <= 9999)%N -> String.length (str_nat y) = 4.
Proof.
  intros Hy.
  pose (P := fun y => String.length (str_nat y) =? 4).
  assert (H : P y = true).
  { apply (N_range_check (N.to_nat 9000) 1000); [vm_compute; reflexivity|].
    rewrite N2Nat.id. lia. }
  apply Nat.eqb_eq, H.
Qed.

Lemma pad4_year (y : N) :
  (1000 <= y <= 9999)%N -> pad4 y = str_nat y.
Proof.
  intros Hy. unfold pad4. rewrite (str_nat_year y Hy). reflexivity.
Qed.

Lemma two_digits_roundtrip (s : string) :
  string_forall is_digit s = true -> String.length s = 2 ->
  pad2 (digits_value s) = s.
Proof.
  intros Hd Hl.
  apply String.eqb_eq.
  apply (digit_strings_check 2 (fun s => String.eqb (pad2 (digits_value s)) s));
    [vm_compute; reflexivity | exact Hd | exact Hl].
Qed.

Lemma four_digits_bound (s : string) :
  string_forall is_digit s = true -> String.length s = 4 ->
  (digits_value s <= 9999)%N.
Proof.
  intros Hd Hl. apply N.leb_le.
  apply (digit_strings_check 4 (fun s => (digits_value s <=? 9999)%N));
    [vm_compute; reflexivity | exact Hd | exact Hl].
Qed.

Lemma four_digits_roundtrip (s : string) :
  string_forall is_digit s = true -> String.length s = 4 ->
  (1000 <= digits_value s)%N -> str_nat (digits_value s) = s.
Proof.
  intros Hd Hl Hy.
  pose (P := fun s => negb (1000 <=? digits_value s)%N
                      || String.eqb (str_nat (digits_value s)) s).
  assert (H : P s = true).
  { apply (digit_strings_check 4); [vm_compute; reflexivity | exact Hd | exact Hl]. }
  unfold P in H. apply N.leb_le in Hy. rewrite Hy in H.
  apply String.eqb_eq, H.
Qed.

(** ** The pattern matcher *)

Lemma backtrack_some {R} (k lo : nat) (try : nat -> option R) (r : R) :
  backtrack k lo try = Some r -> exists j, lo <= j <= k /\ try j = Some r.
Proof.
  induction k as [|k IH]; simpl.
  - destruct lo; simpl; [|discriminate].
    destruct (try 0) eqn:E; [|discriminate].
    intros H; injection H as <-. exists 0. split; [lia | exact E].
  - destruct (Nat.leb_spec lo k) as [Hle|Hlt].
    + replace (S k <? lo) with false by (symmetry; apply Nat.ltb_ge; lia).
      destruct (try (S k)) eqn:E.
      * intros H; injection H as <-. exists (S k). split; [lia | exact E].
      * intros H. destruct (IH H) as (j & Hj & Ej). exists j.
        split; [lia | exact Ej].
    + destruct (S k <? lo) eqn:Elt; [discriminate|].
      apply Nat.ltb_ge in Elt.
      destruct (try (S k)) eqn:E.
      * intros H; injection H as <-. exists (S k). split; [lia | exact E].
      * intros H. destruct (IH H) as (j & Hj & Ej). lia.
Qed.

Lemma backtrack_first {R} (k lo : nat) (try : nat -> option R) (r : R) :
  lo <= k -> try k = Some r -> backtrack k lo try = Some r.
Proof.
  intros Hle E. destruct k; simpl.
  - replace lo with 0 by lia. simpl. rewrite E. reflexivity.
  - replace (S k <? lo) with false by (symmetry; apply Nat.ltb_ge; lia).
    rewrite E. reflexivity.
Qed.

Lemma run_take (p : ascii -> bool) (s : string) :
  forall lim j, j <= run p lim s ->
    string_forall p (take j s) = true /\ String.length (take j s) = j.
Proof.
  induction s as [|c s IH]; intros lim j Hj.
  - simpl in Hj. replace j with 0 by lia. split; reflexivity.
  - destruct j as [|j]; [split; reflexivity|].
    simpl in Hj. destruct (p c) eqn:Ec; [|lia].
    destruct lim as [[|l]|]; [lia| |].
    + destruct (IH (Some l) j) as [H1 H2]; [lia|].
      simpl. rewrite Ec, H1, H2. split; reflexivity.
    + destruct (IH None j) as [H1 H2]; [lia|].
      simpl. rewrite Ec, H1, H2. split; reflexivity.
Qed.

Lemma run_limit (p : ascii -> bool) (s : string) :
  forall h, run p (Some h) s <= h.
Proof.
  induction s as [|c s IH]; intros h; simpl; [lia|].
  destruct (p c); [|lia]. destruct h as [|h]; [lia|].
  specialize (IH h). lia.
Qed.

(** Soundness of [re.match]: each group lies in the class of its item and
    within its repetition range. *)
Lemma match_items_sound (its : list item) :
  forall s gs, match_items its s = Some gs -> groups_ok its gs.
Proof.
  induction its as [|it rest IH]; intros s gs H.
  - simpl in H. destruct (at_end s); [|discriminate H].
    injection H as <-. reflexivity.
  - simpl in H. apply backtrack_some in H as (j & Hj & Ej).
    destruct (match_items rest (drop j s)) as [gs'|] eqn:E; [|discriminate Ej].
    injection Ej as <-. specialize (IH _ _ E).
    simpl. destruct (captured it); [|exact IH].
    split; [|exact IH].
    destruct (run_take (cls it) s (rmax it) j) as [H1 H2]; [lia|].
    unfold in_class. rewrite H1, H2. split; [reflexivity|].
    split; [lia|].
    destruct (rmax it) as [h|] eqn:Eh; [|exact I].
    pose proof (run_limit (cls it) s h). lia.
Qed.

Lemma run_exact (p : ascii -> bool) (w s : string) :
  string_forall p w = true ->
  run p (Some (String.length w)) (w ++ s) = String.length w.
Proof.
  induction w as [|c w IH]; simpl; intros H.
  - destruct s as [|c s]; [reflexivity|]. simpl. destruct (p c); reflexivity.
  - apply andb_true_iff in H as [Hc Hw]. rewrite Hc, (IH Hw). reflexivity.
Qed.

Lemma take_app_length (w s : string) : take (String.length w) (w ++ s) = w.
Proof.
  induction w as [|c w IH]; simpl.
  - destruct s; reflexivity.
  - rewrite IH. reflexivity.
Qed.

Lemma drop_app_length (w s : string) : drop (String.length w) (w ++ s) = s.
Proof.
  induction w as [|c w IH]; simpl; [destruct s; reflexivity | exact IH].
Qed.

(** A full-length repetition followed by a match of the rest is the match
    that [re.match] finds. *)
Lemma match_items_exact (it : item) (rest : list item) (w s : string)
  (gs : list string) :
  rmax it = Some (String.length w) -> rmin it <= String.length w ->
  string_forall (cls it) w = true ->
  match_items rest s = Some gs ->
  match_items (it :: rest) (w ++ s)
  = Some (if captured it then w :: gs else gs).
Proof.
  intros Hmax Hmin Hw Hrest. simpl. rewrite Hmax, (run_exact _ _ _ Hw).
  apply backtrack_first; [exact Hmin|].
  rewrite drop_app_length, Hrest, take_app_length. reflexivity.
Qed.

(** ** parse_date: the two readings of a numeric triple *)

Lemma length2_inv (s : string) :
  String.length s = 2 -> exists a b, s = String a (String b EmptyString).
Proof.
  destruct s as [|a [|b [|c s]]]; try discriminate. intros _. eauto.
Qed.

Lemma within_spec (lo hi n : N) :
  within lo hi n = true <-> (lo <= n <= hi)%N.
Proof.
  unfold within. rewrite andb_true_iff, !N.leb_le. reflexivity.
Qed.

Lemma days_in_month_le (y m : N) : (days_in_month y m <= 31)%N.
Proof.
  unfold days_in_month.
  destruct (m =? 2)%N; [destruct (is_leap y); lia|].
  destruct ((m =? 4)%N || (m =? 6)%N || (m =? 9)%N || (m =? 11)%N); lia.
Qed.

Lemma valid_date_spec (y m d : N) :
  valid_date y m d = true ->
  (1 <= y <= 9999 /\ 1 <= m <= 12 /\ 1 <= d <= days_in_month y m)%N.
Proof.
  unfold valid_date. rewrite !andb_true_iff, !within_spec. tauto.
Qed.

(** No date of the calendar prints as the 31st of February. *)
Lemma strftime_not_feb31 (d : datetime) : strftime_mdY d <> "02/31/2025".
Proof.
  destruct d as [y m dd Hv]. unfold strftime_mdY. simpl.
  apply valid_date_spec in Hv as (Hy & Hm & Hd).
  pose proof (days_in_month_le y m) as Hle.
  destruct (pad2_below_100 m) as (Lm & _ & Vm); [lia|].
  destruct (pad2_below_100 dd) as (Ld & _ & Vd); [lia|].
  destruct (length2_inv _ Lm) as (a & b & Em).
  destruct (length2_inv _ Ld) as (c & e & Ed).
  rewrite Em, Ed. simpl. intros H.
  injection H as -> -> -> -> _.
  rewrite Em in Vm. rewrite Ed in Vd.
  vm_compute in Vm. vm_compute in Vd. subst m dd.
  unfold days_in_month in Hd. simpl in Hd. destruct (is_leap y); lia.
Qed.

(** C5 as stated fails whatever dateutil does: on "31/02/2025" pattern 1
    refuses month 31, pattern 2 answers "02/31/2025", and without pattern 2
    the answer is the input or a date of the calendar. *)
Lemma rule2_is_reachable :
  ~ exists dateutil_parse : string -> option datetime,
      forall s, parse_date dateutil_parse s
                = parse_date_without_rule2 dateutil_parse s.
Proof.
  intros [fb H]. specialize (H "31/02/2025").
  assert (E1 : parse_date fb "31/02/2025" = ret "02/31/2025")
    by (vm_compute; reflexivity).
  assert (E2 : parse_date_without_rule2 fb "31/02/2025"
               = match fb "31/02/2025" with
                 | Some d => ret (strftime_mdY d)
                 | None => ret "31/02/2025"
                 end).
  { unfold parse_date_without_rule2, parse_date_rules_without_rule2.
    replace (strip "31/02/2025") with "31/02/2025" by reflexivity.
    replace (rule_month_first "31/02/2025") with goes_on by reflexivity.
    replace (rule_day_month_name "31/02/2025") with goes_on by reflexivity.
    replace (rule_month_name_day "31/02/2025") with goes_on by reflexivity.
    replace (rule_iso "31/02/2025") with goes_on by reflexivity.
    cbn. unfold rule_dateutil.
    destruct (fb "31/02/2025"); reflexivity. }
  rewrite E1, E2 in H.
  destruct (fb "31/02/2025") as [d|]; [|discriminate H].
  injection H as H. exact (strftime_not_feb31 d (eq_sym H)).
Qed.

Lemma rule2_condition (a b y : N) :
  negb (in_range_mdy a b y) && in_range_mdy b a y
  = within 13 31 a && within 1 12 b && within 1000 9999 y.
Proof.
  unfold in_range_mdy, within.
  repeat match goal with
         | |- context [N.leb ?x ?z] => destruct (N.leb_spec x z)
         end; simpl; try reflexivity; lia.
Qed.

Section DateRules.

Variable dateutil_parse : string -> option datetime.

Local Notation "'normalize'" := (parse_date dateutil_parse).
Local Notation "'normalize_without_rule2'" :=
  (parse_date_without_rule2 dateutil_parse).

(** C5, amended: pattern 2 decides exactly the numeric triples whose first
    number is 13..31 and whose second is 1..12 (year 1000..9999), which it
    reads as day, month, year; on every other input [parse_date] and
    [parse_date] without pattern 2 agree. *)
Theorem rule2_decides_day_first (s : string) :
  if rule2_decides s
  then exists a b y,
      numeric_triple (strip s) = Some (a, b, y) /\
      (13 <= a <= 31 /\ 1 <= b <= 12 /\ 1000 <= y <= 9999)%N /\
      parse_date dateutil_parse s = ret (format_date b a y)
  else parse_date dateutil_parse s
       = parse_date_without_rule2 dateutil_parse s.
Proof.
  unfold rule2_decides, parse_date, parse_date_without_rule2.
  destruct (is_empty s || String.eqb s "N/A"); [reflexivity|].
  cbn [negb andb]. generalize (strip s) as t. intros t.
  unfold numeric_triple, parse_date_rules, parse_date_rules_without_rule2,
    rule_month_first, rule_day_first.
  destruct (match_items re_numeric t) as [[|g1 [|g2 [|g3 gs]]]|];
    try reflexivity.
  cbn [groups3 bind ret].
  destruct (py_int g1) as [e|a]; [reflexivity|].
  destruct (py_int g2) as [e|b]; [reflexivity|].
  destruct (py_int g3) as [e|y]; [reflexivity|].
  cbn [bind ret].
  rewrite <- rule2_condition.
  destruct (in_range_mdy a b y) eqn:E1; [reflexivity|].
  destruct (in_range_mdy b a y) eqn:E2; [|reflexivity].
  cbn [negb andb].
  exists a, b, y. split; [reflexivity|]. split; [|reflexivity].
  assert (C : within 13 31 a && within 1 12 b && within 1000 9999 y = true)
    by (rewrite <- rule2_condition, E1, E2; reflexivity).
  rewrite !andb_true_iff, !within_spec in C. tauto.
Qed.

End DateRules.

(** ** parse_date: the form of the result *)

Lemma length4_inv (s : string) :
  String.length s = 4 ->
  exists a b c d,
    s = String a (String b (String c (String d EmptyString))).
Proof.
  destruct s as [|a [|b [|c [|d [|e s]]]]]; try discriminate.
  intros _. eauto.
Qed.

Lemma format_date_canonical (m d y : N) :
  (1 <= m <= 12)%N -> (1 <= d <= 31)%N -> (1000 <= y <= 9999)%N ->
  is_mmddyyyy (format_date m d y) = true.
Proof.
  intros Hm Hd Hy. unfold format_date.
  destruct (pad2_below_100 m) as (Lm & Dm & Vm); [lia|].
  destruct (pad2_below_100 d) as (Ld & Dd & Vd); [lia|].
  pose proof (str_nat_year y Hy) as Ly.
  pose proof (str_nat_digits y) as Dy.
  pose proof (digits_value_str_nat y) as Vy.
  destruct (length2_inv _ Lm) as (m1 & m2 & Em).
  destruct (length2_inv _ Ld) as (d1 & d2 & Ed).
  destruct (length4_inv _ Ly) as (y1 & y2 & y3 & y4 & Ey).
  rewrite Em in *. rewrite Ed in *. rewrite Ey in *.
  unfold is_mmddyyyy.
  cbn [String.append take drop String.length Nat.eqb].
  rewrite Dm, Dd, Dy, Vm, Vd, Vy.
  apply within_spec in Hm, Hd, Hy. rewrite Hm, Hd, Hy. reflexivity.
Qed.

Lemma format_date_result (m d y : N) :
  (1 <= m <= 12)%N -> (1 <= d <= 31)%N -> (y <= 9999)%N ->
  date_result (format_date m d y).
Proof.
  intros Hm Hd Hy. destruct (N.le_gt_cases 1000 y) as [Hge|Hlt].
  - left. apply format_date_canonical; lia.
  - right. exists m, d, y, (str_nat y). repeat split; try lia. left; reflexivity.
Qed.

Lemma strftime_result (d : datetime) : date_result (strftime_mdY d).
Proof.
  destruct d as [y m dd Hv]. unfold strftime_mdY. simpl.
  apply valid_date_spec in Hv as (Hy & Hm & Hd).
  pose proof (days_in_month_le y m) as Hle.
  destruct (N.le_gt_cases 1000 y) as [Hge|Hlt].
  - left. rewrite pad4_year by lia.
    apply (format_date_canonical m dd y); lia.
  - right. exists m, dd, y, (pad4 y). repeat split; try lia. right; reflexivity.
Qed.

Lemma py_int_value (s : string) (n : N) :
  py_int s = inr n -> n = digits_value s.
Proof.
  unfold py_int, digits_value. destruct (is_empty s); [discriminate|].
  destruct (NilEmpty.uint_of_string s); [|discriminate].
  intros H; injection H as <-. reflexivity.
Qed.

Lemma month_names_range (name : string) (m : N) :
  dict_get month_names name = Some m -> (1 <= m <= 12)%N.
Proof.
  unfold month_names. cbn [dict_get].
  repeat match goal with
         | |- context [String.eqb ?k name] => destruct (String.eqb k name)
         end;
    intros H; try discriminate H; injection H as <-; lia.
Qed.

(** The year group of a match is four digits, so the year is at most 9999. *)
Lemma year_group_bound (g : string) :
  in_class (group is_digit 4 (Some 4)) g -> (digits_value g <= 9999)%N.
Proof.
  intros (Hd & Hlo & Hhi). simpl in *.
  apply four_digits_bound; [exact Hd | lia].
Qed.

Lemma rule_month_first_result (t r : string) :
  rule_month_first t = inr (Some r) -> date_result r.
Proof.
  unfold rule_month_first.
  destruct (match_items re_numeric t) as [gs|]; [|discriminate].
  destruct (groups3 gs) as [e|[[g1 g2] g3]]; [discriminate|]. cbn [bind].
  destruct (py_int g1) as [e|month]; [discriminate|]. cbn [bind].
  destruct (py_int g2) as [e|day]; [discriminate|]. cbn [bind].
  destruct (py_int g3) as [e|year]; [discriminate|]. cbn [bind].
  destruct (in_range_mdy month day year) eqn:E; [|discriminate].
  intros H; injection H as <-.
  unfold in_range_mdy in E. rewrite !andb_true_iff, !within_spec in E.
  left. apply format_date_canonical; tauto.
Qed.

Lemma rule_day_first_result (t r : string) :
  rule_day_first t = inr (Some r) -> date_result r.
Proof.
  unfold rule_day_first.
  destruct (match_items re_numeric t) as [gs|]; [|discriminate].
  destruct (groups3 gs) as [e|[[g1 g2] g3]]; [discriminate|]. cbn [bind].
  destruct (py_int g1) as [e|day]; [discriminate|]. cbn [bind].
  destruct (py_int g2) as [e|month]; [discriminate|]. cbn [bind].
  destruct (py_int g3) as [e|year]; [discriminate|]. cbn [bind].
  destruct (in_range_mdy month day year) eqn:E; [|discriminate].
  intros H; injection H as <-.
  unfold in_range_mdy in E. rewrite !andb_true_iff, !within_spec in E.
  left. apply format_date_canonical; tauto.
Qed.

Lemma rule_day_month_name_result (t r : string) :
  rule_day_month_name t = inr (Some r) -> date_result r.
Proof.
  unfold rule_day_month_name.
  destruct (match_items re_day_month_name t) as [gs|] eqn:M; [|discriminate].
  apply match_items_sound in M. simpl in M.
  destruct gs as [|g1 [|g2 [|g3 gs]]]; try tauto.
  destruct M as (_ & _ & Hy & _). cbn [groups3 bind ret].
  destruct (py_int g3) as [e|year] eqn:Ey; [discriminate|]. cbn [bind].
  destruct (dict_get month_names (lower g2)) as [month|] eqn:Em;
    [|discriminate].
  destruct (py_int g1) as [e|day]; [discriminate|]. cbn [bind].
  destruct (within 1 31 day) eqn:Ed; [|discriminate].
  intros H; injection H as <-.
  apply within_spec in Ed. apply month_names_range in Em.
  apply py_int_value in Ey. apply year_group_bound in Hy.
  apply format_date_result; lia.
Qed.

Lemma rule_month_name_day_result (t r : string) :
  rule_month_name_day t = inr (Some r) -> date_result r.
Proof.
  unfold rule_month_name_day.
  destruct (match_items re_month_name_day t) as [gs|] eqn:M; [|discriminate].
  apply match_items_sound in M. simpl in M.
  destruct gs as [|g1 [|g2 [|g3 gs]]]; try tauto.
  destruct M as (_ & _ & Hy & _). cbn [groups3 bind ret].
  destruct (py_int g2) as [e|day]; [discriminate|]. cbn [bind].
  destruct (py_int g3) as [e|year] eqn:Ey; [discriminate|]. cbn [bind].
  destruct (dict_get month_names (lower g1)) as [month|] eqn:Em;
    [|discriminate].
  destruct (within 1 31 day) eqn:Ed; [|discriminate].
  intros H; injection H as <-.
  apply within_spec in Ed. apply month_names_range in Em.
  apply py_int_value in Ey. apply year_group_bound in Hy.
  apply format_date_result; lia.
Qed.

Lemma rule_iso_result (t r : string) :
  rule_iso t = inr (Some r) -> date_result r.
Proof.
  unfold rule_iso.
  destruct (match_items re_iso t) as [gs|] eqn:M; [|discriminate].
  apply match_items_sound in M. simpl in M.
  destruct gs as [|g1 [|g2 [|g3 gs]]]; try tauto.
  destruct M as (Hy & _). cbn [groups3 bind ret].
  destruct (py_int g1) as [e|year] eqn:Ey; [discriminate|]. cbn [bind].
  destruct (py_int g2) as [e|month]; [discriminate|]. cbn [bind].
  destruct (py_int g3) as [e|day]; [discriminate|]. cbn [bind].
  destruct (within 1 12 month && within 1 31 day) eqn:E; [|discriminate].
  intros H; injection H as <-.
  rewrite andb_true_iff, !within_spec in E.
  apply py_int_value in Ey. apply year_group_bound in Hy.
  apply format_date_result; lia.
Qed.

Lemma and_then_result (P : string -> Prop) (a b : step) (r : string) :
  (a = inr (Some r) -> P r) -> (b = inr (Some r) -> P r) ->
  and_then a b = inr (Some r) -> P r.
Proof.
  intros Ha Hb. unfold and_then.
  destruct a as [e|[x|]]; cbn [bind]; [discriminate | | exact Hb].
  intros H. apply Ha. exact H.
Qed.

(** The rules raise nothing but what the [except] clause catches. *)
Lemma groups3_raises (gs : list string) (e : exn) :
  groups3 gs = inl e -> caught_by_parse_date e = true.
Proof.
  destruct gs as [|g1 [|g2 [|g3 gs]]]; simpl; intros H;
    try discriminate H; injection H as <-; reflexivity.
Qed.

Lemma py_int_raises (s : string) (e : exn) :
  py_int s = inl e -> caught_by_parse_date e = true.
Proof.
  unfold py_int. destruct (is_empty s);
    [intros H; injection H as <-; reflexivity|].
  destruct (NilEmpty.uint_of_string s); [discriminate|].
  intros H; injection H as <-; reflexivity.
Qed.

Ltac rule_raises :=
  unfold returns, goes_on, ret;
  repeat match goal with
         | |- bind ?m _ = inl _ -> _ =>
             let E := fresh "E" in
             let H := fresh "H" in
             destruct m eqn:E; cbn [bind];
             [intros H; injection H as <-;
              first [apply (groups3_raises _ _ E) | apply (py_int_raises _ _ E)]
             |]
         | |- (let (_, _) := ?x in _) = inl _ -> _ => destruct x
         | |- (if ?b then _ else _) = inl _ -> _ => destruct b
         | |- match ?x with _ => _ end = inl _ -> _ => destruct x
         | |- inr _ = inl _ -> _ => discriminate
         end.

Lemma rule_month_first_raises (t : string) (e : exn) :
  rule_month_first t = inl e -> caught_by_parse_date e = true.
Proof. unfold rule_month_first. rule_raises. Qed.

Lemma rule_day_first_raises (t : string) (e : exn) :
  rule_day_first t = inl e -> caught_by_parse_date e = true.
Proof. unfold rule_day_first. rule_raises. Qed.

Lemma rule_day_month_name_raises (t : string) (e : exn) :
  rule_day_month_name t = inl e -> caught_by_parse_date e = true.
Proof. unfold rule_day_month_name. rule_raises. Qed.

Lemma rule_month_name_day_raises (t : string) (e : exn) :
  rule_month_name_day t = inl e -> caught_by_parse_date e = true.
Proof. unfold rule_month_name_day. rule_raises. Qed.

Lemma rule_iso_raises (t : string) (e : exn) :
  rule_iso t = inl e -> caught_by_parse_date e = true.
Proof. unfold rule_iso. rule_raises. Qed.

Lemma and_then_raises (a b : step) (e : exn) :
  (a = inl e -> caught_by_parse_date e = true) ->
  (b = inl e -> caught_by_parse_date e = true) ->
  and_then a b = inl e -> caught_by_parse_date e = true.
Proof.
  intros Ha Hb. unfold and_then.
  destruct a as [e'|[x|]]; cbn [bind]; [| discriminate | exact Hb].
  intros H. apply Ha. exact H.
Qed.

(** The claim of C3 as stated fails on the empty input, whatever dateutil
    does: the result "N/A" is neither a date nor the input. *)
Lemma empty_input_becomes_sentinel :
  ~ exists (dateutil_parse : string -> option datetime) (r : string),
      parse_date dateutil_parse "" = ret r /\
      (is_mmddyyyy r = true \/ r = "").
Proof.
  intros (fb & r & H & Hr). vm_compute in H. injection H as <-.
  destruct Hr as [Hr|Hr]; discriminate Hr.
Qed.

Section DateResults.

Variable dateutil_parse : string -> option datetime.

Local Notation "'normalize'" := (parse_date dateutil_parse).

Lemma rule_dateutil_result (t r : string) :
  rule_dateutil dateutil_parse t = inr (Some r) -> date_result r.
Proof.
  unfold rule_dateutil. destruct (dateutil_parse t) as [d|]; [|discriminate].
  intros H; injection H as <-. apply strftime_result.
Qed.

Lemma rule_dateutil_raises (t : string) (e : exn) :
  rule_dateutil dateutil_parse t = inl e -> caught_by_parse_date e = true.
Proof.
  unfold rule_dateutil. destruct (dateutil_parse t); discriminate.
Qed.

Lemma parse_date_rules_result (t r : string) :
  parse_date_rules dateutil_parse t = inr (Some r) -> date_result r.
Proof.
  unfold parse_date_rules.
  repeat (apply and_then_result;
          [first [apply rule_month_first_result | apply rule_day_first_result
                 | apply rule_day_month_name_result
                 | apply rule_month_name_day_result | apply rule_iso_result]|]).
  apply rule_dateutil_result.
Qed.

Lemma parse_date_rules_raises (t : string) (e : exn) :
  parse_date_rules dateutil_parse t = inl e -> caught_by_parse_date e = true.
Proof.
  unfold parse_date_rules.
  repeat (apply and_then_raises;
          [first [apply rule_month_first_raises | apply rule_day_first_raises
                 | apply rule_day_month_name_raises
                 | apply rule_month_name_day_raises | apply rule_iso_raises]|]).
  apply rule_dateutil_raises.
Qed.

(** C3, amended: [parse_date] never raises.  On the empty input it returns
    "N/A"; on any other input it returns the input with the surrounding
    whitespace removed, or a string in MM/DD/YYYY form, or, when the year
    read is below 1000, month/day/year with that short year. *)
Theorem parse_date_result (s : string) :
  exists r,
    parse_date dateutil_parse s = ret r /\
    ((s = "" /\ r = "N/A") \/ r = strip s \/
     is_mmddyyyy r = true \/ short_year_date r).
Proof.
  unfold parse_date.
  destruct (is_empty s) eqn:Ee.
  { apply is_empty_true in Ee. subst s. exists "N/A". simpl. auto. }
  cbn [orb].
  destruct (String.eqb_spec s "N/A") as [->|Hna].
  { exists "N/A". split; [reflexivity|]. right; left. reflexivity. }
  destruct (parse_date_rules dateutil_parse (strip s)) as [e|[r|]] eqn:E.
  - rewrite (parse_date_rules_raises _ _ E). exists (strip s). auto.
  - exists r. split; [reflexivity|].
    destruct (parse_date_rules_result _ _ E); auto.
  - exists (strip s). auto.
Qed.

End DateResults.

(** ** parse_date on a normalised date *)

Lemma digit_not_space (c : ascii) : is_digit c = true -> is_space c = false.
Proof.
  intros H. apply is_digit_cases in H. simpl in H.
  repeat (destruct H as [<-|H]; [reflexivity|]). contradiction.
Qed.

(** The parts of a string in MM/DD/YYYY form. *)
Lemma is_mmddyyyy_parts (s : string) :
  is_mmddyyyy s = true ->
  exists m1 m2 d1 d2 y1 y2 y3 y4,
    let mm := String m1 (String m2 "") in
    let dd := String d1 (String d2 "") in
    let yyyy := String y1 (String y2 (String y3 (String y4 ""))) in
    s = (mm ++ "/" ++ dd ++ "/" ++ yyyy)%string /\
    string_forall is_digit mm = true /\ string_forall is_digit dd = true /\
    string_forall is_digit yyyy = true /\
    in_range_mdy (digits_value mm) (digits_value dd) (digits_value yyyy) = true.
Proof.
  unfold is_mmddyyyy. intros H.
  repeat (apply andb_true_iff in H; destruct H as [H ?H]).
  apply Nat.eqb_eq in H.
  destruct s as [|m1 [|m2 [|s1 [|d1 [|d2 [|s2 [|y1 [|y2 [|y3 [|y4 [|x s]]]]]]]]]]];
    try discriminate H.
  cbn [take drop] in *.
  exists m1, m2, d1, d2, y1, y2, y3, y4. cbn zeta.
  repeat match goal with
         | E : String.eqb (String ?c "") "/" = true |- _ =>
             apply String.eqb_eq in E; injection E as ->
         end.
  unfold in_range_mdy.
  split; [reflexivity|]. do 3 (split; [assumption|]).
  repeat match goal with
         | E : within _ _ _ = true |- _ => rewrite E; clear E
         end.
  reflexivity.
Qed.

Lemma strip_digits_ends (c : ascii) (s : string) (z : ascii) :
  is_digit c = true -> is_digit z = true ->
  strip (String c (s ++ String z "")) = String c (s ++ String z "").
Proof.
  intros Hc Hz. unfold strip. cbn [lstrip].
  rewrite (digit_not_space c Hc).
  assert (R : rstrip (s ++ String z "") = (s ++ String z "")%string
              /\ is_empty (s ++ String z "") = false).
  { induction s as [|a s [IH1 IH2]]; cbn [String.append rstrip is_empty].
    - rewrite (digit_not_space z Hz). split; reflexivity.
    - rewrite IH1, IH2. split; reflexivity. }
  destruct R as [R1 R2]. cbn [rstrip]. rewrite R1, R2. reflexivity.
Qed.

Section DateIdempotence.

Variable dateutil_parse : string -> option datetime.

Local Notation "'normalize'" := (parse_date dateutil_parse).

Lemma parse_date_normalized (s : string) :
  is_mmddyyyy s = true -> normalize s = ret s.
Proof.
  intros H.
  destruct (is_mmddyyyy_parts s H)
    as (m1 & m2 & d1 & d2 & y1 & y2 & y3 & y4 & Es & Dm & Dd & Dy & Hr).
  cbn zeta in *.
  set (mm := String m1 (String m2 "")) in *.
  set (dd := String d1 (String d2 "")) in *.
  set (yyyy := String y1 (String y2 (String y3 (String y4 "")))) in *.
  assert (Dm1 : is_digit m1 = true)
    by (cbn in Dm; apply andb_true_iff in Dm; tauto).
  assert (Dy4 : is_digit y4 = true).
  { cbn in Dy. repeat (apply andb_true_iff in Dy; destruct Dy as [? Dy]).
    assumption. }
  assert (Estrip : strip s = s).
  { rewrite Es.
    exact (strip_digits_ends m1
             (String m2 ("/" ++ dd ++ "/" ++ String y1 (String y2 (String y3 "")))%string)
             y4 Dm1 Dy4). }
  assert (M : match_items re_numeric s = Some [mm; dd; yyyy]).
  { rewrite Es. unfold re_numeric.
    rewrite (match_items_exact _ _ mm _ [dd; yyyy]);
      [reflexivity | reflexivity | simpl; lia | exact Dm |].
    rewrite (match_items_exact _ _ "/" _ [dd; yyyy]);
      [reflexivity | reflexivity | simpl; lia | reflexivity |].
    rewrite (match_items_exact _ _ dd _ [yyyy]);
      [reflexivity | reflexivity | simpl; lia | exact Dd |].
    rewrite (match_items_exact _ _ "/" _ [yyyy]);
      [reflexivity | reflexivity | simpl; lia | reflexivity |].
    replace yyyy with (yyyy ++ "")%string at 1 by reflexivity.
    rewrite (match_items_exact _ _ yyyy _ []);
      [reflexivity | reflexivity | simpl; lia | exact Dy | reflexivity]. }
  assert (R1 : rule_month_first s = returns s).
  { unfold rule_month_first. rewrite M. cbn [groups3 bind ret].
    rewrite (py_int_digits mm Dm), (py_int_digits dd Dd),
      (py_int_digits yyyy Dy) by discriminate.
    cbn [bind ret]. rewrite Hr. unfold format_date.
    unfold in_range_mdy in Hr. rewrite !andb_true_iff, !within_spec in Hr.
    rewrite (two_digits_roundtrip mm Dm), (two_digits_roundtrip dd Dd),
      (four_digits_roundtrip yyyy Dy) by (reflexivity || lia).
    rewrite Es. reflexivity. }
  unfold parse_date.
  assert (Ene : is_empty s = false) by (rewrite Es; reflexivity).
  rewrite Ene. cbn [orb].
  destruct (String.eqb_spec s "N/A") as [E|_];
    [rewrite Es in E; discriminate E|].
  rewrite Estrip. unfold parse_date_rules. rewrite R1. reflexivity.
Qed.

(** C8: [parse_date] returns a string in MM/DD/YYYY form unchanged, so
    normalising a result that is in that form gives the same result again. *)
Theorem parse_date_idempotent_on_dates (s : string) :
  (is_mmddyyyy s = true -> parse_date dateutil_parse s = ret s) /\
  (forall r,
      parse_date dateutil_parse s = ret r -> is_mmddyyyy r = true ->
      (x <- parse_date dateutil_parse s ;; parse_date dateutil_parse x)
      = parse_date dateutil_parse s).
Proof.
  split; [apply parse_date_normalized|].
  intros r Hr Hc. rewrite Hr. cbn [bind].
  apply parse_date_normalized, Hc.
Qed.

End DateIdempotence.

(** Scenario A, normalised once more, with dateutil absent. *)
Lemma parse_date_idempotent_on_dates_example :
  parse_date (fun _ => None) "08/08/2025" = ret "08/08/2025" /\
  (x <- parse_date (fun _ => None) "08-august-2025" ;;
   parse_date (fun _ => None) x)
  = parse_date (fun _ => None) "08-august-2025".
Proof.
  split.
  - apply (proj1 (parse_date_idempotent_on_dates (fun _ => None) "08/08/2025")).
    reflexivity.
  - apply (proj2 (parse_date_idempotent_on_dates (fun _ => None)
                    "08-august-2025") "08/08/2025"); reflexivity.
Defined.

(** ** extract_from_labels *)

Lemma with_member_get {R} (k : string) (found : json -> R) (absent : R)
  (m : list (string * json)) :
  with_member k found absent m
  = match dict_get m k with
    | Some v => found v
    | None => absent
    end.
Proof.
  induction m as [|[k' v] m IH]; simpl; [reflexivity|].
  destruct (String.eqb k' k); [reflexivity | exact IH].
Qed.

Lemma dict_get_in {V} (m : pydict V) (k : string) (v : V) :
  dict_get m k = Some v -> In (k, v) m.
Proof.
  induction m as [|[k' v'] m IH]; simpl; [discriminate|].
  destruct (String.eqb_spec k' k) as [->|_].
  - intros H; injection H as <-. left; reflexivity.
  - intros H. right. exact (IH H).
Qed.

Lemma dict_get_set_same {V} (d : pydict V) (k : string) (v : V) :
  dict_get (dict_set d k v) k = Some v.
Proof.
  induction d as [|[k' v'] d IH]; simpl.
  - rewrite String.eqb_refl. reflexivity.
  - destruct (String.eqb k' k) eqn:E; simpl; rewrite E; [reflexivity | exact IH].
Qed.

Lemma dict_get_set_other {V} (d : pydict V) (k k0 : string) (v : V) :
  String.eqb k k0 = false ->
  dict_get (dict_set d k v) k0 = dict_get d k0.
Proof.
  intros Hne. induction d as [|[k' v'] d IH]; simpl.
  - rewrite Hne. reflexivity.
  - destruct (String.eqb k' k) eqn:E; simpl.
    + apply String.eqb_eq in E. subst k'. rewrite Hne. reflexivity.
    + destruct (String.eqb k' k0); [reflexivity | exact IH].
Qed.

Lemma fold_left_flat_map {A B C} (f : A -> B -> A) (g : C -> list B)
  (l : list C) (a : A) :
  fold_left f (flat_map g l) a
  = fold_left (fun a x => fold_left f (g x) a) l a.
Proof.
  revert a. induction l as [|x l IH]; intros a; simpl; [reflexivity|].
  rewrite fold_left_app. apply IH.
Qed.

Section FieldExtraction.

Variable py_repr : json -> string.
Variable label_map : pydict string.

Local Notation "'clean'" := (get_field_value py_repr).
Local Notation "'writes'" := (apply_write py_repr label_map).
Local Notation "'extracts_in_order'" := (extracts_in_order py_repr label_map).

Lemma clean_nonempty (x : json) : is_empty (clean x) = false.
Proof.
  destruct (get_field_value_cases py_repr x) as [E | [E Hn]]; rewrite E;
    [reflexivity|].
  destruct (strip (py_str py_repr x)); [discriminate Hn | reflexivity].
Qed.

(** The loop over the values keeps, in order, the cleaned values that are
    not "N/A"; its first element is the first valid value. *)
Lemma valid_values_first (items : list json) :
  forallb is_object items = true ->
  exists vs, valid_values py_repr items = ret vs /\
             hd_error vs = first_valid_value py_repr items.
Proof.
  induction items as [|item rest IH]; simpl; intros H.
  - exists []. split; reflexivity.
  - apply andb_true_iff in H as [Ho Hr].
    destruct (IH Hr) as (vs & Evs & Hhd).
    destruct item; try discriminate Ho.
    cbn [py_get bind ret raw_value]. rewrite Evs. cbn [bind ret].
    set (v := clean match dict_get members "Value" with
                    | Some x => x | None => JStr "N/A" end).
    assert (Hv : is_empty v = false) by apply clean_nonempty.
    rewrite Hv. cbn [negb andb].
    destruct (String.eqb v "N/A"); cbn [negb].
    + exists vs. split; [reflexivity | exact Hhd].
    + exists (v :: vs). split; reflexivity.
Qed.

(** On a label of the Label shape the first statement of the loop body
    performs the label's write. *)
Lemma read_label_write (m : list (string * json)) (base_data : record) :
  wf_label (JObj m) = true ->
  read_label py_repr label_map (JObj m) base_data
  = ret (writes base_data (JObj m)).
Proof.
  intros H. cbn [wf_label] in H.
  apply andb_true_iff in H as [H _]. apply andb_true_iff in H as [Hn Hv].
  unfold read_label, apply_write, label_write. cbn [py_get bind ret].
  destruct (dict_get m "LabelName") as [[| | | |n| |]|]; try discriminate Hn;
    cbn [mapped_field bind ret]; [|reflexivity].
  destruct (dict_get label_map n) as [field|]; [|reflexivity].
  destruct (dict_get m "Values") as [[| | | | |items|]|]; try discriminate Hv;
    cbn [truthy py_iter bind ret]; try reflexivity.
  destruct items as [|item rest]; [reflexivity|].
  destruct (valid_values_first (item :: rest) Hv) as (vs & -> & Hhd).
  cbn [bind ret]. rewrite <- Hhd.
  destruct vs; reflexivity.
Qed.

Lemma for_labels_in_order (l : list json) :
  Forall extracts_in_order l -> forallb wf_label l = true ->
  forall base_data,
    for_labels (extract_label py_repr label_map) (JArr l) base_data
    = ret (fold_left writes (flat_map visit_order l) base_data).
Proof.
  cbn [for_labels].
  induction 1 as [|label l Hl _ IH]; intros Hwf base_data; [reflexivity|].
  cbn [forallb] in Hwf. apply andb_true_iff in Hwf as [Hw Hws].
  change (for_each (extract_label py_repr label_map) (label :: l) base_data)
    with (bd' <- extract_label py_repr label_map label base_data ;;
          for_each (extract_label py_repr label_map) l bd').
  rewrite (Hl Hw). cbn [bind ret flat_map].
  rewrite fold_left_app. apply IH, Hws.
Qed.

Lemma extract_label_in_order_nested (j : json) :
  extracts_in_order j /\
  (forall l, j = JArr l -> Forall extracts_in_order l).
Proof.
  induction j as [| | | | |l IH|m IH] using json_nested_ind;
    try (split; [intros Hwf; discriminate Hwf | intros l' E; discriminate E]).
  - split; [intros Hwf; discriminate Hwf|].
    intros l' E. injection E as <-.
    apply (Forall_impl _ (fun j H => proj1 H) IH).
  - split; [|intros l' E; discriminate E].
    intros Hwf base_data.
    cbn [extract_label]. rewrite (read_label_write m base_data Hwf).
    cbn [bind ret visit_order fold_left].
    cbn [wf_label] in Hwf. apply andb_true_iff in Hwf as [_ Hch].
    rewrite with_member_get in Hch. rewrite !with_member_get.
    destruct (dict_get m "ChildLabels") as [children|] eqn:Ec; [|reflexivity].
    destruct children as [| | | | |l|]; try discriminate Hch; [reflexivity|].
    destruct l as [|c l]; [reflexivity|].
    cbn [truthy].
    apply for_labels_in_order; [|exact Hch].
    apply dict_get_in in Ec. rewrite Forall_forall in IH.
    specialize (IH _ Ec). cbn [snd] in IH.
    exact (proj2 IH _ eq_refl).
Qed.

Lemma extract_label_in_order (label : json) : extracts_in_order label.
Proof. apply extract_label_in_order_nested. Qed.

(** The loop of the model is the loop of the source: iterate over
    [labels] and run the body on each element. *)
Lemma extract_from_labels_iterates (labels : json) (base_data : record) :
  extract_from_labels py_repr labels label_map base_data
  = (items <- py_iter labels ;;
     for_each (extract_label py_repr label_map) items base_data).
Proof.
  unfold extract_from_labels.
  destruct labels as [| | | |s|l|m]; try reflexivity.
  - destruct s; reflexivity.
  - destruct m as [|[k v] m]; reflexivity.
Qed.

Lemma note_write_later (field : string) (order : list json) :
  forall acc,
    fold_left (note_write py_repr label_map field) order acc
    = match last_write py_repr label_map field order with
      | Some v => Some v
      | None => acc
      end.
Proof.
  unfold last_write.
  induction order as [|label rest IH]; intros acc; [reflexivity|].
  cbn [fold_left]. rewrite (IH (note_write _ _ field acc label)).
  rewrite (IH (note_write _ _ field None label)).
  destruct (fold_left (note_write py_repr label_map field) rest None);
    [reflexivity|].
  unfold note_write.
  destruct (label_write py_repr label_map label) as [[f v]|]; [|reflexivity].
  destruct (String.eqb f field); reflexivity.
Qed.

(** With every write applied in order, a field ends with the value of the
    last label that wrote to it, or keeps its old value. *)
Lemma fold_writes_last (order : list json) (field : string) :
  forall base_data : record,
    dict_get (fold_left writes order base_data) field
    = match last_write py_repr label_map field order with
      | Some v => Some v
      | None => dict_get base_data field
      end.
Proof.
  induction order as [|label rest IH]; intros base_data; [reflexivity|].
  cbn [fold_left]. rewrite IH.
  change (last_write py_repr label_map field (label :: rest))
    with (fold_left (note_write py_repr label_map field) rest
            (note_write py_repr label_map field None label)).
  rewrite note_write_later.
  destruct (last_write py_repr label_map field rest); [reflexivity|].
  unfold apply_write, note_write.
  destruct (label_write py_repr label_map label) as [[f v]|]; [|reflexivity].
  destruct (String.eqb f field) eqn:E.
  - apply String.eqb_eq in E. subst f. apply dict_get_set_same.
  - apply dict_get_set_other, E.
Qed.


End FieldExtraction.


(** ** Grouping and marking *)

Lemma key_eqb_eq (k1 k2 : list string) : key_eqb k1 k2 = true <-> k1 = k2.
Proof.
  unfold key_eqb. destruct (list_eq_dec string_dec k1 k2); split;
    intros H; try reflexivity; try assumption; try contradiction;
    discriminate.
Qed.

Lemma key_eqb_refl (k : list string) : key_eqb k k = true.
Proof. apply key_eqb_eq. reflexivity. Qed.

Lemma key_eqb_neq (k1 k2 : list string) : key_eqb k1 k2 = false <-> k1 <> k2.
Proof.
  rewrite <- key_eqb_eq. destruct (key_eqb k1 k2); split; intros H;
    try reflexivity; try discriminate; try (intros E; discriminate E).
  contradiction H; reflexivity.
Qed.

Lemma existsb_key_in (k : list string) (ks : list (list string)) :
  existsb (key_eqb k) ks = true <-> In k ks.
Proof.
  rewrite existsb_exists. split.
  - intros (x & Hx & E). apply key_eqb_eq in E. subst x. exact Hx.
  - intros H. exists k. split; [exact H | apply key_eqb_refl].
Qed.

(** *** Marked records *)

Lemma dict_set_absent {V} (d : pydict V) (k : string) (v : V) :
  dict_get d k = None -> dict_set d k v = d ++ [(k, v)].
Proof.
  induction d as [|[k' v'] d IH]; simpl; [reflexivity|].
  destruct (String.eqb k' k); [discriminate|].
  intros H. rewrite (IH H). reflexivity.
Qed.

Lemma without_status_get (doc : record) (k : string) :
  String.eqb k "status" = false ->
  dict_get (without_status doc) k = dict_get doc k.
Proof.
  intros Hk. induction doc as [|[k' v'] d IH]; simpl; [reflexivity|].
  destruct (String.eqb k' "status") eqn:E; simpl.
  - apply String.eqb_eq in E. subst k'.
    rewrite String.eqb_sym, Hk. exact IH.
  - destruct (String.eqb k' k); [reflexivity | exact IH].
Qed.

Lemma without_status_no_status (doc : record) :
  dict_get (without_status doc) "status" = None.
Proof.
  induction doc as [|[k' v'] d IH]; simpl; [reflexivity|].
  destruct (String.eqb k' "status") eqn:E; simpl; [exact IH|].
  rewrite E. exact IH.
Qed.

Lemma marked_get (status : string) (doc : record) (k : string) :
  String.eqb k "status" = false ->
  dict_get (marked status doc) k = dict_get doc k.
Proof.
  intros Hk. unfold marked. rewrite dict_get_set_other.
  - apply without_status_get, Hk.
  - rewrite String.eqb_sym. exact Hk.
Qed.

Lemma marked_status (status : string) (doc : record) :
  status_of (marked status doc) = Some status.
Proof. apply dict_get_set_same. Qed.

Lemma marked_filename (status : string) (doc : record) :
  filename_of (marked status doc) = filename_of doc.
Proof. apply marked_get. reflexivity. Qed.

Lemma without_status_idem (doc : record) :
  without_status (without_status doc) = without_status doc.
Proof.
  unfold without_status. induction doc as [|[k v] d IH]; simpl; [reflexivity|].
  destruct (String.eqb k "status") eqn:E; simpl; [exact IH|].
  rewrite E. simpl. rewrite IH. reflexivity.
Qed.

Lemma without_status_marked (status : string) (doc : record) :
  without_status (marked status doc) = without_status doc.
Proof.
  unfold marked. rewrite (dict_set_absent _ _ _ (without_status_no_status doc)).
  unfold without_status at 1. rewrite filter_app. simpl. rewrite app_nil_r.
  apply without_status_idem.
Qed.

Lemma mark_from_succ (i : nat) (group_docs : list record) :
  mark_from (S i) group_docs = map (marked "duplicate") group_docs.
Proof.
  revert i. induction group_docs as [|d rest IH]; intros i; simpl;
    [reflexivity|].
  rewrite IH. reflexivity.
Qed.

Lemma mark_from_zero (group_docs : list record) :
  mark_from 0 group_docs
  = match group_docs with
    | [] => []
    | d :: rest => marked "original" d :: map (marked "duplicate") rest
    end.
Proof.
  destruct group_docs as [|d rest]; [reflexivity|].
  simpl. rewrite mark_from_succ. reflexivity.
Qed.

Section GroupingProperties.

Variable py_repr : json -> string.
Variable doc_type : string.

Local Notation "'key'" := (fun d => get_grouping_key py_repr d doc_type).
Local Notation "'cluster'" := (cluster_of py_repr doc_type).
Local Notation "'keys'" := (keys_in_order py_repr doc_type).

Lemma cleaned_tuple_ext (d1 d2 : record) (fields : list string) :
  (forall f, In f fields -> dict_get d1 f = dict_get d2 f) ->
  cleaned_tuple py_repr d1 fields = cleaned_tuple py_repr d2 fields.
Proof.
  induction fields as [|f fields IH]; intros H; [reflexivity|].
  simpl. unfold py_index. rewrite (H f (or_introl eq_refl)).
  rewrite IH; [reflexivity|]. intros f' Hf'. apply H. right. exact Hf'.
Qed.

Lemma identity_fields_not_status (f : string) :
  In f (identity_fields doc_type) -> String.eqb f "status" = false.
Proof.
  unfold identity_fields.
  destruct (String.eqb doc_type "paystub");
    [|destruct (String.eqb doc_type "w2")]; simpl; intros H;
    repeat (destruct H as [<-|H]; [reflexivity|]); contradiction.
Qed.

Lemma marked_key (status : string) (doc : record) :
  key (marked status doc) = key doc.
Proof.
  unfold get_grouping_key.
  rewrite (cleaned_tuple_ext (marked status doc) doc); [reflexivity|].
  intros f Hf. apply marked_get, identity_fields_not_status, Hf.
Qed.

End GroupingProperties.

(** ** Sorting by filename *)

Lemma ascii_compare_cases (a b : ascii) :
  (Ascii.compare a b = Eq /\ a = b) \/
  (Ascii.compare a b = Lt /\ (N_of_ascii a < N_of_ascii b)%N) \/
  (Ascii.compare a b = Gt /\ (N_of_ascii b < N_of_ascii a)%N).
Proof.
  unfold Ascii.compare.
  destruct (N.compare_spec (N_of_ascii a) (N_of_ascii b)) as [E|L|G].
  - left. split; [reflexivity|].
    rewrite <- (ascii_N_embedding a), <- (ascii_N_embedding b), E. reflexivity.
  - right; left. auto.
  - right; right. auto.
Qed.

Lemma string_leb_trans (s1 s2 s3 : string) :
  String.leb s1 s2 = true -> String.leb s2 s3 = true -> String.leb s1 s3 = true.
Proof.
  unfold String.leb.
  revert s2 s3. induction s1 as [|a s1 IH]; intros [|b s2] [|c s3]; simpl;
    try reflexivity; try discriminate.
  destruct (ascii_compare_cases a b) as [[-> ->]|[[-> Hab]|[-> Hab]]];
    try discriminate.
  - destruct (Ascii.compare b c) eqn:Ebc; try discriminate; auto.
    apply IH.
  - destruct (ascii_compare_cases b c) as [[-> ->]|[[-> Hbc]|[-> Hbc]]];
      try discriminate; intros _ _.
    + destruct (ascii_compare_cases a c) as [[-> ->]|[[-> Hac]|[-> Hac]]];
        try reflexivity; lia.
    + destruct (ascii_compare_cases a c) as [[-> ->]|[[-> Hac]|[-> Hac]]];
        try reflexivity; lia.
Qed.

Lemma string_leb_refl (s : string) : String.leb s s = true.
Proof. destruct (String.leb_total s s); assumption. Qed.

Lemma insert_by_key_perm (x : string * record) (l : list (string * record)) :
  Permutation (insert_by_key x l) (x :: l).
Proof.
  induction l as [|y l IH]; simpl; [reflexivity|].
  destruct (String.leb (fst x) (fst y)); [reflexivity|].
  rewrite IH. apply perm_swap.
Qed.

Lemma sort_by_key_perm (l : list (string * record)) :
  Permutation (sort_by_key l) l.
Proof.
  induction l as [|x l IH]; simpl; [reflexivity|].
  rewrite insert_by_key_perm, IH. reflexivity.
Qed.

Lemma insert_by_key_sorted (x : string * record) (l : list (string * record)) :
  StronglySorted key_le l -> StronglySorted key_le (insert_by_key x l).
Proof.
  induction 1 as [|y l Hs IH Hy]; simpl.
  - constructor; constructor.
  - destruct (String.leb (fst x) (fst y)) eqn:E.
    + constructor; [constructor; assumption|].
      constructor; [exact E|].
      apply (Forall_impl _ (fun q Hq => string_leb_trans _ _ _ E Hq) Hy).
    + constructor; [exact IH|].
      eapply Permutation_Forall;
        [symmetry; apply insert_by_key_perm|].
      * constructor; [|exact Hy].
        destruct (String.leb_total (fst x) (fst y)) as [H|H];
          [rewrite H in E; discriminate E | exact H].
Qed.

Lemma sort_by_key_sorted (l : list (string * record)) :
  StronglySorted key_le (sort_by_key l).
Proof.
  induction l as [|x l IH]; simpl; [constructor|].
  apply insert_by_key_sorted, IH.
Qed.

(** Two sorted lists with the same elements are equal when elements with
    equal keys are equal. *)
Lemma sorted_perm_unique (l1 : list (string * record)) :
  forall l2,
    (forall p q, In p l1 -> In q l1 -> fst p = fst q -> p = q) ->
    StronglySorted key_le l1 -> StronglySorted key_le l2 ->
    Permutation l1 l2 -> l1 = l2.
Proof.
  induction l1 as [|x l1 IH]; intros l2 Huniq S1 S2 HP.
  - apply Permutation_nil in HP. subst. reflexivity.
  - destruct l2 as [|y l2];
      [symmetry in HP; apply Permutation_nil in HP; discriminate HP|].
    inversion S1 as [|? ? S1' Hx]; subst.
    inversion S2 as [|? ? S2' Hy]; subst.
    assert (Exy : x = y).
    { assert (Hyin : In y (x :: l1))
        by (apply (Permutation_in y (Permutation_sym HP)); left; reflexivity).
      assert (Hxin : In x (y :: l2))
        by (apply (Permutation_in x HP); left; reflexivity).
      destruct Hyin as [E|Hyin]; [exact E|].
      destruct Hxin as [E|Hxin]; [symmetry; exact E|].
      rewrite Forall_forall in Hx, Hy.
      apply Huniq; [left; reflexivity | right; exact Hyin|].
      apply String.leb_antisym; [apply Hx, Hyin | apply Hy, Hxin]. }
    subst y. f_equal. apply IH; try assumption.
    + intros p q Hp Hq. apply Huniq; right; assumption.
    + apply (Permutation_cons_inv HP).
Qed.

(** ** Clusters *)

Lemma filter_none {A} (p : A -> bool) (l : list A) :
  (forall x, In x l -> p x = false) -> filter p l = [].
Proof.
  induction l as [|x l IH]; intros H; simpl; [reflexivity|].
  rewrite (H x (or_introl eq_refl)). apply IH.
  intros y Hy. apply H. right. exact Hy.
Qed.

Lemma filter_all {A} (p : A -> bool) (l : list A) :
  (forall x, In x l -> p x = true) -> filter p l = l.
Proof.
  induction l as [|x l IH]; intros H; simpl; [reflexivity|].
  rewrite (H x (or_introl eq_refl)). f_equal. apply IH.
  intros y Hy. apply H. right. exact Hy.
Qed.

Lemma filter_flat_map {A B} (p : B -> bool) (f : A -> list B) (l : list A) :
  filter p (flat_map f l) = flat_map (fun x => filter p (f x)) l.
Proof.
  induction l as [|x l IH]; simpl; [reflexivity|].
  rewrite filter_app, IH. reflexivity.
Qed.

Lemma filter_perm {A} (p : A -> bool) (l l' : list A) :
  Permutation l l' -> Permutation (filter p l) (filter p l').
Proof.
  induction 1 as [|x l l' _ IH|x y l|l l' l'' _ IH1 _ IH2]; simpl.
  - reflexivity.
  - destruct (p x); [constructor|]; exact IH.
  - destruct (p x), (p y); try reflexivity. apply perm_swap.
  - rewrite IH1. exact IH2.
Qed.

(** Among keys without repetition only the block of [k] is selected. *)
Lemma flat_map_select {B} (k : list string) (b : list string -> list B)
  (ks : list (list string)) :
  NoDup ks ->
  flat_map (fun k' => if key_eqb k' k then b k' else []) ks
  = if existsb (key_eqb k) ks then b k else [].
Proof.
  induction 1 as [|k0 ks Hnin _ IH]; simpl; [reflexivity|].
  rewrite IH. destruct (key_eqb k0 k) eqn:E.
  - apply key_eqb_eq in E. subst k0. rewrite key_eqb_refl. simpl.
    destruct (existsb (key_eqb k) ks) eqn:Ex;
      [apply existsb_key_in in Ex; contradiction | apply app_nil_r].
  - replace (key_eqb k k0) with false; [reflexivity|].
    symmetry. apply key_eqb_neq. apply key_eqb_neq in E. congruence.
Qed.

Section Clusters.

Variable py_repr : json -> string.
Variable doc_type : string.

Local Notation "'key'" := (fun d => get_grouping_key py_repr d doc_type).
Local Notation "'cluster'" := (cluster_of py_repr doc_type).
Local Notation "'keys'" := (keys_in_order py_repr doc_type).

Lemma cluster_app (k : list string) (docs : list record) (d : record) :
  cluster k (docs ++ [d])
  = if key_eqb (key d) k then cluster k docs ++ [d] else cluster k docs.
Proof.
  unfold cluster_of. rewrite filter_app. simpl.
  destruct (key_eqb (get_grouping_key py_repr d doc_type) k);
    [reflexivity | apply app_nil_r].
Qed.

Lemma keys_app (docs : list record) (d : record) :
  keys (docs ++ [d])
  = if existsb (key_eqb (key d)) (keys docs) then keys docs
    else keys docs ++ [key d].
Proof. unfold keys_in_order. rewrite fold_left_app. reflexivity. Qed.

(** The keys in order are the keys of the records, each once. *)
Lemma keys_in_order_spec (docs : list record) :
  NoDup (keys docs) /\
  (forall k, In k (keys docs) <-> exists d, In d docs /\ key d = k).
Proof.
  induction docs as [|d docs [IH1 IH2]] using rev_ind.
  - split; [constructor|]. intros k. split; [intros [] | intros (d & [] & _)].
  - rewrite keys_app.
    destruct (existsb (key_eqb (key d)) (keys docs)) eqn:E.
    + split; [exact IH1|]. intros k. rewrite IH2. split.
      * intros (d' & Hd' & Hk). exists d'. split; [|exact Hk].
        apply in_or_app. left. exact Hd'.
      * intros (d' & Hd' & Hk). apply in_app_or in Hd' as [Hd'|[<-|[]]].
        -- exists d'. split; assumption.
        -- apply existsb_key_in in E. apply IH2 in E. subst k. exact E.
    + assert (Hnin : ~ In (key d) (keys docs)).
      { intros H. apply existsb_key_in in H. rewrite H in E. discriminate E. }
      split.
      * apply NoDup_app; [exact IH1 | repeat constructor; intros [] |].
        intros k Hk [<-|[]]. contradiction.
      * intros k. rewrite in_app_iff, IH2. split.
        -- intros [(d' & Hd' & Hk)|[<-|[]]].
           ++ exists d'. split; [apply in_or_app; left; exact Hd' | exact Hk].
           ++ exists d. split; [apply in_or_app; right; left|]; reflexivity.
        -- intros (d' & Hd' & Hk). apply in_app_or in Hd' as [Hd'|[<-|[]]].
           ++ left. exists d'. split; assumption.
           ++ right. left. exact Hk.
Qed.

Lemma group_append_present (f : list string -> list record)
  (k : list string) (d : record) (ks : list (list string)) :
  NoDup ks -> In k ks ->
  group_append (map (fun k' => (k', f k')) ks) k d
  = map (fun k' => (k', if key_eqb k k' then f k' ++ [d] else f k')) ks.
Proof.
  induction 1 as [|k0 ks Hnin Hnd IH]; intros Hin; [contradiction|].
  simpl. destruct (key_eqb k0 k) eqn:E.
  - apply key_eqb_eq in E. subst k0. rewrite key_eqb_refl. f_equal.
    apply map_ext_in. intros k' Hk'.
    replace (key_eqb k k') with false; [reflexivity|].
    symmetry. apply key_eqb_neq. intros <-. contradiction.
  - replace (key_eqb k k0) with false.
    + f_equal. apply IH. destruct Hin as [<-|Hin]; [|exact Hin].
      rewrite key_eqb_refl in E. discriminate E.
    + symmetry. apply key_eqb_neq. apply key_eqb_neq in E. congruence.
Qed.

Lemma group_append_absent (f : list string -> list record)
  (k : list string) (d : record) (ks : list (list string)) :
  ~ In k ks ->
  group_append (map (fun k' => (k', f k')) ks) k d
  = map (fun k' => (k', f k')) ks ++ [(k, [d])].
Proof.
  induction ks as [|k0 ks IH]; intros Hnin; [reflexivity|].
  simpl. destruct (key_eqb k0 k) eqn:E.
  - apply key_eqb_eq in E. subst k0. contradiction Hnin. left; reflexivity.
  - f_equal. apply IH. intros H. apply Hnin. right. exact H.
Qed.

(** The groups of the [defaultdict]: one per key, in the order of first
    appearance, each holding the records of its key in input order. *)
Lemma group_by_key_clusters (docs : list record) :
  group_by_key py_repr doc_type docs
  = map (fun k => (k, cluster k docs)) (keys docs).
Proof.
  induction docs as [|d docs IH] using rev_ind; [reflexivity|].
  unfold group_by_key in *. rewrite fold_left_app. cbn [fold_left].
  rewrite IH, keys_app.
  destruct (keys_in_order_spec docs) as [Hnd Hin].
  destruct (existsb (key_eqb (key d)) (keys docs)) eqn:E.
  - rewrite group_append_present;
      [|exact Hnd | apply existsb_key_in, E].
    apply map_ext. intros k'. rewrite cluster_app. reflexivity.
  - assert (Hnin : ~ In (key d) (keys docs)).
    { intros H. apply existsb_key_in in H. rewrite H in E. discriminate E. }
    rewrite group_append_absent by exact Hnin.
    rewrite map_app. cbn [map]. f_equal.
    + apply map_ext_in. intros k' Hk'. rewrite cluster_app.
      replace (key_eqb (key d) k') with false; [reflexivity|].
      symmetry. apply key_eqb_neq. intros <-. contradiction.
    + rewrite cluster_app, key_eqb_refl. f_equal. f_equal.
      unfold cluster_of. rewrite filter_none; [reflexivity|].
      intros d' Hd'. apply key_eqb_neq. intros Hk.
      apply Hnin, Hin. exists d'. split; assumption.
Qed.

Lemma cluster_key (k : list string) (docs : list record) (d : record) :
  In d (cluster k docs) -> key d = k /\ In d docs.
Proof.
  unfold cluster_of. rewrite filter_In. intros [Hin Hk].
  apply key_eqb_eq in Hk. auto.
Qed.

Lemma cluster_absent (k : list string) (docs : list record) :
  existsb (key_eqb k) (keys docs) = false -> cluster k docs = [].
Proof.
  intros E. unfold cluster_of. apply filter_none. intros d Hd.
  apply key_eqb_neq. intros Hk.
  assert (H : In k (keys docs))
    by (apply (proj2 (keys_in_order_spec docs)); exists d; auto).
  apply existsb_key_in in H. rewrite H in E. discriminate E.
Qed.

End Clusters.

(** ** The grouping stage *)

Lemma keyed_decorate (group_docs : list record) :
  Forall has_filename group_docs -> keyed group_docs = ret (decorate group_docs).
Proof.
  induction 1 as [|d rest Hd _ IH]; [reflexivity|].
  simpl. unfold py_index, fname, filename_of in *. unfold has_filename, filename_of in Hd.
  destruct (dict_get d "filename") as [f|]; [|contradiction Hd; reflexivity].
  cbn [bind ret]. rewrite IH. reflexivity.
Qed.

Lemma sort_by_filename_total (group_docs : list record) :
  Forall has_filename group_docs ->
  sort_by_filename group_docs = ret (by_filename group_docs).
Proof.
  intros H. unfold sort_by_filename. rewrite (keyed_decorate _ H). reflexivity.
Qed.

Lemma by_filename_perm (group_docs : list record) :
  Permutation (by_filename group_docs) group_docs.
Proof.
  unfold by_filename. rewrite sort_by_key_perm. unfold decorate.
  rewrite map_map. simpl. rewrite map_id. reflexivity.
Qed.

Lemma mark_groups_blocks (f : list string -> list record)
  (ks : list (list string)) :
  (forall k, In k ks -> Forall has_filename (f k)) ->
  mark_groups (map (fun k => (k, f k)) ks)
  = ret (flat_map (fun k => mark_from 0 (by_filename (f k))) ks).
Proof.
  induction ks as [|k ks IH]; intros H; [reflexivity|].
  simpl. rewrite (sort_by_filename_total _ (H k (or_introl eq_refl))).
  cbn [bind ret]. rewrite IH; [reflexivity|].
  intros k' Hk'. apply H. right. exact Hk'.
Qed.

Lemma in_mark_from_zero (d : record) (l : list record) :
  In d (mark_from 0 l) -> exists s x, In x l /\ d = marked s x.
Proof.
  rewrite mark_from_zero. destruct l as [|x l]; [intros []|].
  intros [<-|H].
  - exists "original", x. split; [left|]; reflexivity.
  - apply in_map_iff in H as (y & <- & Hy).
    exists "duplicate", y. split; [right; exact Hy | reflexivity].
Qed.

Lemma map_without_status_mark (l : list record) :
  map without_status (mark_from 0 l) = map without_status l.
Proof.
  rewrite mark_from_zero. destruct l as [|x l]; [reflexivity|].
  simpl. rewrite without_status_marked, map_map. f_equal.
  apply map_ext. intros y. apply without_status_marked.
Qed.

Lemma sorted_decorated (group_docs : list record) (q : string * record) :
  Forall has_filename group_docs ->
  In q (sort_by_key (decorate group_docs)) ->
  filename_of (snd q) = Some (fst q) /\ In (snd q) group_docs.
Proof.
  intros Hf Hq.
  apply (Permutation_in q (sort_by_key_perm _)) in Hq.
  unfold decorate in Hq. apply in_map_iff in Hq as (d & <- & Hd).
  split; [|exact Hd]. simpl.
  rewrite Forall_forall in Hf. specialize (Hf d Hd).
  unfold has_filename in Hf. unfold fname.
  destruct (filename_of d); [reflexivity | contradiction Hf; reflexivity].
Qed.

(** A sorted and marked group is a marked cluster. *)
Lemma mark_sorted_cluster (group_docs : list record) :
  Forall has_filename group_docs ->
  cluster_marked (mark_from 0 (by_filename group_docs)).
Proof.
  intros Hf. rewrite mark_from_zero. unfold by_filename.
  pose proof (sort_by_key_sorted (decorate group_docs)) as Hs.
  pose proof (sorted_decorated group_docs) as Hq.
  destruct (sort_by_key (decorate group_docs)) as [|p ps]; [exact I|].
  cbn [map cluster_marked].
  inversion Hs as [|? ? _ Hp]; subst.
  split; [apply marked_status|]. split.
  - apply Forall_forall. intros d Hd.
    apply in_map_iff in Hd as (y & <- & _). apply marked_status.
  - apply Forall_forall. intros d Hd.
    apply in_map_iff in Hd as (y & <- & Hy).
    apply in_map_iff in Hy as (q & <- & Hqin).
    exists (fst p), (fst q). rewrite !marked_filename.
    split; [apply (Hq p Hf); left; reflexivity|].
    split; [apply (Hq q Hf); right; exact Hqin|].
    rewrite Forall_forall in Hp. exact (Hp q Hqin).
Qed.

Section Dedup.

Variable py_repr : json -> string.
Variable doc_type : string.

Local Notation "'key'" := (fun d => get_grouping_key py_repr d doc_type).
Local Notation "'cluster'" := (cluster_of py_repr doc_type).
Local Notation "'keys'" := (keys_in_order py_repr doc_type).
Local Notation "'valid'" := (valid_canonical py_repr doc_type).
Local Notation "'block'" := (block py_repr doc_type).

Lemma cluster_has_filename (k : list string) (docs : list record) :
  Forall has_filename docs -> Forall has_filename (cluster k docs).
Proof.
  intros H. apply Forall_forall. intros d Hd.
  rewrite Forall_forall in H. apply H.
  exact (proj2 (cluster_key py_repr doc_type k docs d Hd)).
Qed.

Lemma processed_docs_blocks (docs : list record) :
  Forall has_filename docs ->
  processed_docs py_repr doc_type docs = ret (flat_map (block docs) (keys docs)).
Proof.
  intros H. unfold processed_docs. rewrite group_by_key_clusters.
  apply (mark_groups_blocks (fun k => cluster k docs)).
  intros k _. apply cluster_has_filename, H.
Qed.

Lemma block_key (docs : list record) (k : list string) (d : record) :
  In d (block docs k) -> key d = k.
Proof.
  intros H. apply in_mark_from_zero in H as (s & x & Hx & ->).
  rewrite marked_key.
  apply (Permutation_in x (by_filename_perm _)) in Hx.
  exact (proj1 (cluster_key py_repr doc_type k docs x Hx)).
Qed.

(** In the output the cluster of a key is the block of that key. *)
Lemma cluster_processed (docs : list record) (k : list string) :
  cluster k (flat_map (block docs) (keys docs)) = block docs k.
Proof.
  unfold cluster_of at 1. rewrite filter_flat_map.
  rewrite (flat_map_ext _
             (fun k' => if key_eqb k' k then block docs k' else [])).
  - rewrite flat_map_select by apply keys_in_order_spec.
    destruct (existsb (key_eqb k) (keys docs)) eqn:E; [reflexivity|].
    unfold block. rewrite (cluster_absent _ _ _ _ E). reflexivity.
  - intros k'. destruct (key_eqb k' k) eqn:E.
    + apply filter_all. intros d Hd. apply block_key in Hd.
      rewrite Hd. exact E.
    + apply filter_none. intros d Hd. apply block_key in Hd.
      rewrite Hd. exact E.
Qed.

Lemma block_same_records (docs : list record) (k : list string) :
  Permutation (map without_status (block docs k))
    (map without_status (cluster k docs)).
Proof.
  unfold block. rewrite map_without_status_mark.
  apply Permutation_map, by_filename_perm.
Qed.

Lemma valid_has_filename (d : record) : valid d -> has_filename d.
Proof. intros (f & vs & -> & _). discriminate. Qed.

(** Two valid records of the type with the same key and the same filename
    are the same record. *)
Lemma valid_same (d1 d2 : record) :
  valid d1 -> valid d2 -> key d1 = key d2 -> fname d1 = fname d2 -> d1 = d2.
Proof.
  intros (f1 & v1 & -> & L1 & C1) (f2 & v2 & -> & L2 & C2).
  unfold get_grouping_key, canonical_record, identity_fields,
    required_fields_of in *.
  destruct (String.eqb doc_type "paystub");
    [|destruct (String.eqb doc_type "w2")].
  - destruct v1 as [|a1 [|a2 [|a3 [|a4 [|a5 [|]]]]]]; try discriminate L1.
    destruct v2 as [|b1 [|b2 [|b3 [|b4 [|b5 [|]]]]]]; try discriminate L2.
    repeat match goal with
           | H : Forall _ (_ :: _) |- _ => inversion H; clear H; subst
           end.
    cbn. intros Hk Hf. injection Hk as E1 E2 E3 E4 E5.
    repeat match goal with
           | H : _ /\ get_field_value py_repr (JStr ?v) = ?v |- _ =>
               destruct H as [_ H]; rewrite H in *; clear H
           end.
    subst. reflexivity.
  - destruct v1 as [|a1 [|a2 [|a3 [|]]]]; try discriminate L1.
    destruct v2 as [|b1 [|b2 [|b3 [|]]]]; try discriminate L2.
    repeat match goal with
           | H : Forall _ (_ :: _) |- _ => inversion H; clear H; subst
           end.
    cbn. intros Hk Hf. injection Hk as E1 E2 E3.
    repeat match goal with
           | H : _ /\ get_field_value py_repr (JStr ?v) = ?v |- _ =>
               destruct H as [_ H]; rewrite H in *; clear H
           end.
    subst. reflexivity.
  - destruct v1 as [|a1 [|a2 [|a3 [|a4 [|]]]]]; try discriminate L1.
    destruct v2 as [|b1 [|b2 [|b3 [|b4 [|]]]]]; try discriminate L2.
    repeat match goal with
           | H : Forall _ (_ :: _) |- _ => inversion H; clear H; subst
           end.
    cbn. intros Hk Hf. injection Hk as E1 E2 E3 E4.
    repeat match goal with
           | H : _ /\ get_field_value py_repr (JStr ?v) = ?v |- _ =>
               destruct H as [_ H]; rewrite H in *; clear H
           end.
    subst. reflexivity.
Qed.

Lemma block_perm (docs docs' : list record) (k : list string) :
  Forall valid docs -> Permutation docs docs' -> block docs k = block docs' k.
Proof.
  intros Hv HP. unfold block, by_filename. do 2 f_equal.
  assert (Hf : Forall has_filename (cluster k docs)).
  { apply cluster_has_filename.
    apply (Forall_impl _ valid_has_filename Hv). }
  apply sorted_perm_unique.
  - intros p q Hp Hq E.
    destruct (sorted_decorated _ p Hf Hp) as [Fp Ip].
    destruct (sorted_decorated _ q Hf Hq) as [Fq Iq].
    destruct p as [fp dp], q as [fq dq]. simpl in *. subst fq. f_equal.
    destruct (cluster_key py_repr doc_type k docs dp Ip) as [Kp Dp].
    destruct (cluster_key py_repr doc_type k docs dq Iq) as [Kq Dq].
    rewrite Forall_forall in Hv.
    apply valid_same; [apply Hv, Dp | apply Hv, Dq | congruence |].
    unfold fname. rewrite Fp, Fq. reflexivity.
  - apply sort_by_key_sorted.
  - apply sort_by_key_sorted.
  - rewrite !sort_by_key_perm. unfold decorate.
    apply Permutation_map. unfold cluster_of. apply filter_perm, HP.
Qed.

Lemma keys_perm (docs docs' : list record) :
  Permutation docs docs' -> Permutation (keys docs) (keys docs').
Proof.
  intros HP.
  destruct (keys_in_order_spec py_repr doc_type docs) as [N1 I1].
  destruct (keys_in_order_spec py_repr doc_type docs') as [N2 I2].
  apply NoDup_Permutation; [exact N1 | exact N2|].
  intros k. rewrite I1, I2. split; intros (d & Hd & Hk); exists d;
    (split; [|exact Hk]).
  - apply (Permutation_in d HP Hd).
  - apply (Permutation_in d (Permutation_sym HP) Hd).
Qed.

(** C1: on valid CanonicalRecords of one type the grouping stage returns a
    list in which the records of each grouping key are the records of that
    key in the input, the first of them marked "original" with a filename
    not greater than any other filename of the key, all the others marked
    "duplicate"; and the result depends on the input only up to its order. *)
Theorem original_is_smallest_filename (docs : list record) :
  Forall (valid_canonical py_repr doc_type) docs ->
  exists out,
    processed_docs py_repr doc_type docs = ret out /\
    (forall k,
        cluster_marked (cluster_of py_repr doc_type k out) /\
        Permutation
          (map without_status (cluster_of py_repr doc_type k out))
          (map without_status (cluster_of py_repr doc_type k docs))) /\
    (forall docs',
        Permutation docs docs' ->
        exists out',
          processed_docs py_repr doc_type docs' = ret out' /\
          Permutation out out').
Proof.
  intros Hv.
  assert (Hf : Forall has_filename docs)
    by apply (Forall_impl _ valid_has_filename Hv).
  exists (flat_map (block docs) (keys docs)).
  split; [apply processed_docs_blocks, Hf|]. split.
  - intros k. rewrite cluster_processed. split.
    + apply mark_sorted_cluster, cluster_has_filename, Hf.
    + apply block_same_records.
  - intros docs' HP.
    exists (flat_map (block docs') (keys docs')). split.
    + apply processed_docs_blocks.
      apply (Permutation_Forall HP), Hf.
    + rewrite (flat_map_ext (block docs') (block docs)).
      * apply Permutation_flat_map, keys_perm, HP.
      * intros k. symmetry. apply block_perm; assumption.
Qed.

End Dedup.

(** Scenario D: two paystub records with the same identity fields and the
    filenames "b.json" and "a.json". *)
Lemma original_is_smallest_filename_example :
  exists out,
    processed_docs (fun _ => "") "paystub"
      [canonical_record "paystub" "b.json"
         ["Ann Lee"; "Acme"; "01/31/2025"; "01/01/2025"; "1200.00"];
       canonical_record "paystub" "a.json"
         ["Ann Lee"; "Acme"; "01/31/2025"; "01/01/2025"; "1200.00"]]
    = ret out /\
    map (fun d => (filename_of d, status_of d)) out
    = [(Some "a.json", Some "original"); (Some "b.json", Some "duplicate")].
Proof.
  destruct (original_is_smallest_filename (fun _ => "") "paystub"
              [canonical_record "paystub" "b.json"
                 ["Ann Lee"; "Acme"; "01/31/2025"; "01/01/2025"; "1200.00"];
               canonical_record "paystub" "a.json"
                 ["Ann Lee"; "Acme"; "01/31/2025"; "01/01/2025"; "1200.00"]])
    as (out & Hrun & _).
  - repeat constructor;
      (eexists _, _; split; [reflexivity|]; split; [reflexivity|];
       repeat constructor; try discriminate; reflexivity).
  - exists out. split; [exact Hrun|].
    vm_compute in Hrun. injection Hrun as <-. reflexivity.
Defined.

(** ** The records the grouping stage receives

    Every record that [extract_document_data] accepts is a valid
    CanonicalRecord of its type. *)

Lemma string_forall_app (p : ascii -> bool) (a b : string) :
  string_forall p (a ++ b) = string_forall p a && string_forall p b.
Proof.
  induction a as [|c a IH]; simpl; [reflexivity|].
  rewrite IH. apply andb_assoc.
Qed.

Lemma string_forall_impl (p q : ascii -> bool) (s : string) :
  (forall c, p c = true -> q c = true) ->
  string_forall p s = true -> string_forall q s = true.
Proof.
  intros H. induction s as [|c s IH]; simpl; [reflexivity|].
  intros E. apply andb_true_iff in E as [Ec Es].
  rewrite (H c Ec), (IH Es). reflexivity.
Qed.

Lemma string_length_app (a b : string) :
  String.length (a ++ b) = String.length a + String.length b.
Proof. induction a as [|c a IH]; simpl; [reflexivity | rewrite IH; reflexivity]. Qed.

Lemma lstrip_no_space (s : string) :
  string_forall (fun c => negb (is_space c)) s = true -> lstrip s = s.
Proof.
  destruct s as [|c s]; simpl; [reflexivity|].
  intros H. apply andb_true_iff in H as [Hc _].
  destruct (is_space c); [discriminate Hc | reflexivity].
Qed.

Lemma rstrip_no_space (s : string) :
  string_forall (fun c => negb (is_space c)) s = true -> rstrip s = s.
Proof.
  induction s as [|c s IH]; simpl; [reflexivity|].
  intros H. apply andb_true_iff in H as [Hc Hs]. rewrite (IH Hs).
  destruct (is_space c); [discriminate Hc|]. rewrite andb_false_r.
  reflexivity.
Qed.

Lemma strip_no_space (s : string) :
  string_forall (fun c => negb (is_space c)) s = true -> strip s = s.
Proof.
  intros H. unfold strip. rewrite (lstrip_no_space s H).
  apply rstrip_no_space, H.
Qed.

Lemma eqb_length (a b : string) :
  String.length a <> String.length b -> String.eqb a b = false.
Proof.
  intros H. destruct (String.eqb_spec a b) as [->|]; [|reflexivity].
  contradiction H; reflexivity.
Qed.

Lemma date_char_not_space (c : ascii) :
  date_char c = true -> negb (is_space c) = true.
Proof.
  unfold date_char. intros H. apply orb_true_iff in H as [H|H].
  - rewrite (digit_not_space c H). reflexivity.
  - unfold is_char in H. apply Ascii.eqb_eq in H. subst c. reflexivity.
Qed.

Lemma digits_date_chars (s : string) :
  string_forall is_digit s = true -> string_forall date_char s = true.
Proof.
  apply string_forall_impl. intros c H. unfold date_char. rewrite H.
  reflexivity.
Qed.

Lemma pad2_digits (n : N) : string_forall is_digit (pad2 n) = true.
Proof.
  unfold pad2. destruct (String.length (str_nat n) <? 2);
    [simpl|]; apply str_nat_digits.
Qed.

Lemma pad2_length (n : N) : 2 <= String.length (pad2 n).
Proof.
  unfold pad2. destruct (Nat.ltb_spec (String.length (str_nat n)) 2) as [H|H];
    [|exact H].
  pose proof (str_nat_nonempty n) as Hne.
  destruct (str_nat n); [contradiction Hne; reflexivity|]. simpl. lia.
Qed.

Lemma pad4_digits (n : N) : string_forall is_digit (pad4 n) = true.
Proof.
  unfold pad4. rewrite string_forall_app, str_nat_digits, andb_true_r.
  destruct (4 - String.length (str_nat n)) as [|[|[|[|[|k]]]]]; reflexivity.
Qed.

Lemma date_text_chars (a b c : string) :
  string_forall is_digit a = true -> string_forall is_digit b = true ->
  string_forall is_digit c = true ->
  string_forall date_char (a ++ "/" ++ b ++ "/" ++ c) = true.
Proof.
  intros Ha Hb Hc.
  rewrite !string_forall_app, (digits_date_chars a Ha),
    (digits_date_chars b Hb), (digits_date_chars c Hc). reflexivity.
Qed.

Section AcceptedRecords.

Variable py_repr : json -> string.

Local Notation "'clean'" := (get_field_value py_repr).
Local Notation "'cleaned'" := (cleaned py_repr).
Local Notation "'under_construction'" := (under_construction py_repr).
Local Notation "'keeps_layout'" := (keeps_layout py_repr).

Lemma cleaned_clean (x : json) : cleaned (clean x).
Proof. apply get_field_value_clean. Qed.

Lemma cleaned_na : cleaned "N/A".
Proof. reflexivity. Qed.

Lemma cleaned_strip (v : string) : cleaned v -> strip v = v \/ v = "N/A".
Proof.
  unfold cleaned. intros H.
  destruct (get_field_value_cases py_repr (JStr v)) as [E | [E _]];
    rewrite H in E; simpl in E; auto.
Qed.

(** A text of date characters of some length is a cleaned value. *)
Lemma cleaned_date_text (r : string) :
  string_forall date_char r = true -> 5 <= String.length r -> cleaned r.
Proof.
  intros Hc Hl. apply get_field_value_fixed.
  - apply strip_no_space.
    apply (string_forall_impl _ _ r date_char_not_space Hc).
  - unfold str_in, sentinels. cbn [existsb].
    rewrite !eqb_length by (simpl; lia). reflexivity.
Qed.

Lemma cleaned_date_result (r : string) : date_result r -> cleaned r.
Proof.
  intros [H|(m & d & y & ytext & _ & Hy & ->)].
  - destruct (is_mmddyyyy_parts r H)
      as (m1 & m2 & d1 & d2 & y1 & y2 & y3 & y4 & -> & Dm & Dd & Dy & _).
    apply cleaned_date_text; [apply date_text_chars; assumption|].
    simpl. lia.
  - assert (Dy : string_forall is_digit ytext = true)
      by (destruct Hy as [->| ->]; [apply str_nat_digits | apply pad4_digits]).
    apply cleaned_date_text;
      [apply date_text_chars; [apply pad2_digits | apply pad2_digits | exact Dy]|].
    rewrite !string_length_app. pose proof (pad2_length m).
    pose proof (pad2_length d). simpl. lia.
Qed.

Variable dateutil_parse : string -> option datetime.

Lemma parse_date_cleaned (v r : string) :
  cleaned v -> parse_date dateutil_parse v = inr r -> cleaned r.
Proof.
  intros Hv. unfold parse_date.
  destruct (is_empty v || String.eqb v "N/A");
    [intros H; injection H as <-; apply cleaned_na|].
  assert (Hs : cleaned (strip v)).
  { destruct (cleaned_strip v Hv) as [->| ->]; [exact Hv | apply cleaned_na]. }
  destruct (parse_date_rules dateutil_parse (strip v)) as [e|[x|]] eqn:E.
  - destruct (caught_by_parse_date e); [|discriminate].
    intros H; injection H as <-. exact Hs.
  - intros H; injection H as <-.
    apply cleaned_date_result. exact (parse_date_rules_result _ _ _ E).
  - intros H; injection H as <-. exact Hs.
Qed.

Ltac by_doc_type ty :=
  destruct (String.eqb ty "paystub") eqn:?;
  [|destruct (String.eqb ty "w2") eqn:?].

Ltac exact_length vs L :=
  repeat (destruct vs as [|? vs]; try discriminate L).

Ltac split_forall :=
  repeat match goal with
         | H : Forall _ (_ :: _) |- _ => inversion H; clear H; subst
         end.

Lemma initial_record (doc_type filename : string) :
  under_construction doc_type
    (dict_update
       [("document_type", doc_type); ("filename", filename); ("docId", "")]
       (all_na (required_fields_of doc_type))).
Proof.
  exists filename, (map (fun _ => "N/A") (required_fields_of doc_type)).
  unfold partial_record, required_fields_of.
  by_doc_type doc_type; (split; [reflexivity|]); (split; [reflexivity|]);
    repeat constructor.
Qed.

Lemma set_field (doc_type : string) (bd : record) (f v : string) :
  under_construction doc_type bd -> In f (required_fields_of doc_type) ->
  cleaned v -> under_construction doc_type (dict_set bd f v).
Proof.
  intros (fn & vs & -> & L & HQ) Hf Hv.
  unfold under_construction, partial_record, required_fields_of in *.
  by_doc_type doc_type; exact_length vs L; split_forall;
    simpl in Hf;
    repeat (destruct Hf as [<-|Hf];
            [match goal with
             | |- exists _ _, ?b = _ /\ _ => exists fn, (map snd (skipn 3 b))
             end;
             split; [reflexivity|]; split; [reflexivity|];
             simpl; repeat constructor; assumption|]);
    contradiction.
Qed.

Lemma label_map_fields (doc_type n f : string) :
  dict_get (label_map_of doc_type) n = Some f ->
  In f (required_fields_of doc_type).
Proof.
  unfold label_map_of, required_fields_of.
  by_doc_type doc_type; cbn [dict_get];
    repeat match goal with
           | |- context [String.eqb ?k n] => destruct (String.eqb k n)
           end;
    intros H; try discriminate H; injection H as <-; simpl; auto 10.
Qed.

Lemma date_fields_required (doc_type f : string) :
  In f (date_fields_of doc_type) -> In f (required_fields_of doc_type).
Proof.
  unfold date_fields_of, required_fields_of.
  destruct (String.eqb doc_type "paystub"); [simpl; tauto|].
  destruct (String.eqb_spec doc_type "1120") as [->|_]; [simpl; tauto|].
  intros [].
Qed.

Lemma valid_values_cleaned (items : list json) :
  forall vs, valid_values py_repr items = inr vs -> Forall cleaned vs.
Proof.
  induction items as [|item rest IH]; simpl; intros vs H.
  - injection H as <-. constructor.
  - destruct (py_get item "Value" (JStr "N/A")) as [e|x]; [discriminate H|].
    cbn [bind] in H.
    destruct (valid_values py_repr rest) as [e|vs']; [discriminate H|].
    cbn [bind ret] in H. injection H as <-.
    specialize (IH vs' eq_refl).
    destruct (negb (is_empty (clean x)) && negb (String.eqb (clean x) "N/A"));
      [constructor; [apply cleaned_clean | exact IH] | exact IH].
Qed.

Lemma read_label_keeps (doc_type : string) (label : json) (bd bd' : record) :
  read_label py_repr (label_map_of doc_type) label bd = inr bd' ->
  under_construction doc_type bd -> under_construction doc_type bd'.
Proof.
  unfold read_label. intros H Hbd.
  destruct (py_get label "LabelName" JNull) as [e|name]; [discriminate H|].
  cbn [bind] in H.
  destruct (mapped_field (label_map_of doc_type) name) as [e|[f|]] eqn:Ef;
    [discriminate H| |injection H as <-; exact Hbd].
  cbn [bind] in H.
  assert (Hf : In f (required_fields_of doc_type)).
  { destruct name; try discriminate Ef. simpl in Ef. injection Ef as Ef.
    exact (label_map_fields _ _ _ Ef). }
  destruct (py_get label "Values" JNull) as [e|values]; [discriminate H|].
  cbn [bind] in H.
  destruct (truthy values); [|injection H as <-; exact Hbd].
  destruct (py_iter values) as [e|items]; [discriminate H|]. cbn [bind] in H.
  destruct (valid_values py_repr items) as [e|vs] eqn:Ev; [discriminate H|].
  cbn [bind] in H. apply valid_values_cleaned in Ev.
  destruct vs as [|v vs]; injection H as <-; [exact Hbd|].
  inversion Ev; subst. apply set_field; assumption.
Qed.

Lemma for_each_keeps (doc_type : string) (l : list json) :
  Forall (keeps_layout doc_type) l ->
  forall bd bd',
    for_each (extract_label py_repr (label_map_of doc_type)) l bd = inr bd' ->
    under_construction doc_type bd -> under_construction doc_type bd'.
Proof.
  induction 1 as [|label l Hl _ IH]; intros bd bd' H Hbd.
  - injection H as <-. exact Hbd.
  - change (for_each (extract_label py_repr (label_map_of doc_type))
              (label :: l) bd)
      with (x <- extract_label py_repr (label_map_of doc_type) label bd ;;
            for_each (extract_label py_repr (label_map_of doc_type)) l x) in H.
    destruct (extract_label py_repr (label_map_of doc_type) label bd)
      as [e|bd1] eqn:E; [discriminate H|].
    cbn [bind] in H. exact (IH _ _ H (Hl _ _ E Hbd)).
Qed.

Lemma for_labels_keeps (doc_type : string) (labels : json) :
  (forall l, labels = JArr l -> Forall (keeps_layout doc_type) l) ->
  forall bd bd',
    for_labels (extract_label py_repr (label_map_of doc_type)) labels bd
    = inr bd' ->
    under_construction doc_type bd -> under_construction doc_type bd'.
Proof.
  intros Hl bd bd' H Hbd.
  destruct labels as [| | | |s|l|m]; try discriminate H.
  - simpl in H. destruct (is_empty s); [|discriminate H].
    injection H as <-. exact Hbd.
  - exact (for_each_keeps doc_type l (Hl l eq_refl) _ _ H Hbd).
  - simpl in H. destruct m; [|discriminate H]. injection H as <-. exact Hbd.
Qed.

Lemma extract_label_keeps_nested (doc_type : string) (j : json) :
  keeps_layout doc_type j /\
  (forall l, j = JArr l -> Forall (keeps_layout doc_type) l).
Proof.
  induction j as [| | | | |l IH|m IH] using json_nested_ind;
    try (split; [intros bd bd' H; discriminate H | intros l' E; discriminate E]).
  - split; [intros bd bd' H; discriminate H|].
    intros l' E. injection E as <-.
    apply (Forall_impl _ (fun j H => proj1 H) IH).
  - split; [|intros l' E; discriminate E].
    intros bd bd' H Hbd. cbn [extract_label] in H.
    destruct (read_label py_repr (label_map_of doc_type) (JObj m) bd)
      as [e|bd1] eqn:E1; [discriminate H|].
    cbn [bind] in H. apply (read_label_keeps _ _ _ _ E1) in Hbd.
    rewrite with_member_get in H.
    destruct (dict_get m "ChildLabels") as [children|] eqn:Ec;
      [|injection H as <-; exact Hbd].
    destruct (truthy children); [|injection H as <-; exact Hbd].
    apply (for_labels_keeps doc_type children) with (bd := bd1);
      [|exact H | exact Hbd].
    apply dict_get_in in Ec. rewrite Forall_forall in IH.
    exact (proj2 (IH _ Ec)).
Qed.

Lemma extract_from_labels_keeps (doc_type : string) (labels : json)
  (bd bd' : record) :
  extract_from_labels py_repr labels (label_map_of doc_type) bd = inr bd' ->
  under_construction doc_type bd -> under_construction doc_type bd'.
Proof.
  apply for_labels_keeps. intros l ->.
  apply Forall_forall. intros label _. apply extract_label_keeps_nested.
Qed.

Lemma find_skill_keeps (doc_type skill_name : string) (skills : list json)
  (bd bd' : record) :
  find_skill py_repr skill_name (label_map_of doc_type) skills bd
  = inr (Some bd') ->
  under_construction doc_type bd -> under_construction doc_type bd'.
Proof.
  induction skills as [|skill rest IH]; simpl; intros H Hbd; [discriminate H|].
  destruct (py_get skill "SkillName" JNull) as [e|n]; [discriminate H|].
  cbn [bind] in H. destruct (py_eq_str n skill_name); [|exact (IH H Hbd)].
  destruct (py_get skill "Labels" (JArr [])) as [e|labels]; [discriminate H|].
  cbn [bind] in H.
  destruct (extract_from_labels py_repr labels (label_map_of doc_type) bd)
    as [e|bd1] eqn:E; [discriminate H|].
  cbn [bind ret] in H. injection H as <-.
  exact (extract_from_labels_keeps _ _ _ _ E Hbd).
Qed.

Lemma parse_date_loop_keeps (doc_type : string) (fields : list string) :
  (forall f, In f fields -> In f (required_fields_of doc_type)) ->
  forall bd,
    under_construction doc_type bd ->
    under_construction doc_type
      (parse_date_loop dateutil_parse fields bd).
Proof.
  induction fields as [|f fields IH]; intros Hreq bd Hbd; [exact Hbd|].
  assert (Hrest : forall f', In f' fields ->
                             In f' (required_fields_of doc_type))
    by (intros f' Hf'; apply Hreq; right; exact Hf').
  simpl. destruct (dict_get bd f) as [v|] eqn:Ev; [|apply IH; assumption].
  destruct (negb (String.eqb v "N/A")); [|apply IH; assumption].
  destruct (parse_date dateutil_parse v) as [e|r] eqn:Er; [exact Hbd|].
  apply IH; [exact Hrest|].
  apply set_field; [exact Hbd | apply Hreq; left; reflexivity|].
  apply (parse_date_cleaned v r); [|exact Er].
  destruct Hbd as (fn & vs & -> & L & HQ).
  apply dict_get_in in Ev. unfold partial_record in Ev.
  apply in_app_or in Ev as [Ev|Ev].
  - simpl in Ev.
    assert (Hf : In f (required_fields_of doc_type))
      by (apply Hreq; left; reflexivity).
    exfalso. clear - Ev Hf. unfold required_fields_of in Hf.
    by_doc_type doc_type; simpl in Hf;
      repeat (destruct Hf as [<-|Hf];
              [repeat (destruct Ev as [Ev|Ev]; [discriminate Ev|]);
               contradiction|]);
      contradiction.
  - apply in_combine_r in Ev. rewrite Forall_forall in HQ. exact (HQ v Ev).
Qed.

Lemma finished_record (doc_type : string) (bd : record) :
  under_construction doc_type bd ->
  filter (is_missing bd) (required_fields_of doc_type) = [] ->
  valid_canonical py_repr doc_type (dict_set bd "status" "original").
Proof.
  intros (fn & vs & -> & L & HQ) Hm.
  exists fn, vs. split; [|split; [exact L|]].
  - unfold partial_record, canonical_record, required_fields_of in *.
    by_doc_type doc_type; exact_length vs L; reflexivity.
  - assert (Hall : forall f, In f (required_fields_of doc_type) ->
                             is_missing (partial_record doc_type fn vs) f
                             = false).
    { intros f Hf.
      destruct (is_missing (partial_record doc_type fn vs) f) eqn:E;
        [|reflexivity].
      assert (Hin : In f (filter (is_missing (partial_record doc_type fn vs))
                            (required_fields_of doc_type)))
        by (apply filter_In; auto).
      rewrite Hm in Hin. contradiction. }
    clear Hm. unfold partial_record, required_fields_of, is_missing in *.
    by_doc_type doc_type; exact_length vs L; split_forall;
      repeat constructor; try assumption;
      intros ->;
      match goal with
      | |- False =>
          first
            [ discriminate (Hall "employee_name" ltac:(simpl; tauto))
            | discriminate (Hall "employer_name" ltac:(simpl; tauto))
            | discriminate (Hall "pay_period_end_date" ltac:(simpl; tauto))
            | discriminate (Hall "pay_period_start_date" ltac:(simpl; tauto))
            | discriminate (Hall "year_to_date_earnings" ltac:(simpl; tauto))
            | discriminate (Hall "year" ltac:(simpl; tauto))
            | discriminate (Hall "name" ltac:(simpl; tauto))
            | discriminate (Hall "beginning_tax_year" ltac:(simpl; tauto))
            | discriminate (Hall "ending_tax_year" ltac:(simpl; tauto)) ]
      end.
Qed.

(** Every accepted record is a valid CanonicalRecord of the type it was
    classified as. *)
Lemma accepted_record_valid (json_data : json) (filename : string)
  (d : record) (doc_type : string) :
  extract_document_data py_repr dateutil_parse json_data filename
  = Extracted d doc_type ->
  doc_type = identify_document_type json_data /\
  valid_canonical py_repr doc_type d.
Proof.
  unfold extract_document_data, extract_body.
  set (ty := identify_document_type json_data).
  destruct (py_get json_data "Meta" (JObj [])) as [e|meta]; [discriminate|].
  cbn [bind].
  destruct (py_get meta "FileName" (JStr filename)) as [e|name];
    [discriminate|]. cbn [bind].
  destruct (py_get json_data "Summary" (JArr [])) as [e|summary];
    [discriminate|]. cbn [bind].
  destruct (py_iter summary) as [e|skills]; [discriminate|]. cbn [bind].
  match goal with
  | |- context [find_skill _ _ _ _ ?b] => set (bd0 := b)
  end.
  assert (H0 : under_construction ty bd0) by apply initial_record.
  destruct (find_skill py_repr (skill_name_of ty) (label_map_of ty) skills bd0)
    as [e|[bd1|]] eqn:Ef; [discriminate| |discriminate].
  cbn [bind ret].
  apply (find_skill_keeps _ _ _ _ _ Ef) in H0.
  assert (H1 : under_construction ty
                 (parse_date_fields dateutil_parse bd1 ty)).
  { unfold parse_date_fields.
    apply parse_date_loop_keeps; [apply date_fields_required | exact H0]. }
  destruct (filter (is_missing (parse_date_fields dateutil_parse bd1 ty))
              (required_fields_of ty)) eqn:Em; [|discriminate].
  intros H. injection H as <- <-. split; [reflexivity|].
  apply finished_record; assumption.
Qed.

End AcceptedRecords.

(** * Further properties of the code *)

(** ** get_field_value: what a cleaned value is *)

Section CleanedValues.

Variable py_repr : json -> string.

(** X1: a cleaned value has no surrounding whitespace, is never empty, and
    is "N/A" whenever it is one of the sentinel texts. *)
Theorem get_field_value_never_blank (x : json) :
  strip (get_field_value py_repr x) = get_field_value py_repr x /\
  get_field_value py_repr x <> "" /\
  (str_in (get_field_value py_repr x) sentinels = true ->
   get_field_value py_repr x = "N/A").
Proof.
  destruct (get_field_value_cases py_repr x) as [E | [E Hn]]; rewrite E.
  - split; [reflexivity|]. split; [discriminate | reflexivity].
  - split; [apply strip_idem|]. split.
    + intros H. rewrite H in Hn. discriminate Hn.
    + intros H. rewrite H in Hn. discriminate Hn.
Qed.

End CleanedValues.

(** ** parse_date: whitespace and repeated normalisation *)

Section DateComposition.

Variable dateutil_parse : string -> option datetime.

(** X2: whitespace around a date is ignored: an input and its trimmed form
    have the same result, as long as trimming leaves more than the empty
    string or the sentinel. *)
Theorem parse_date_ignores_whitespace (s : string) :
  strip s <> "" -> strip s <> "N/A" ->
  parse_date dateutil_parse s = parse_date dateutil_parse (strip s).
Proof.
  intros Hne Hna. unfold parse_date.
  destruct (is_empty s) eqn:Ee.
  { apply is_empty_true in Ee. subst s. contradiction Hne. reflexivity. }
  destruct (String.eqb_spec s "N/A") as [->|_].
  { contradiction Hna. reflexivity. }
  cbn [orb].
  destruct (is_empty (strip s)) eqn:Es.
  { apply is_empty_true in Es. contradiction. }
  destruct (String.eqb_spec (strip s) "N/A") as [E|_]; [contradiction|].
  cbn [orb]. rewrite strip_idem. reflexivity.
Qed.

(** X3: normalising twice is normalising once, for every input whose result
    is neither empty nor a date with a year below 1000. *)
Theorem parse_date_idempotent (s r : string) :
  parse_date dateutil_parse s = ret r ->
  r <> "" -> ~ short_year_date r ->
  parse_date dateutil_parse r = ret r.
Proof.
  intros H Hne Hshort.
  assert (Hfix : forall t,
             t = r ->
             strip t = t ->
             match parse_date_rules dateutil_parse t with
             | inr (Some _) => False
             | inr None => True
             | inl e => caught_by_parse_date e = true
             end ->
             parse_date dateutil_parse r = ret r).
  { intros t -> Ht Hrules. unfold parse_date.
    destruct r as [|c r']; [contradiction Hne; reflexivity|].
    cbn [is_empty orb].
    destruct (String.eqb_spec (String c r') "N/A") as [->|_]; [reflexivity|].
    rewrite Ht.
    destruct (parse_date_rules dateutil_parse (String c r')) as [e|[x|]];
      [rewrite Hrules; reflexivity | contradiction | reflexivity]. }
  unfold parse_date in H.
  destruct (is_empty s || String.eqb s "N/A").
  { injection H as <-. reflexivity. }
  destruct (parse_date_rules dateutil_parse (strip s)) as [e|[x|]] eqn:E.
  - destruct (caught_by_parse_date e) eqn:Ec; [|discriminate H].
    injection H as H. apply (Hfix (strip s) H (strip_idem s)).
    rewrite E. exact Ec.
  - injection H as ->.
    destruct (parse_date_rules_result _ _ _ E) as [Hd|Hs];
      [apply parse_date_normalized, Hd | contradiction].
  - injection H as H. apply (Hfix (strip s) H (strip_idem s)).
    rewrite E. exact I.
Qed.

End DateComposition.

(** A date between spaces, with dateutil absent. *)
Lemma parse_date_ignores_whitespace_example :
  parse_date (fun _ => None) "  1/2/2025 "
  = parse_date (fun _ => None) (strip "  1/2/2025 ").
Proof.
  apply parse_date_ignores_whitespace; vm_compute; discriminate.
Defined.

Lemma digits_value_zero (s : string) :
  digits_value (String "0" s) = digits_value s.
Proof.
  unfold digits_value. simpl.
  destruct (NilEmpty.uint_of_string s); reflexivity.
Qed.

Lemma digits_value_pad4 (n : N) : digits_value (pad4 n) = n.
Proof.
  unfold pad4.
  destruct (4 - String.length (str_nat n)) as [|[|[|[|[|k]]]]]; simpl;
    rewrite ?digits_value_zero; apply digits_value_str_nat.
Qed.

(** A date in MM/DD/YYYY form is not a date with a year below 1000. *)
Lemma canonical_not_short_year (r : string) :
  is_mmddyyyy r = true -> ~ short_year_date r.
Proof.
  intros H (m & d & y & ytext & (Hm & Hd & Hy) & Ht & E).
  destruct (is_mmddyyyy_parts r H)
    as (m1 & m2 & d1 & d2 & y1 & y2 & y3 & y4 & Er & _ & _ & _ & Hr).
  cbn zeta in *.
  destruct (pad2_below_100 m) as (Lm & _ & _); [lia|].
  destruct (pad2_below_100 d) as (Ld & _ & _); [lia|].
  destruct (length2_inv _ Lm) as (a & b & Em).
  destruct (length2_inv _ Ld) as (c & e & Ed).
  rewrite E, Em, Ed in Er. simpl in Er. injection Er as _ _ _ _ Ey.
  assert (Vy : digits_value ytext = y)
    by (destruct Ht as [->| ->];
        [apply digits_value_str_nat | apply digits_value_pad4]).
  rewrite Ey in Vy. unfold in_range_mdy in Hr.
  rewrite !andb_true_iff, !within_spec in Hr. lia.
Qed.

(** Scenario B, normalised twice. *)
Lemma parse_date_idempotent_example :
  parse_date (fun _ => None) "08/08/2025" = ret "08/08/2025".
Proof.
  apply (parse_date_idempotent (fun _ => None) "August 08, 2025").
  - reflexivity.
  - discriminate.
  - apply canonical_not_short_year. reflexivity.
Defined.

(** ** parse_date: the dates each pattern recognises *)

Ltac by_character c :=
  destruct c as [[] [] [] [] [] [] [] []]; vm_compute; intros H;
  try discriminate H; repeat split.

Lemma digit_class (c : ascii) :
  is_digit c = true ->
  is_word c = true /\ is_space c = false /\ is_sep c = false /\
  is_char "-" c = false /\ is_char "," c = false /\ is_letter c = false.
Proof. by_character c. Qed.

Lemma letter_class (c : ascii) :
  is_letter c = true ->
  is_word c = true /\ is_digit c = false /\ is_space c = false /\
  is_char "-" c = false.
Proof. by_character c. Qed.

Lemma space_class (c : ascii) :
  is_space c = true ->
  is_word c = false /\ is_digit c = false /\ is_char "," c = false.
Proof. by_character c. Qed.

Lemma sep_class (c : ascii) :
  is_sep c = true -> is_digit c = false /\ is_space c = false.
Proof. by_character c. Qed.

Lemma lower_letter_from (c : ascii) :
  is_lower_letter (lower_char c) = true -> is_letter c = true.
Proof. by_character c. Qed.

Lemma run_greedy (p : ascii -> bool) (w s : string) :
  string_forall p w = true ->
  forall lim,
    lim = Some (String.length w) \/
    (match lim with
     | Some h => String.length w <= h
     | None => True
     end /\
     match s with
     | EmptyString => True
     | String c _ => p c = false
     end) ->
    run p lim (w ++ s) = String.length w.
Proof.
  induction w as [|c w IH]; intros Hw lim Hstop.
  - simpl. destruct s as [|c s]; [reflexivity|]. simpl.
    destruct Hstop as [->|[_ Hc]]; [destruct (p c); reflexivity|].
    rewrite Hc. reflexivity.
  - simpl in Hw. apply andb_true_iff in Hw as [Hc Hw]. simpl. rewrite Hc.
    destruct lim as [[|l]|].
    + destruct Hstop as [E|[Hl _]]; [discriminate E | simpl in Hl; lia].
    + f_equal. apply IH; [exact Hw|].
      destruct Hstop as [E|[Hl Hs]].
      * left. simpl in E. injection E as ->. reflexivity.
      * right. split; [simpl in Hl; lia | exact Hs].
    + f_equal. apply IH; [exact Hw|].
      destruct Hstop as [E|[_ Hs]]; [discriminate E|].
      right. split; [exact I | exact Hs].
Qed.

(** A greedy repetition that stops after [w], followed by a match of the
    rest, is the match that [re.match] finds. *)
Lemma match_items_greedy (it : item) (rest : list item) (w s : string)
  (gs : list string) :
  string_forall (cls it) w = true -> rmin it <= String.length w ->
  stops_at it w s ->
  match_items rest s = Some gs ->
  match_items (it :: rest) (w ++ s)
  = Some (if captured it then w :: gs else gs).
Proof.
  intros Hw Hmin Hstop Hrest. simpl.
  rewrite (run_greedy _ w s Hw (rmax it) Hstop).
  apply backtrack_first; [exact Hmin|].
  rewrite drop_app_length, Hrest, take_app_length. reflexivity.
Qed.

Lemma backtrack_none {R} (k lo : nat) (try : nat -> option R) :
  (forall j, lo <= j <= k -> try j = None) -> backtrack k lo try = None.
Proof.
  induction k as [|k IH]; intros H; simpl.
  - destruct (0 <? lo) eqn:E; [reflexivity|].
    apply Nat.ltb_ge in E. rewrite (H 0) by lia. reflexivity.
  - destruct (S k <? lo) eqn:E; [reflexivity|].
    apply Nat.ltb_ge in E. rewrite (H (S k)) by lia.
    destruct (Nat.le_gt_cases lo k) as [Hle|Hgt].
    + apply IH. intros j Hj. apply H. lia.
    + destruct k as [|k']; simpl.
      * replace (0 <? lo) with true by (symmetry; apply Nat.ltb_lt; lia).
        reflexivity.
      * replace (S k' <? lo) with true by (symmetry; apply Nat.ltb_lt; lia).
        reflexivity.
Qed.

(** The pattern fails when the rest fails after every repetition count. *)
Lemma match_items_none (it : item) (rest : list item) (s : string) :
  (forall j, rmin it <= j <= run (cls it) (rmax it) s ->
             match_items rest (drop j s) = None) ->
  match_items (it :: rest) s = None.
Proof.
  intros H. simpl. apply backtrack_none. intros j Hj.
  rewrite (H j Hj). reflexivity.
Qed.

(** The pattern fails at a first character outside the class of an item
    that must match at least once. *)
Lemma match_items_fail_first (it : item) (rest : list item) (c : ascii)
  (s : string) :
  cls it c = false -> 1 <= rmin it ->
  match_items (it :: rest) (String c s) = None.
Proof.
  intros Hc Hmin. apply match_items_none. intros j Hj.
  simpl in Hj. rewrite Hc in Hj. lia.
Qed.

Lemma match_items_fail_empty (it : item) (rest : list item) :
  1 <= rmin it -> match_items (it :: rest) EmptyString = None.
Proof.
  intros Hmin. apply match_items_none. intros j Hj. simpl in Hj. lia.
Qed.

Lemma digit_text_spec (lo hi : nat) (s : string) :
  digit_text lo hi s = true ->
  string_forall is_digit s = true /\ lo <= String.length s <= hi.
Proof.
  unfold digit_text, between. rewrite !andb_true_iff, !Nat.leb_le. tauto.
Qed.

Lemma strip_ends (c z : ascii) (s : string) :
  is_space c = false -> is_space z = false ->
  strip (String c (s ++ String z "")) = String c (s ++ String z "").
Proof.
  intros Hc Hz. unfold strip. cbn [lstrip]. rewrite Hc.
  assert (R : rstrip (s ++ String z "") = (s ++ String z "")%string
              /\ is_empty (s ++ String z "") = false).
  { induction s as [|a s [IH1 IH2]]; cbn [String.append rstrip is_empty].
    - rewrite Hz. split; reflexivity.
    - rewrite IH1, IH2. split; reflexivity. }
  destruct R as [R1 R2]. cbn [rstrip]. rewrite R1, R2. reflexivity.
Qed.

(** A non-empty string ends with a last character. *)
Lemma last_char (s : string) :
  s <> EmptyString -> exists t z, s = (t ++ String z "")%string.
Proof.
  induction s as [|c s IH]; intros H; [contradiction H; reflexivity|].
  destruct s as [|c' s'].
  - exists EmptyString, c. reflexivity.
  - destruct IH as (t & z & E); [discriminate|].
    exists (String c t), z. rewrite E. reflexivity.
Qed.

Lemma string_app_assoc (a b c : string) :
  ((a ++ b) ++ c = a ++ (b ++ c))%string.
Proof. induction a as [|x a IH]; simpl; [reflexivity | rewrite IH; reflexivity]. Qed.

(** A text that begins with a character that is no whitespace and ends
    with a digit is what [strip] returns for it, and is neither empty nor
    the sentinel. *)
Lemma date_text_kept (c : ascii) (body y : string) :
  is_space c = false ->
  string_forall is_digit y = true -> y <> EmptyString ->
  strip (String c (body ++ y)) = String c (body ++ y) /\
  is_empty (String c (body ++ y)) = false /\
  String.eqb (String c (body ++ y)) "N/A" = false.
Proof.
  intros Hc Dy Hne.
  destruct (last_char y Hne) as (y' & z & Ey).
  assert (Dz : is_digit z = true).
  { rewrite Ey, string_forall_app in Dy.
    apply andb_true_iff in Dy as [_ Dz]. simpl in Dz.
    rewrite andb_true_r in Dz. exact Dz. }
  rewrite Ey, <- string_app_assoc.
  split; [|split].
  - apply strip_ends; [exact Hc | apply digit_not_space, Dz].
  - reflexivity.
  - apply String.eqb_neq. intros E.
    assert (Ez : z = "A"%char).
    { destruct (body ++ y')%string as [|c1 [|c2 [|c3 u]]];
        simpl in E; try discriminate E.
      injection E as _ _ E. exact E. }
    subst z. discriminate Dz.
Qed.

Lemma digit_text_nonempty (lo hi : nat) (s : string) :
  digit_text (S lo) hi s = true ->
  exists c s', s = String c s' /\ is_digit c = true.
Proof.
  intros H. apply digit_text_spec in H as [D L].
  destruct s as [|c s']; [simpl in L; lia|].
  simpl in D. apply andb_true_iff in D as [Dc _]. eauto.
Qed.

Lemma digit_text_int (lo hi : nat) (s : string) :
  digit_text (S lo) hi s = true -> py_int s = ret (digits_value s).
Proof.
  intros H. destruct (digit_text_nonempty _ _ _ H) as (c & s' & -> & _).
  apply digit_text_spec in H as [D _].
  apply py_int_digits; [exact D | discriminate].
Qed.

Lemma month_name_letters (name : string) (m : N) :
  dict_get month_names (lower name) = Some m ->
  string_forall is_letter name = true /\ name <> EmptyString.
Proof.
  intros H.
  assert (K : string_forall is_lower_letter (lower name) = true
              /\ lower name <> EmptyString).
  { revert H. generalize (lower name). intros k. unfold month_names.
    cbn [dict_get].
    repeat match goal with
           | |- context [String.eqb ?a k] =>
               destruct (String.eqb_spec a k) as [<-|_];
               [intros _; split; [reflexivity | discriminate]|]
           end.
    discriminate. }
  destruct K as [K1 K2]. split.
  - clear H K2. induction name as [|c name IH]; [reflexivity|].
    simpl in K1. apply andb_true_iff in K1 as [Kc K1]. simpl.
    rewrite (lower_letter_from c Kc), (IH K1). reflexivity.
  - intros ->. apply K2. reflexivity.
Qed.

Lemma string_app_nil_r (s : string) : (s ++ "")%string = s.
Proof. induction s as [|c s IH]; simpl; [reflexivity | rewrite IH; reflexivity]. Qed.

Ltac reassociate :=
  cbn [String.append];
  repeat (rewrite string_app_assoc; cbn [String.append]);
  reflexivity.

Ltac digit_facts :=
  repeat match goal with
         | H : digit_text _ _ _ = true |- _ =>
             apply digit_text_spec in H; destruct H as [? [? ?]]
         end.

(** The numeric pattern on two short numbers and a four-digit year. *)
Lemma re_numeric_matches (a b y : string) (p q : ascii) :
  digit_text 1 2 a = true -> digit_text 1 2 b = true ->
  digit_text 4 4 y = true -> is_sep p = true -> is_sep q = true ->
  match_items re_numeric (a ++ String p (b ++ String q y))
  = Some [a; b; y].
Proof.
  intros Ha Hb Hy Hp Hq. digit_facts.
  destruct (sep_class p Hp) as [Dp _]. destruct (sep_class q Hq) as [Dq _].
  unfold re_numeric.
  apply (match_items_greedy (group is_digit 1 (Some 2)) _ a
           (String p (b ++ String q y)) [b; y]);
    [assumption | assumption | right; split; assumption |].
  apply (match_items_greedy (plain is_sep 1 (Some 1)) _ (String p "")
           (b ++ String q y) [b; y]);
    [simpl; rewrite Hp; reflexivity | simpl; lia | left; reflexivity |].
  apply (match_items_greedy (group is_digit 1 (Some 2)) _ b
           (String q y) [y]);
    [assumption | assumption | right; split; assumption |].
  apply (match_items_greedy (plain is_sep 1 (Some 1)) _ (String q "")
           y [y]);
    [simpl; rewrite Hq; reflexivity | simpl; lia | left; reflexivity |].
  rewrite <- (string_app_nil_r y) at 1.
  apply (match_items_greedy (group is_digit 4 (Some 4)) _ y "" []);
    [assumption | assumption | right; split; [assumption | exact I] |].
  reflexivity.
Qed.

Lemma year_text (y : string) :
  digit_text 4 4 y = true -> (1000 <= digits_value y)%N ->
  within 1000 9999 (digits_value y) = true /\ str_nat (digits_value y) = y.
Proof.
  intros Hy Hlo. digit_facts.
  assert (L : String.length y = 4) by lia. split.
  - unfold within. apply andb_true_iff. split; apply N.leb_le;
      [exact Hlo | apply four_digits_bound; assumption].
  - apply four_digits_roundtrip; assumption.
Qed.

Section DateRecognition.

Variable dateutil_parse : string -> option datetime.

(** X4: two numbers of one or two digits and a four-digit year from 1000
    on, separated by slashes or dashes (also mixed), are read month first
    when that gives a month 1-12 and a day 1-31, and day first otherwise
    when that does; the result is zero-padded with slashes. *)
Theorem parse_date_numeric (a b y : string) (p q : ascii) :
  digit_text 1 2 a = true -> digit_text 1 2 b = true ->
  digit_text 4 4 y = true -> is_sep p = true -> is_sep q = true ->
  (1000 <= digits_value y)%N ->
  (within 1 12 (digits_value a) && within 1 31 (digits_value b) = true ->
   parse_date dateutil_parse (a ++ String p (b ++ String q y))
   = ret (pad2 (digits_value a) ++ "/" ++ pad2 (digits_value b) ++ "/" ++ y)%string)
  /\
  (within 1 12 (digits_value a) && within 1 31 (digits_value b) = false ->
   within 1 12 (digits_value b) && within 1 31 (digits_value a) = true ->
   parse_date dateutil_parse (a ++ String p (b ++ String q y))
   = ret (pad2 (digits_value b) ++ "/" ++ pad2 (digits_value a) ++ "/" ++ y)%string).
Proof.
  intros Ha Hb Hy Hp Hq Hlo.
  assert (M := re_numeric_matches a b y p q Ha Hb Hy Hp Hq).
  assert (Ia := digit_text_int _ _ _ Ha).
  assert (Ib := digit_text_int _ _ _ Hb).
  assert (Iy := digit_text_int _ _ _ Hy).
  destruct (year_text y Hy Hlo) as [Wy Sy].
  assert (K : strip (a ++ String p (b ++ String q y))
              = (a ++ String p (b ++ String q y))%string /\
              is_empty (a ++ String p (b ++ String q y)) = false /\
              String.eqb (a ++ String p (b ++ String q y)) "N/A" = false).
  { destruct (digit_text_nonempty _ _ _ Ha) as (c & a' & -> & Dc).
    destruct (digit_text_nonempty _ _ _ Hy) as (c' & y' & Ey & _).
    replace (String c a' ++ String p (b ++ String q y))%string
      with (String c ((a' ++ String p (b ++ String q "")) ++ y))
      by reassociate.
    apply date_text_kept;
      [apply digit_not_space, Dc | | rewrite Ey; discriminate].
    apply digit_text_spec in Hy. apply Hy. }
  destruct K as (Ks & Ke & Kn).
  unfold parse_date. rewrite Ke, Kn. cbn [orb]. rewrite Ks.
  unfold parse_date_rules, rule_month_first, rule_day_first.
  rewrite M. cbn [groups3 bind ret]. rewrite Ia, Ib, Iy. cbn [bind ret].
  unfold in_range_mdy. rewrite Wy, !andb_true_r. unfold format_date.
  rewrite Sy. split.
  - intros ->. reflexivity.
  - intros -> ->. reflexivity.
Qed.

End DateRecognition.

Lemma parse_date_numeric_example :
  parse_date (fun _ => None) "1/2-2025" = ret "01/02/2025" /\
  parse_date (fun _ => None) "25-12/2025" = ret "12/25/2025".
Proof.
  split.
  - exact (proj1 (parse_date_numeric (fun _ => None) "1" "2" "2025" "/" "-"
                    eq_refl eq_refl eq_refl eq_refl eq_refl
                    ltac:(vm_compute; discriminate)) eq_refl).
  - exact (proj2 (parse_date_numeric (fun _ => None) "25" "12" "2025" "-" "/"
                    eq_refl eq_refl eq_refl eq_refl eq_refl
                    ltac:(vm_compute; discriminate)) eq_refl eq_refl).
Defined.

(** ** parse_date: where a pattern gives up *)

Lemma drop_inside (q : ascii -> bool) (w s : string) :
  string_forall q w = true ->
  forall j, j < String.length w ->
    exists x r, drop j (w ++ s) = String x r /\ q x = true.
Proof.
  induction w as [|c w IH]; intros Hw j Hj; [simpl in Hj; lia|].
  simpl in Hw. apply andb_true_iff in Hw as [Hc Hw].
  destruct j as [|j]; simpl.
  - exists c, (w ++ s)%string. split; [reflexivity | exact Hc].
  - apply IH; [exact Hw | simpl in Hj; lia].
Qed.

Lemma run_bound (p : ascii -> bool) (w : string) (c : ascii) (s : string) :
  p c = false -> forall lim, run p lim (w ++ String c s) <= String.length w.
Proof.
  intros Hc. induction w as [|x w IH]; intros lim; simpl.
  - rewrite Hc. lia.
  - destruct (p x); [|lia].
    destruct lim as [[|l]|]; [lia | |].
    + specialize (IH (Some l)). lia.
    + specialize (IH None). lia.
Qed.

(** After a repetition over [w], whose characters the next item refuses,
    the pattern fails when the rest of the pattern fails after [w]. *)
Lemma match_items_after (it it2 : item) (rest : list item) (w s : string) :
  1 <= rmin it2 ->
  string_forall (fun x => negb (cls it2 x)) w = true ->
  run (cls it) (rmax it) (w ++ s) <= String.length w ->
  match_items (it2 :: rest) s = None ->
  match_items (it :: it2 :: rest) (w ++ s) = None.
Proof.
  intros Hmin Hw Hrun Hrest. apply match_items_none. intros j Hj.
  destruct (Nat.eq_dec j (String.length w)) as [->|Hne].
  - rewrite drop_app_length. exact Hrest.
  - destruct (drop_inside _ w s Hw j) as (x & r & -> & Hx); [lia|].
    apply match_items_fail_first; [|exact Hmin].
    apply negb_true_iff, Hx.
Qed.

(** The pattern fails when the repetition ends inside [w]. *)
Lemma match_items_blocked (it it2 : item) (rest : list item) (w s : string) :
  1 <= rmin it2 ->
  string_forall (fun x => negb (cls it2 x)) w = true ->
  run (cls it) (rmax it) (w ++ s) < String.length w ->
  match_items (it :: it2 :: rest) (w ++ s) = None.
Proof.
  intros Hmin Hw Hrun. apply match_items_none. intros j Hj.
  destruct (drop_inside _ w s Hw j) as (x & r & -> & Hx); [lia|].
  apply match_items_fail_first; [|exact Hmin].
  apply negb_true_iff, Hx.
Qed.

Lemma digits_no_sep (s : string) :
  string_forall is_digit s = true ->
  string_forall (fun x => negb (is_sep x)) s = true.
Proof.
  apply string_forall_impl. intros c Hc.
  destruct (digit_class c Hc) as (_ & _ & -> & _). reflexivity.
Qed.

Lemma digits_no_dash (s : string) :
  string_forall is_digit s = true ->
  string_forall (fun x => negb (is_char "-" x)) s = true.
Proof.
  apply string_forall_impl. intros c Hc.
  destruct (digit_class c Hc) as (_ & _ & _ & -> & _). reflexivity.
Qed.

Lemma digits_no_space (s : string) :
  string_forall is_digit s = true ->
  string_forall (fun x => negb (is_space x)) s = true.
Proof.
  apply string_forall_impl. intros c Hc.
  destruct (digit_class c Hc) as (_ & -> & _). reflexivity.
Qed.

Lemma digits_word (s : string) :
  string_forall is_digit s = true -> string_forall is_word s = true.
Proof.
  apply string_forall_impl. intros c Hc.
  destruct (digit_class c Hc) as (-> & _). reflexivity.
Qed.

Lemma letters_word (s : string) :
  string_forall is_letter s = true -> string_forall is_word s = true.
Proof.
  apply string_forall_impl. intros c Hc.
  destruct (letter_class c Hc) as (-> & _). reflexivity.
Qed.

(** No pattern that begins with a number of one or two digits and a
    separator matches a text that begins with four digits. *)
Lemma short_number_blocked (sep : ascii -> bool) (rest : list item)
  (y s : string) :
  digit_text 4 4 y = true ->
  string_forall (fun x => negb (sep x)) y = true ->
  match_items (group is_digit 1 (Some 2) :: plain sep 1 (Some 1) :: rest)
    (y ++ s) = None.
Proof.
  intros Hy Hsep. digit_facts.
  apply match_items_blocked; [simpl; lia | exact Hsep |].
  cbn [cls rmax group].
  pose proof (run_limit is_digit (y ++ s) 2). lia.
Qed.

Lemma blank_text_spec (ws : string) :
  blank_text ws = true ->
  string_forall is_space ws = true /\
  exists c r, ws = String c r /\ is_space c = true.
Proof.
  unfold blank_text. intros H. apply andb_true_iff in H as [Hs Hne].
  split; [exact Hs|]. destruct ws as [|c r]; [discriminate Hne|].
  simpl in Hs. apply andb_true_iff in Hs as [Hc _]. eauto.
Qed.

(** The ISO pattern on a four-digit year and two short numbers. *)
Lemma re_iso_matches (y m d : string) :
  digit_text 4 4 y = true -> digit_text 1 2 m = true ->
  digit_text 1 2 d = true ->
  match_items re_iso (y ++ String "-" (m ++ String "-" d))
  = Some [y; m; d].
Proof.
  intros Hy Hm Hd. digit_facts. unfold re_iso.
  apply (match_items_greedy (group is_digit 4 (Some 4)) _ y
           (String "-" (m ++ String "-" d)) [m; d]);
    [assumption | assumption | right; split; [assumption | reflexivity] |].
  apply (match_items_greedy (plain (is_char "-") 1 (Some 1)) _ (String "-" "")
           (m ++ String "-" d) [m; d]);
    [reflexivity | simpl; lia | left; reflexivity |].
  apply (match_items_greedy (group is_digit 1 (Some 2)) _ m
           (String "-" d) [d]);
    [assumption | assumption | right; split; [assumption | reflexivity] |].
  apply (match_items_greedy (plain (is_char "-") 1 (Some 1)) _ (String "-" "")
           d [d]);
    [reflexivity | simpl; lia | left; reflexivity |].
  rewrite <- (string_app_nil_r d) at 1.
  apply (match_items_greedy (group is_digit 1 (Some 2)) _ d "" []);
    [assumption | assumption | right; split; [assumption | exact I] |].
  reflexivity.
Qed.

(** The other patterns refuse a text that begins with four digits and a
    dash. *)
Lemma iso_text_refused (y s : string) :
  digit_text 4 4 y = true ->
  match_items re_numeric (y ++ String "-" s) = None /\
  match_items re_day_month_name (y ++ String "-" s) = None /\
  match_items re_month_name_day (y ++ String "-" s) = None.
Proof.
  intros Hy. assert (Dy := proj1 (digit_text_spec _ _ _ Hy)).
  split; [|split].
  - apply short_number_blocked; [exact Hy | apply digits_no_sep, Dy].
  - apply short_number_blocked; [exact Hy | apply digits_no_dash, Dy].
  - unfold re_month_name_day.
    apply match_items_after;
      [simpl; lia | apply digits_no_space, Dy | apply run_bound; reflexivity |].
    apply match_items_fail_first; [reflexivity | simpl; lia].
Qed.

Section IsoDates.

Variable dateutil_parse : string -> option datetime.

(** X5: a four-digit year, a month and a day of one or two digits, joined
    by dashes, are read as year-month-day when the month is 1-12 and the
    day 1-31; the result is month/day/year with month and day zero-padded
    and the year printed as a number, whatever the year is. *)
Theorem parse_date_iso (y m d : string) :
  digit_text 4 4 y = true -> digit_text 1 2 m = true ->
  digit_text 1 2 d = true ->
  within 1 12 (digits_value m) && within 1 31 (digits_value d) = true ->
  parse_date dateutil_parse (y ++ String "-" (m ++ String "-" d))
  = ret (format_date (digits_value m) (digits_value d) (digits_value y)).
Proof.
  intros Hy Hm Hd Hrange.
  assert (M := re_iso_matches y m d Hy Hm Hd).
  destruct (iso_text_refused y (m ++ String "-" d) Hy) as (R1 & R3 & R4).
  assert (Iy := digit_text_int _ _ _ Hy).
  assert (Im := digit_text_int _ _ _ Hm).
  assert (Id := digit_text_int _ _ _ Hd).
  assert (K : strip (y ++ String "-" (m ++ String "-" d))
              = (y ++ String "-" (m ++ String "-" d))%string /\
              is_empty (y ++ String "-" (m ++ String "-" d)) = false /\
              String.eqb (y ++ String "-" (m ++ String "-" d)) "N/A" = false).
  { destruct (digit_text_nonempty _ _ _ Hy) as (c & y' & -> & Dc).
    destruct (digit_text_nonempty _ _ _ Hd) as (c' & d' & Ed & _).
    replace (String c y' ++ String "-" (m ++ String "-" d))%string
      with (String c ((y' ++ String "-" (m ++ String "-" "")) ++ d))
      by reassociate.
    apply date_text_kept;
      [apply digit_not_space, Dc | | rewrite Ed; discriminate].
    apply digit_text_spec in Hd. apply Hd. }
  destruct K as (Ks & Ke & Kn).
  unfold parse_date. rewrite Ke, Kn. cbn [orb]. rewrite Ks.
  unfold parse_date_rules, rule_month_first, rule_day_first,
    rule_day_month_name, rule_month_name_day, rule_iso.
  rewrite R1, R3, R4, M. cbn [and_then goes_on groups3 bind ret].
  rewrite Iy, Im, Id. cbn [bind ret]. rewrite Hrange. reflexivity.
Qed.

End IsoDates.

Lemma parse_date_iso_example :
  parse_date (fun _ => None) "2025-8-08" = ret "08/08/2025".
Proof.
  exact (parse_date_iso (fun _ => None) "2025" "8" "08"
           eq_refl eq_refl eq_refl eq_refl).
Defined.

(** The day-month-name pattern on a day, a name and a four-digit year. *)
Lemma re_day_month_name_matches (d name y : string) :
  digit_text 1 2 d = true ->
  string_forall is_letter name = true -> name <> EmptyString ->
  digit_text 4 4 y = true ->
  match_items re_day_month_name (d ++ String "-" (name ++ String "-" y))
  = Some [d; name; y].
Proof.
  intros Hd Hn Hne Hy. digit_facts. unfold re_day_month_name.
  apply (match_items_greedy (group is_digit 1 (Some 2)) _ d
           (String "-" (name ++ String "-" y)) [name; y]);
    [assumption | assumption | right; split; [assumption | reflexivity] |].
  apply (match_items_greedy (plain (is_char "-") 1 (Some 1)) _ (String "-" "")
           (name ++ String "-" y) [name; y]);
    [reflexivity | simpl; lia | left; reflexivity |].
  apply (match_items_greedy (group is_word 1 None) _ name
           (String "-" y) [y]);
    [apply letters_word, Hn
    | destruct name; [contradiction Hne; reflexivity | simpl; lia]
    | right; split; [exact I | reflexivity] |].
  apply (match_items_greedy (plain (is_char "-") 1 (Some 1)) _ (String "-" "")
           y [y]);
    [reflexivity | simpl; lia | left; reflexivity |].
  rewrite <- (string_app_nil_r y) at 1.
  apply (match_items_greedy (group is_digit 4 (Some 4)) _ y "" []);
    [assumption | assumption | right; split; [assumption | exact I] |].
  reflexivity.
Qed.

(** The numeric pattern refuses a name where the second number should be. *)
Lemma name_not_numeric (d : string) (c : ascii) (s : string) :
  digit_text 1 2 d = true -> is_letter c = true ->
  match_items re_numeric (d ++ String "-" (String c s)) = None.
Proof.
  intros Hd Hc. assert (Dd := proj1 (digit_text_spec _ _ _ Hd)).
  destruct (letter_class c Hc) as (_ & Dc & _).
  unfold re_numeric.
  apply match_items_after;
    [simpl; lia | apply digits_no_sep, Dd | apply run_bound; reflexivity |].
  apply (match_items_after (plain is_sep 1 (Some 1))
           (group is_digit 1 (Some 2)) _ (String "-" "") (String c s));
    [simpl; lia | reflexivity | apply run_limit |].
  apply match_items_fail_first; [exact Dc | simpl; lia].
Qed.

Section NamedMonths.

Variable dateutil_parse : string -> option datetime.

(** X6: a day of one or two digits (1-31), a month name or abbreviation in
    any letter case, and a four-digit year, joined by dashes, are read as
    day-month-year and returned as month/day/year, with the month's number
    and the day zero-padded and the year printed as a number. *)
Theorem parse_date_day_month_name (d name y : string) (month : N) :
  digit_text 1 2 d = true ->
  dict_get month_names (lower name) = Some month ->
  digit_text 4 4 y = true ->
  within 1 31 (digits_value d) = true ->
  parse_date dateutil_parse (d ++ String "-" (name ++ String "-" y))
  = ret (format_date month (digits_value d) (digits_value y)).
Proof.
  intros Hd Hname Hy Hday.
  destruct (month_name_letters name month Hname) as [Ln Hne].
  assert (M := re_day_month_name_matches d name y Hd Ln Hne Hy).
  assert (Iy := digit_text_int _ _ _ Hy).
  assert (Id := digit_text_int _ _ _ Hd).
  assert (K : strip (d ++ String "-" (name ++ String "-" y))
              = (d ++ String "-" (name ++ String "-" y))%string /\
              is_empty (d ++ String "-" (name ++ String "-" y)) = false /\
              String.eqb (d ++ String "-" (name ++ String "-" y)) "N/A"
              = false).
  { destruct (digit_text_nonempty _ _ _ Hd) as (c & d' & -> & Dc).
    destruct (digit_text_nonempty _ _ _ Hy) as (c' & y' & Ey & _).
    replace (String c d' ++ String "-" (name ++ String "-" y))%string
      with (String c ((d' ++ String "-" (name ++ String "-" "")) ++ y))
      by reassociate.
    apply date_text_kept;
      [apply digit_not_space, Dc | | rewrite Ey; discriminate].
    apply digit_text_spec in Hy. apply Hy. }
  destruct K as (Ks & Ke & Kn).
  assert (R1 : match_items re_numeric
                 (d ++ String "-" (name ++ String "-" y)) = None).
  { destruct name as [|n1 name']; [contradiction Hne; reflexivity|].
    simpl in Ln. apply andb_true_iff in Ln as [Ln1 _].
    apply name_not_numeric; assumption. }
  unfold parse_date. rewrite Ke, Kn. cbn [orb]. rewrite Ks.
  unfold parse_date_rules, rule_month_first, rule_day_first,
    rule_day_month_name.
  rewrite R1, M. cbn [and_then goes_on groups3 bind ret].
  rewrite Iy. cbn [bind ret]. rewrite Hname, Id. cbn [bind ret].
  rewrite Hday. reflexivity.
Qed.

End NamedMonths.

Lemma parse_date_day_month_name_example :
  parse_date (fun _ => None) "8-AUGUST-2025" = ret "08/08/2025".
Proof.
  exact (parse_date_day_month_name (fun _ => None) "8" "AUGUST" "2025" 8%N
           eq_refl eq_refl eq_refl eq_refl).
Defined.

(** The month-name-day pattern on a name, a day and a four-digit year,
    with whitespace between them and an optional comma after the day. *)
Lemma re_month_name_day_matches (name ws1 d ws2 y : string) (comma : bool) :
  string_forall is_letter name = true -> name <> EmptyString ->
  blank_text ws1 = true -> digit_text 1 2 d = true ->
  blank_text ws2 = true -> digit_text 4 4 y = true ->
  match_items re_month_name_day
    (name ++ ws1 ++ d ++ (if comma then "," else "") ++ ws2 ++ y)
  = Some [name; d; y].
Proof.
  intros Hn Hne H1 Hd H2 Hy.
  destruct (blank_text_spec _ H1) as (S1 & c1 & r1 & E1 & C1).
  destruct (blank_text_spec _ H2) as (S2 & c2 & r2 & E2 & C2).
  destruct (digit_text_nonempty _ _ _ Hd) as (cd & rd & Ed & Cd).
  destruct (digit_text_nonempty _ _ _ Hy) as (cy & ry & Ey & Cy).
  destruct (space_class c1 C1) as (W1 & _).
  destruct (space_class c2 C2) as (_ & D2 & M2).
  digit_facts. unfold re_month_name_day.
  apply (match_items_greedy (group is_word 1 None) _ name _ [d; y]);
    [apply letters_word, Hn
    | destruct name; [contradiction Hne; reflexivity | simpl; lia]
    | right; split; [exact I | rewrite E1; exact W1] |].
  apply (match_items_greedy (plain is_space 1 None) _ ws1 _ [d; y]);
    [exact S1 | rewrite E1; simpl; lia
    | right; split; [exact I | rewrite Ed; apply digit_not_space, Cd] |].
  apply (match_items_greedy (group is_digit 1 (Some 2)) _ d _ [y]);
    [assumption | assumption
    | right; split; [assumption
                    | destruct comma; [reflexivity | rewrite E2; exact D2]] |].
  assert (T : match_items [plain is_space 1 None; group is_digit 4 (Some 4)]
                (ws2 ++ y) = Some [y]).
  { apply (match_items_greedy (plain is_space 1 None) _ ws2 y [y]);
      [exact S2 | rewrite E2; simpl; lia
      | right; split; [exact I | rewrite Ey; apply digit_not_space, Cy] |].
    rewrite <- (string_app_nil_r y) at 1.
    apply (match_items_greedy (group is_digit 4 (Some 4)) _ y "" []);
      [assumption | assumption | right; split; [assumption | exact I] |].
    reflexivity. }
  destruct comma.
  - apply (match_items_greedy (plain (is_char ",") 0 (Some 1)) _
             (String "," "") (ws2 ++ y) [y]);
      [reflexivity | simpl; lia | left; reflexivity | exact T].
  - apply (match_items_greedy (plain (is_char ",") 0 (Some 1)) _
             "" (ws2 ++ y) [y]);
      [reflexivity | simpl; lia
      | right; split; [simpl; lia | rewrite E2; exact M2] | exact T].
Qed.

Section NamedMonthsFirst.

Variable dateutil_parse : string -> option datetime.

(** X7: a month name or abbreviation in any letter case, whitespace, a day
    of one or two digits (1-31), an optional comma, whitespace and a
    four-digit year are read as month-day-year and returned as
    month/day/year, with the month's number and the day zero-padded and the
    year printed as a number. *)
Theorem parse_date_month_name_day (name ws1 d ws2 y : string) (comma : bool)
  (month : N) :
  dict_get month_names (lower name) = Some month ->
  blank_text ws1 = true -> digit_text 1 2 d = true ->
  blank_text ws2 = true -> digit_text 4 4 y = true ->
  within 1 31 (digits_value d) = true ->
  parse_date dateutil_parse
    (name ++ ws1 ++ d ++ (if comma then "," else "") ++ ws2 ++ y)
  = ret (format_date month (digits_value d) (digits_value y)).
Proof.
  intros Hname H1 Hd H2 Hy Hday.
  destruct (month_name_letters name month Hname) as [Ln Hne].
  assert (M := re_month_name_day_matches name ws1 d ws2 y comma
                 Ln Hne H1 Hd H2 Hy).
  assert (Iy := digit_text_int _ _ _ Hy).
  assert (Id := digit_text_int _ _ _ Hd).
  remember (name ++ ws1 ++ d ++ (if comma then "," else "") ++ ws2 ++ y)%string
    as t eqn:Et.
  assert (K : strip t = t /\ is_empty t = false /\ String.eqb t "N/A" = false
              /\ match_items re_numeric t = None
              /\ match_items re_day_month_name t = None).
  { destruct name as [|n1 name']; [contradiction Hne; reflexivity|].
    simpl in Ln. apply andb_true_iff in Ln as [Ln1 _].
    destruct (letter_class n1 Ln1) as (_ & Dn & Sn & _).
    destruct (digit_text_nonempty _ _ _ Hy) as (c' & y' & Ey & _).
    assert (Et' : t = String n1
                        ((name' ++ ws1 ++ d ++ (if comma then "," else "") ++ ws2)
                         ++ y))
      by (rewrite Et; symmetry; reassociate).
    assert (Dy := proj1 (digit_text_spec _ _ _ Hy)).
    assert (Ny : y <> EmptyString) by (rewrite Ey; discriminate).
    destruct (date_text_kept n1
                (name' ++ ws1 ++ d ++ (if comma then "," else "") ++ ws2) y
                Sn Dy Ny) as (Ks & Ke & Kn).
    rewrite <- Et' in Ks, Ke, Kn.
    split; [exact Ks|]. split; [exact Ke|]. split; [exact Kn|].
    rewrite Et'. split.
    - apply match_items_fail_first; [exact Dn | simpl; lia].
    - apply match_items_fail_first; [exact Dn | simpl; lia]. }
  destruct K as (Ks & Ke & Kn & R1 & R3).
  unfold parse_date. rewrite Ke, Kn. cbn [orb]. rewrite Ks.
  unfold parse_date_rules, rule_month_first, rule_day_first,
    rule_day_month_name, rule_month_name_day.
  rewrite R1, R3, M. cbn [and_then goes_on groups3 bind ret].
  rewrite Id, Iy. cbn [bind ret]. rewrite Hname, Hday. reflexivity.
Qed.

End NamedMonthsFirst.

Lemma parse_date_month_name_day_example :
  parse_date (fun _ => None) "Nov  5, 2025" = ret "11/05/2025" /\
  parse_date (fun _ => None) "november 5 2025" = ret "11/05/2025".
Proof.
  split.
  - exact (parse_date_month_name_day (fun _ => None) "Nov" "  " "5" " " "2025"
             true 11%N eq_refl eq_refl eq_refl eq_refl eq_refl eq_refl).
  - exact (parse_date_month_name_day (fun _ => None) "november" " " "5" " "
             "2025" false 11%N eq_refl eq_refl eq_refl eq_refl eq_refl eq_refl).
Defined.

(** ** identify_document_type: the second loop and malformed headers *)

Lemma scan_exact_after_scan (skills : list json) :
  scan_skill_names skills = goes_on -> scan_exact_names skills = goes_on.
Proof.
  induction skills as [|skill rest IH]; [reflexivity|].
  cbn [scan_skill_names scan_exact_names].
  destruct (py_get skill "SkillName" (JStr "")) as [e|n];
    cbn [bind]; [discriminate|].
  destruct n as [| | | |x| |]; cbn [py_lower bind ret raise]; try discriminate.
  destruct (contains "1120" (lower x)) eqn:E1; [discriminate|].
  destruct (contains "w2" (lower x) || contains "w-2" (lower x)) eqn:E2;
    [discriminate|].
  destruct (contains "paystub" (lower x)) eqn:E3; [discriminate|].
  intros H. cbn [py_eq_str].
  destruct (String.eqb_spec x "IC - 1120") as [->|_];
    [vm_compute in E1; discriminate E1|].
  destruct (String.eqb_spec x "IC - W2") as [->|_];
    [vm_compute in E2; discriminate E2|].
  destruct (String.eqb_spec x "IC - Paystubs") as [->|_];
    [vm_compute in E3; discriminate E3|].
  exact (IH H).
Qed.

(** X8: the loop over the exact skill names never decides the type: when
    the loop over the lowered names has found nothing, no skill bears one of
    the exact names either, so the classifier with the second loop removed
    returns the same type on every input. *)
Theorem exact_names_loop_never_decides (json_data : json) :
  identify_document_type json_data
  = identify_document_type_without_exact_names json_data.
Proof.
  unfold identify_document_type, identify_document_type_without_exact_names,
    identify_body, identify_body_without_exact_names.
  destruct (py_get json_data "Meta" (JObj [])) as [e|meta];
    cbn [bind]; [reflexivity|].
  destruct (py_get meta "Type" (JStr "")) as [e|ty]; cbn [bind]; [reflexivity|].
  destruct (py_lower ty) as [e|meta_type]; cbn [bind]; [reflexivity|].
  destruct (py_get json_data "Title" (JStr "")) as [e|t];
    cbn [bind]; [reflexivity|].
  destruct (py_lower t) as [e|title]; cbn [bind]; [reflexivity|].
  destruct (any_indicator w2_indicators meta_type title); [reflexivity|].
  destruct (any_indicator form1120_indicators meta_type title); [reflexivity|].
  unfold over_summary, or_return.
  destruct (py_get json_data "Summary" (JArr [])) as [e|summary];
    cbn [bind]; [reflexivity|].
  destruct (py_iter summary) as [e|skills]; cbn [bind]; [reflexivity|].
  destruct (scan_skill_names skills) as [e|[r|]] eqn:E;
    cbn [bind ret]; [reflexivity | reflexivity |].
  rewrite (scan_exact_after_scan skills E). reflexivity.
Qed.

(** X9: a document that is no dict, or whose "Meta", "Meta.Type" or "Title"
    is present with a value of the wrong kind (a null, say), is classified
    "paystub" whatever its other members say: the fault raised on the first
    two statements is swallowed. *)
Theorem identify_document_type_malformed_header (json_data : json) :
  malformed_header json_data = true ->
  identify_document_type json_data = "paystub".
Proof.
  unfold malformed_header, identify_document_type, identify_body, member_not.
  destruct json_data as [| | | | | |m]; try reflexivity.
  cbn [py_get bind ret].
  destruct (dict_get m "Meta") as [meta|] eqn:Em.
  - destruct meta as [| | | | | |o]; try reflexivity.
    cbn [is_object negb orb py_get bind ret].
    destruct (dict_get o "Type") as [ty|].
    + destruct ty as [| | | |x| |]; try reflexivity.
      cbn [is_string negb orb py_lower bind ret].
      destruct (dict_get m "Title") as [t|]; [|discriminate].
      destruct t as [| | | |y| |]; try reflexivity. discriminate.
    + cbn [orb py_lower bind ret].
      destruct (dict_get m "Title") as [t|]; [|discriminate].
      destruct t as [| | | |y| |]; try reflexivity. discriminate.
  - cbn [orb py_get dict_get py_lower bind ret].
    destruct (dict_get m "Title") as [t|]; [|discriminate].
    destruct t as [| | | |y| |]; try reflexivity. discriminate.
Qed.

Lemma identify_document_type_malformed_header_example :
  identify_document_type
    (JObj [("Meta", JObj [("Type", JStr "W2")]); ("Title", JNull)])
  = "paystub".
Proof.
  exact (identify_document_type_malformed_header
           (JObj [("Meta", JObj [("Type", JStr "W2")]); ("Title", JNull)])
           eq_refl).
Defined.

(** ** parse_date_fields: what the loop does to a record *)

Lemma dict_set_keys {V} (d : pydict V) (k : string) (v0 v : V) :
  dict_get d k = Some v0 -> map fst (dict_set d k v) = map fst d.
Proof.
  induction d as [|[k' v'] d IH]; simpl; [discriminate|].
  destruct (String.eqb k' k); [reflexivity|].
  intros H. simpl. rewrite (IH H). reflexivity.
Qed.

Lemma str_in_spec (x : string) (l : list string) :
  str_in x l = true <-> In x l.
Proof.
  unfold str_in. rewrite existsb_exists. split.
  - intros (y & Hy & E). apply String.eqb_eq in E. subst y. exact Hy.
  - intros H. exists x. split; [exact H | apply String.eqb_refl].
Qed.

Lemma str_in_absent (x : string) (l : list string) :
  ~ In x l -> str_in x l = false.
Proof.
  intros H. destruct (str_in x l) eqn:E; [|reflexivity].
  apply str_in_spec in E. contradiction.
Qed.

Section DateFields.

Variable dateutil_parse : string -> option datetime.

Lemma parse_date_returns (s : string) :
  exists r, parse_date dateutil_parse s = ret r.
Proof.
  unfold parse_date.
  destruct (is_empty s || String.eqb s "N/A"); [eexists; reflexivity|].
  destruct (parse_date_rules dateutil_parse (strip s)) as [e|[r|]] eqn:E;
    [|eexists; reflexivity | eexists; reflexivity].
  rewrite (parse_date_rules_raises _ _ _ E). eexists; reflexivity.
Qed.

Lemma parse_date_loop_normalises (fields : list string) :
  NoDup fields ->
  forall base_data : record,
    map fst (parse_date_loop dateutil_parse fields base_data)
    = map fst base_data /\
    forall field,
      match dict_get base_data field with
      | Some v =>
          exists r,
            dict_get (parse_date_loop dateutil_parse fields base_data) field
            = Some r /\
            (if str_in field fields
             then parse_date dateutil_parse v = ret r else r = v)
      | None =>
          dict_get (parse_date_loop dateutil_parse fields base_data) field
          = None
      end.
Proof.
  induction fields as [|f fields IH]; intros Hnd bd.
  { split; [reflexivity|]. intros field. simpl.
    destruct (dict_get bd field) as [v|]; [exists v; split|]; reflexivity. }
  inversion Hnd as [|? ? Hf Hnd']; subst.
  apply str_in_absent in Hf.
  cbn [parse_date_loop].
  assert (Same : forall b : record,
             (forall k, String.eqb k f = false ->
                        dict_get b k = dict_get bd k) ->
             map fst b = map fst bd ->
             (match dict_get bd f with
              | Some v => exists r, dict_get b f = Some r /\
                                    parse_date dateutil_parse v = ret r
              | None => dict_get b f = None
              end) ->
             map fst (parse_date_loop dateutil_parse fields b) = map fst bd /\
             forall field,
               match dict_get bd field with
               | Some v =>
                   exists r,
                     dict_get (parse_date_loop dateutil_parse fields b) field
                     = Some r /\
                     (if str_in field (f :: fields)
                      then parse_date dateutil_parse v = ret r else r = v)
               | None =>
                   dict_get (parse_date_loop dateutil_parse fields b) field
                   = None
               end).
  { intros b Hother Hkeys Hf'. destruct (IH Hnd' b) as [K1 K2].
    split; [rewrite K1; exact Hkeys|]. intros field.
    specialize (K2 field). unfold str_in. cbn [existsb]. fold (str_in field fields).
    destruct (String.eqb_spec field f) as [->|Hne].
    - rewrite Hf in K2. cbn [orb].
      destruct (dict_get bd f) as [v|].
      + destruct Hf' as (r & Er & Pr). rewrite Er in K2.
        destruct K2 as (r' & Er' & ->). exists r. split; assumption.
      + rewrite Hf' in K2. exact K2.
    - cbn [orb]. rewrite Hother in K2 by (apply String.eqb_neq, Hne).
      exact K2. }
  destruct (dict_get bd f) as [v|] eqn:Ev.
  - destruct (String.eqb_spec v "N/A") as [->|Hna]; cbn [negb].
    + apply Same; [reflexivity | reflexivity |].
      exists "N/A". split; [exact Ev | reflexivity].
    + destruct (parse_date_returns v) as [r Er]. rewrite Er.
      apply Same.
      * intros k Hk. apply dict_get_set_other.
        rewrite String.eqb_sym. exact Hk.
      * apply (dict_set_keys _ _ v). exact Ev.
      * exists r. split; [apply dict_get_set_same | exact Er].
  - apply Same; [reflexivity | reflexivity | exact Ev].
Qed.

(** X10: [parse_date_fields] keeps the keys of the record and their order,
    leaves every field that is no date field of the document type as it is,
    and replaces each date field that is present by what [parse_date]
    returns for it (the sentinel "N/A" included, which [parse_date] returns
    unchanged); for "w2" nothing changes. *)
Theorem parse_date_fields_normalises (base_data : record)
  (doc_type field : string) :
  map fst (parse_date_fields dateutil_parse base_data doc_type)
  = map fst base_data /\
  match dict_get base_data field with
  | Some v =>
      exists r,
        dict_get (parse_date_fields dateutil_parse base_data doc_type) field
        = Some r /\
        (if str_in field (date_fields_of doc_type)
         then parse_date dateutil_parse v = ret r else r = v)
  | None =>
      dict_get (parse_date_fields dateutil_parse base_data doc_type) field
      = None
  end /\
  parse_date_fields dateutil_parse base_data "w2" = base_data.
Proof.
  assert (Hnd : NoDup (date_fields_of doc_type)).
  { unfold date_fields_of.
    destruct (String.eqb doc_type "paystub");
      [|destruct (String.eqb doc_type "1120")];
      repeat constructor; simpl; intuition discriminate. }
  destruct (parse_date_loop_normalises _ Hnd base_data) as [K1 K2].
  split; [exact K1|]. split; [exact (K2 field) | reflexivity].
Qed.

End DateFields.

(** ** extract_from_labels: what extraction can change *)

Section ExtractionInvariant.

Variable py_repr : json -> string.
Variable label_map : pydict string.

(** A property of the record that every write of a cleaned value, other
    than the sentinel, to a mapped field keeps. *)
Variable inv : record -> Prop.
Hypothesis inv_write :
  forall bd name f v,
    inv bd -> dict_get label_map name = Some f ->
    cleaned py_repr v -> v <> "N/A" ->
    inv (dict_set bd f v).

Lemma valid_values_written (items : list json) :
  forall vs,
    valid_values py_repr items = inr vs ->
    Forall (fun v => cleaned py_repr v /\ v <> "N/A") vs.
Proof.
  induction items as [|item rest IH]; simpl; intros vs H.
  - injection H as <-. constructor.
  - destruct (py_get item "Value" (JStr "N/A")) as [e|x]; [discriminate H|].
    cbn [bind] in H.
    destruct (valid_values py_repr rest) as [e|vs']; [discriminate H|].
    cbn [bind ret] in H. injection H as <-.
    specialize (IH vs' eq_refl).
    destruct (String.eqb_spec (get_field_value py_repr x) "N/A") as [E|E];
      [rewrite andb_false_r; exact IH|].
    destruct (negb (is_empty (get_field_value py_repr x))); [|exact IH].
    constructor; [|exact IH].
    split; [apply get_field_value_clean | exact E].
Qed.

Lemma read_label_inv (label : json) (bd bd' : record) :
  read_label py_repr label_map label bd = inr bd' -> inv bd -> inv bd'.
Proof.
  unfold read_label. intros H Hbd.
  destruct (py_get label "LabelName" JNull) as [e|name]; [discriminate H|].
  cbn [bind] in H.
  destruct (mapped_field label_map name) as [e|[f|]] eqn:Ef;
    [discriminate H| |injection H as <-; exact Hbd].
  cbn [bind] in H.
  destruct name as [| | | |n| |]; try discriminate Ef.
  simpl in Ef. injection Ef as Ef.
  destruct (py_get label "Values" JNull) as [e|values]; [discriminate H|].
  cbn [bind] in H.
  destruct (truthy values); [|injection H as <-; exact Hbd].
  destruct (py_iter values) as [e|items]; [discriminate H|]. cbn [bind] in H.
  destruct (valid_values py_repr items) as [e|vs] eqn:Ev; [discriminate H|].
  cbn [bind] in H. apply valid_values_written in Ev.
  destruct vs as [|v vs]; injection H as <-; [exact Hbd|].
  inversion Ev as [|? ? [Hc Hna] _]; subst.
  exact (inv_write _ _ _ _ Hbd Ef Hc Hna).
Qed.

Lemma for_each_inv (l : list json) :
  Forall (fun label => forall bd bd',
              extract_label py_repr label_map label bd = inr bd' ->
              inv bd -> inv bd') l ->
  forall bd bd',
    for_each (extract_label py_repr label_map) l bd = inr bd' ->
    inv bd -> inv bd'.
Proof.
  induction 1 as [|label l Hl _ IH]; intros bd bd' H Hbd.
  - injection H as <-. exact Hbd.
  - change (for_each (extract_label py_repr label_map) (label :: l) bd)
      with (x <- extract_label py_repr label_map label bd ;;
            for_each (extract_label py_repr label_map) l x) in H.
    destruct (extract_label py_repr label_map label bd) as [e|bd1] eqn:E;
      [discriminate H|].
    cbn [bind] in H. exact (IH _ _ H (Hl _ _ E Hbd)).
Qed.

Lemma for_labels_inv (labels : json) :
  (forall l, labels = JArr l ->
             Forall (fun label => forall bd bd',
                         extract_label py_repr label_map label bd = inr bd' ->
                         inv bd -> inv bd') l) ->
  forall bd bd',
    for_labels (extract_label py_repr label_map) labels bd = inr bd' ->
    inv bd -> inv bd'.
Proof.
  intros Hl bd bd' H Hbd.
  destruct labels as [| | | |s|l|m]; try discriminate H.
  - simpl in H. destruct (is_empty s); [|discriminate H].
    injection H as <-. exact Hbd.
  - exact (for_each_inv l (Hl l eq_refl) _ _ H Hbd).
  - simpl in H. destruct m; [|discriminate H]. injection H as <-. exact Hbd.
Qed.

Lemma extract_label_inv_nested (j : json) :
  (forall bd bd',
      extract_label py_repr label_map j bd = inr bd' -> inv bd -> inv bd') /\
  (forall l, j = JArr l ->
             Forall (fun label => forall bd bd',
                         extract_label py_repr label_map label bd = inr bd' ->
                         inv bd -> inv bd') l).
Proof.
  induction j as [| | | | |l IH|m IH] using json_nested_ind;
    try (split; [intros bd bd' H; discriminate H | intros l' E; discriminate E]).
  - split; [intros bd bd' H; discriminate H|].
    intros l' E. injection E as <-.
    apply (Forall_impl _ (fun j H => proj1 H) IH).
  - split; [|intros l' E; discriminate E].
    intros bd bd' H Hbd. cbn [extract_label] in H.
    destruct (read_label py_repr label_map (JObj m) bd)
      as [e|bd1] eqn:E1; [discriminate H|].
    cbn [bind] in H. apply (read_label_inv _ _ _ E1) in Hbd.
    rewrite with_member_get in H.
    destruct (dict_get m "ChildLabels") as [children|] eqn:Ec;
      [|injection H as <-; exact Hbd].
    destruct (truthy children); [|injection H as <-; exact Hbd].
    apply (for_labels_inv children) with (bd := bd1);
      [|exact H | exact Hbd].
    apply dict_get_in in Ec. rewrite Forall_forall in IH.
    exact (proj2 (IH _ Ec)).
Qed.

Lemma extract_from_labels_inv (labels : json) (bd bd' : record) :
  extract_from_labels py_repr labels label_map bd = inr bd' ->
  inv bd -> inv bd'.
Proof.
  apply for_labels_inv. intros l ->.
  apply Forall_forall. intros label _. apply extract_label_inv_nested.
Qed.

End ExtractionInvariant.

Section ExtractionWrites.

Variable py_repr : json -> string.

(** X11: when extraction from a label tree returns, every value of the
    record is either the value the field had before or a cleaned value,
    other than the sentinel "N/A", of a field the label map maps to; and no
    key of the record has disappeared.  So extraction never resets a field
    and never touches a field outside the label map. *)
Theorem extract_from_labels_only_writes (labels : json)
  (label_map : pydict string) (base_data base_data' : record) :
  extract_from_labels py_repr labels label_map base_data = ret base_data' ->
  (forall k v,
      dict_get base_data' k = Some v ->
      dict_get base_data k = Some v \/
      (In k (map snd label_map) /\ cleaned py_repr v /\ v <> "N/A")) /\
  (forall k, dict_get base_data' k = None -> dict_get base_data k = None).
Proof.
  intros H.
  apply (extract_from_labels_inv py_repr label_map
           (fun b =>
              (forall k v,
                  dict_get b k = Some v ->
                  dict_get base_data k = Some v \/
                  (In k (map snd label_map) /\ cleaned py_repr v /\ v <> "N/A"))
              /\
              (forall k, dict_get b k = None -> dict_get base_data k = None)))
    with (labels := labels) (bd := base_data); [|exact H|].
  - intros bd name f v [I1 I2] Hf Hc Hna. split.
    + intros k x Hk. destruct (String.eqb_spec f k) as [<-|Hne].
      * rewrite dict_get_set_same in Hk. injection Hk as <-. right.
        split; [|split; assumption].
        apply dict_get_in in Hf. apply (in_map snd) in Hf. exact Hf.
      * rewrite dict_get_set_other in Hk by (apply String.eqb_neq, Hne).
        exact (I1 k x Hk).
    + intros k Hk. destruct (String.eqb_spec f k) as [<-|Hne].
      * rewrite dict_get_set_same in Hk. discriminate Hk.
      * rewrite dict_get_set_other in Hk by (apply String.eqb_neq, Hne).
        exact (I2 k Hk).
  - split; [intros k v Hk; left; exact Hk | intros k Hk; exact Hk].
Qed.

End ExtractionWrites.

Lemma extract_from_labels_only_writes_example :
  (forall k v,
      dict_get [("name", "ACME"); ("year", "2023")] k = Some v ->
      dict_get [("name", "ACME"); ("year", "N/A")] k = Some v \/
      (In k (map snd [("1120 Year", "year")]) /\
       cleaned (fun _ => "") v /\ v <> "N/A")) /\
  (forall k,
      dict_get [("name", "ACME"); ("year", "2023")] k = None ->
      dict_get [("name", "ACME"); ("year", "N/A")] k = None).
Proof.
  exact (extract_from_labels_only_writes (fun _ => "")
           (JArr [JObj [("LabelName", JStr "1120 Year");
                        ("Values", JArr [JObj [("Value", JStr " N/A ")];
                                         JObj [("Value", JStr " 2023 ")]])]])
           [("1120 Year", "year")]
           [("name", "ACME"); ("year", "N/A")]
           [("name", "ACME"); ("year", "2023")]
           eq_refl).
Defined.

(** ** extract_document_data: the accepted record *)

Ltac case_doc_type ty :=
  destruct (String.eqb ty "paystub") eqn:?;
  [|destruct (String.eqb ty "w2") eqn:?].

Ltac fixed_length vs L :=
  repeat (destruct vs as [|? vs]; try discriminate L).

Lemma find_skill_inv (py_repr : json -> string) (label_map : pydict string)
  (inv : record -> Prop) :
  (forall bd name f v,
      inv bd -> dict_get label_map name = Some f ->
      cleaned py_repr v -> v <> "N/A" -> inv (dict_set bd f v)) ->
  forall skill_name skills bd bd',
    find_skill py_repr skill_name label_map skills bd = inr (Some bd') ->
    inv bd -> inv bd'.
Proof.
  intros Hw skill_name skills bd bd'.
  induction skills as [|skill rest IH]; simpl; intros H Hbd; [discriminate H|].
  destruct (py_get skill "SkillName" JNull) as [e|n]; [discriminate H|].
  cbn [bind] in H. destruct (py_eq_str n skill_name); [|exact (IH H Hbd)].
  destruct (py_get skill "Labels" (JArr [])) as [e|labels]; [discriminate H|].
  cbn [bind] in H.
  destruct (extract_from_labels py_repr labels label_map bd)
    as [e|bd1] eqn:E; [discriminate H|].
  cbn [bind ret] in H. injection H as <-.
  exact (extract_from_labels_inv py_repr label_map inv Hw _ _ _ E Hbd).
Qed.

Lemma required_not_header (doc_type f : string) :
  In f (required_fields_of doc_type) ->
  String.eqb f "filename" = false /\ String.eqb f "status" = false /\
  String.eqb f "document_type" = false /\ String.eqb f "docId" = false.
Proof.
  unfold required_fields_of. case_doc_type doc_type; simpl; intros H;
    repeat (destruct H as [<-|H]; [repeat split; reflexivity|]);
    contradiction.
Qed.

Lemma canonical_value (doc_type filename : string) (values : list string)
  (f : string) :
  List.length values = List.length (required_fields_of doc_type) ->
  In f (required_fields_of doc_type) ->
  exists v, In v values /\
            dict_get (canonical_record doc_type filename values) f = Some v.
Proof.
  intros L Hf. destruct (required_not_header _ _ Hf) as (N1 & N2 & N3 & N4).
  unfold canonical_record. cbn [app dict_get].
  rewrite (String.eqb_sym "document_type"), N3.
  rewrite (String.eqb_sym "filename"), N1.
  rewrite (String.eqb_sym "docId"), N4.
  revert Hf L. unfold required_fields_of.
  case_doc_type doc_type; intros Hf L; fixed_length values L; simpl in Hf;
    repeat (destruct Hf as [<-|Hf];
            [cbn; eexists; split; [|reflexivity]; simpl; auto 10|]);
    contradiction.
Qed.

Lemma canonical_keys (doc_type filename : string) (values : list string) :
  List.length values = List.length (required_fields_of doc_type) ->
  map fst (canonical_record doc_type filename values)
  = ["document_type"; "filename"; "docId"] ++ required_fields_of doc_type
    ++ ["status"] /\
  dict_get (canonical_record doc_type filename values) "status"
  = Some "original".
Proof.
  intros L. unfold canonical_record. revert L. unfold required_fields_of.
  case_doc_type doc_type; intros L; fixed_length values L;
    split; reflexivity.
Qed.

Section AcceptedRecordFields.

Variable py_repr : json -> string.
Variable dateutil_parse : string -> option datetime.

Lemma accepted_record_filename (json_data : json) (filename : string)
  (d : record) (doc_type : string) :
  extract_document_data py_repr dateutil_parse json_data filename
  = Extracted d doc_type ->
  exists meta name,
    py_get json_data "Meta" (JObj []) = ret meta /\
    py_get meta "FileName" (JStr filename) = ret name /\
    dict_get d "filename"
    = Some (get_field_value py_repr name ++ ".json")%string.
Proof.
  unfold extract_document_data, extract_body.
  set (ty := identify_document_type json_data).
  destruct (py_get json_data "Meta" (JObj [])) as [e|meta]; [discriminate|].
  cbn [bind].
  destruct (py_get meta "FileName" (JStr filename)) as [e|name] eqn:En;
    [discriminate|]. cbn [bind].
  destruct (py_get json_data "Summary" (JArr [])) as [e|summary];
    [discriminate|]. cbn [bind].
  destruct (py_iter summary) as [e|skills]; [discriminate|]. cbn [bind].
  match goal with
  | |- context [find_skill _ _ _ _ ?b] => set (bd0 := b)
  end.
  set (file := (get_field_value py_repr name ++ ".json")%string).
  assert (H0 : dict_get bd0 "filename" = Some file).
  { unfold bd0, required_fields_of. case_doc_type ty; reflexivity. }
  destruct (find_skill py_repr (skill_name_of ty) (label_map_of ty) skills bd0)
    as [e|[bd1|]] eqn:Ef; [discriminate| |discriminate].
  cbn [bind ret].
  apply (find_skill_inv py_repr (label_map_of ty)
           (fun b => dict_get b "filename" = Some file)) in Ef;
    [| |exact H0].
  2:{ intros bd n f v Hb Hn _ _.
      apply label_map_fields, required_not_header in Hn as (N & _).
      rewrite dict_get_set_other by exact N. exact Hb. }
  destruct (filter (is_missing (parse_date_fields dateutil_parse bd1 ty))
              (required_fields_of ty)); [|discriminate].
  intros H. injection H as <- _. exists meta, name.
  split; [reflexivity|]. split; [exact En|].
  rewrite dict_get_set_other by reflexivity.
  assert (Hnd : NoDup (date_fields_of ty)).
  { unfold date_fields_of.
    destruct (String.eqb ty "paystub"); [|destruct (String.eqb ty "1120")];
      repeat constructor; simpl; intuition discriminate. }
  destruct (parse_date_loop_normalises dateutil_parse _ Hnd bd1) as [_ K].
  specialize (K "filename"). fold (parse_date_fields dateutil_parse bd1 ty) in K.
  rewrite Ef in K. destruct K as (r & Er & K).
  assert (Hd : str_in "filename" (date_fields_of ty) = false).
  { unfold date_fields_of. destruct (String.eqb ty "paystub"); [reflexivity|].
    destruct (String.eqb ty "1120"); reflexivity. }
  rewrite Hd in K. subst r. exact Er.
Qed.

End AcceptedRecordFields.

Section AcceptedRecordShape.

Variable py_repr : json -> string.
Variable dateutil_parse : string -> option datetime.

(** X12: a record that [extract_document_data] accepts has the classified
    type; its keys are "document_type", "filename", "docId", the required
    fields of the type and "status", in this order; its filename is the
    cleaned "FileName" of "Meta" (the given file name when there is none)
    followed by ".json"; its docId is empty and its status "original"; and
    every required field holds a trimmed, non-empty value other than
    "N/A". *)
Theorem accepted_record_fields (json_data : json) (filename : string)
  (d : record) (doc_type : string) :
  extract_document_data py_repr dateutil_parse json_data filename
  = Extracted d doc_type ->
  doc_type = identify_document_type json_data /\
  map fst d = ["document_type"; "filename"; "docId"]
              ++ required_fields_of doc_type ++ ["status"] /\
  dict_get d "document_type" = Some doc_type /\
  (exists meta name,
      py_get json_data "Meta" (JObj []) = ret meta /\
      py_get meta "FileName" (JStr filename) = ret name /\
      dict_get d "filename"
      = Some (get_field_value py_repr name ++ ".json")%string) /\
  dict_get d "docId" = Some "" /\
  dict_get d "status" = Some "original" /\
  forall f,
    In f (required_fields_of doc_type) ->
    exists v, dict_get d f = Some v /\ v <> "N/A" /\ v <> "" /\ strip v = v.
Proof.
  intros H.
  destruct (accepted_record_valid _ _ _ _ _ _ H) as [Ety Hv].
  pose proof (accepted_record_filename _ _ _ _ _ _ H) as Hf.
  destruct Hv as (file & values & Ed & L & HQ).
  destruct (canonical_keys doc_type file values L) as [K1 K2].
  split; [exact Ety|]. split; [rewrite Ed; exact K1|].
  split; [rewrite Ed; reflexivity|]. split; [exact Hf|].
  split; [rewrite Ed; reflexivity|]. split; [rewrite Ed; exact K2|].
  intros f Hreq.
  destruct (canonical_value doc_type file values f L Hreq) as (v & Hin & Ev).
  exists v. rewrite Ed. split; [exact Ev|].
  rewrite Forall_forall in HQ. destruct (HQ v Hin) as [Hna Hc].
  split; [exact Hna|]. split.
  - intros ->. pose proof (clean_nonempty py_repr (JStr "")) as Hne.
    rewrite Hc in Hne. discriminate Hne.
  - destruct (cleaned_strip py_repr v Hc) as [E|E];
      [exact E | contradiction].
Qed.

End AcceptedRecordShape.

Lemma accepted_record_fields_example :
  exists d,
    extract_document_data (fun _ => "") (fun _ => None)
      (JObj [("Meta", JObj [("Type", JStr "W2")]);
             ("Summary",
              JArr [JObj [("SkillName", JStr "IC - W2");
                          ("Labels",
                           JArr [JObj [("LabelName", JStr "Employee Name");
                                       ("Values",
                                        JArr [JObj [("Value", JStr " Ann ")]])];
                                 JObj [("LabelName", JStr "Employer Name");
                                       ("Values",
                                        JArr [JObj [("Value", JStr "Acme")]])];
                                 JObj [("LabelName", JStr "Year");
                                       ("Values",
                                        JArr [JObj [("Value", JStr "2023")]])]])]])])
      "scan_7"
    = Extracted d "w2" /\
    map fst d = ["document_type"; "filename"; "docId"; "employee_name";
                 "employer_name"; "year"; "status"] /\
    dict_get d "filename" = Some "scan_7.json" /\
    dict_get d "employee_name" = Some "Ann".
Proof.
  eexists. split; [vm_compute; reflexivity|].
  match goal with
  | |- map fst ?d = _ /\ _ =>
      destruct (accepted_record_fields (fun _ => "") (fun _ => None)
                  (JObj [("Meta", JObj [("Type", JStr "W2")]);
                         ("Summary",
                          JArr [JObj [("SkillName", JStr "IC - W2");
                                      ("Labels",
                                       JArr [JObj [("LabelName", JStr "Employee Name");
                                                   ("Values",
                                                    JArr [JObj [("Value", JStr " Ann ")]])];
                                             JObj [("LabelName", JStr "Employer Name");
                                                   ("Values",
                                                    JArr [JObj [("Value", JStr "Acme")]])];
                                             JObj [("LabelName", JStr "Year");
                                                   ("Values",
                                                    JArr [JObj [("Value", JStr "2023")]])]])]])])
                  "scan_7" d "w2" eq_refl) as (_ & K & _ & _ & _ & _ & _)
  end.
  split; [exact K|]. split; reflexivity.
Defined.

(** ** extract_document_data: faults *)

Section ExtractionFaults.

Variable py_repr : json -> string.
Variable dateutil_parse : string -> option datetime.

Lemma find_skill_returns (skill_name : string) (label_map : pydict string)
  (skills : list json) (bd : record) :
  forallb wf_skill skills = true ->
  exists r, find_skill py_repr skill_name label_map skills bd = ret r.
Proof.
  induction skills as [|skill rest IH]; intros Hwf; [eexists; reflexivity|].
  cbn [forallb] in Hwf. apply andb_true_iff in Hwf as [Hs Hrest].
  destruct skill as [| | | | | |m]; try discriminate Hs.
  cbn [find_skill py_get bind ret].
  destruct (py_eq_str _ skill_name); [|exact (IH Hrest)].
  cbn [wf_skill] in Hs.
  assert (Hl : wf_forest match dict_get m "Labels" with
                         | Some x => x
                         | None => JArr []
                         end = true)
    by (destruct (dict_get m "Labels"); [exact Hs | reflexivity]).
  destruct (match dict_get m "Labels" with
            | Some x => x
            | None => JArr []
            end) as [| | | | |l|]; try discriminate Hl.
  unfold extract_from_labels.
  rewrite (for_labels_in_order py_repr label_map l);
    [eexists; reflexivity | | exact Hl].
  apply Forall_forall. intros label _. apply extract_label_in_order.
Qed.


(** X14: a document that is no dict, or whose "Meta" is present and no
    dict, is failed with an [AttributeError]: the classifier swallows the
    fault and answers "paystub", and the next statement raises it again. *)
Theorem document_without_meta_dict_fails (json_data : json)
  (filename : string) :
  without_meta_dict json_data = true ->
  extract_document_data py_repr dateutil_parse json_data filename
  = Failed AttributeError /\
  identify_document_type json_data = "paystub".
Proof.
  unfold without_meta_dict, member_not, extract_document_data, extract_body,
    identify_document_type, identify_body.
  destruct json_data as [| | | | | |m]; try (intros _; split; reflexivity).
  cbn [py_get bind ret].
  destruct (dict_get m "Meta") as [meta|]; [|discriminate].
  destruct meta as [| | | | | |o]; try (intros _; split; reflexivity).
  discriminate.
Qed.

End ExtractionFaults.


Lemma document_without_meta_dict_fails_example :
  extract_document_data (fun _ => "") (fun _ => None)
    (JObj [("Meta", JNull); ("Title", JStr "W-2")]) "f.json"
  = Failed AttributeError /\
  identify_document_type (JObj [("Meta", JNull); ("Title", JStr "W-2")])
  = "paystub".
Proof.
  exact (document_without_meta_dict_fails (fun _ => "") (fun _ => None)
           (JObj [("Meta", JNull); ("Title", JStr "W-2")]) "f.json" eq_refl).
Defined.

(** ** get_grouping_key on accepted records *)

Section AcceptedKeys.

Variable py_repr : json -> string.

Ltac canonical_values v1 L1 :=
  repeat (destruct v1 as [|? v1]; try discriminate L1);
  repeat match goal with
         | H : Forall _ (_ :: _) |- _ => inversion H; clear H; subst
         end;
  repeat match goal with
         | H : _ <> "N/A" /\ get_field_value py_repr (JStr _) = _ |- _ =>
             destruct H as [? ?]
         end.

Ltac rewrite_cleaned :=
  repeat match goal with
         | H : get_field_value py_repr (JStr ?v) = ?v |- _ =>
             rewrite !H; clear H
         end.

(** X15: for records that [extract_document_data] accepts, the grouping key
    is the tuple of the identity fields' own values, none of them "N/A" (the
    fallback tuple of the [except] branch is never used); and two such
    records of a type have the same key exactly when they agree on every
    required field. *)
Theorem grouping_key_of_accepted (doc_type : string) (d1 d2 : record) :
  valid_canonical py_repr doc_type d1 ->
  valid_canonical py_repr doc_type d2 ->
  map Some (get_grouping_key py_repr d1 doc_type)
  = map (dict_get d1) (identity_fields doc_type) /\
  ~ In "N/A" (get_grouping_key py_repr d1 doc_type) /\
  (get_grouping_key py_repr d1 doc_type = get_grouping_key py_repr d2 doc_type
   <-> map (dict_get d1) (required_fields_of doc_type)
       = map (dict_get d2) (required_fields_of doc_type)).
Proof.
  intros (f1 & v1 & -> & L1 & C1) (f2 & v2 & -> & L2 & C2).
  unfold get_grouping_key, canonical_record, identity_fields,
    required_fields_of in *.
  destruct (String.eqb doc_type "paystub");
    [|destruct (String.eqb doc_type "w2")];
    canonical_values v1 L1; canonical_values v2 L2;
    cbn; rewrite_cleaned;
    (split; [reflexivity|]);
    (split; [simpl; intuition congruence|]);
    (split; intros E; injection E; intros; subst; reflexivity).
Qed.

End AcceptedKeys.

Lemma grouping_key_of_accepted_example :
  get_grouping_key (fun _ => "")
    (canonical_record "w2" "a.json" ["Ann Lee"; "Acme"; "2023"]) "w2"
  = get_grouping_key (fun _ => "")
      (canonical_record "w2" "b.json" ["Ann Lee"; "Acme"; "2023"]) "w2".
Proof.
  apply (grouping_key_of_accepted (fun _ => "") "w2"
           (canonical_record "w2" "a.json" ["Ann Lee"; "Acme"; "2023"])
           (canonical_record "w2" "b.json" ["Ann Lee"; "Acme"; "2023"]));
    try reflexivity;
    (eexists _, _; split; [reflexivity|]; split; [reflexivity|];
     repeat constructor; try discriminate; reflexivity).
Defined.

(** ** The grouping stage as a whole *)

Lemma key_eqb_sym (k1 k2 : list string) : key_eqb k1 k2 = key_eqb k2 k1.
Proof.
  destruct (key_eqb k2 k1) eqn:E.
  - apply key_eqb_eq in E. subst. apply key_eqb_refl.
  - apply key_eqb_neq. apply key_eqb_neq in E. congruence.
Qed.

Lemma flat_map_app_perm {A B} (f g : A -> list B) (l : list A) :
  Permutation (flat_map (fun x => f x ++ g x) l)
    (flat_map f l ++ flat_map g l).
Proof.
  induction l as [|x l IH]; simpl; [constructor|].
  rewrite <- !app_assoc. apply Permutation_app_head.
  etransitivity; [apply Permutation_app_head, IH|].
  rewrite !app_assoc. apply Permutation_app_tail, Permutation_app_comm.
Qed.

Section WholeStage.

Variable py_repr : json -> string.
Variable doc_type : string.

(** The clusters of the keys of a collection hold every record once. *)
Lemma clusters_partition (ks : list (list string)) (docs : list record) :
  NoDup ks ->
  (forall d, In d docs -> In (get_grouping_key py_repr d doc_type) ks) ->
  Permutation (flat_map (fun k => cluster_of py_repr doc_type k docs) ks) docs.
Proof.
  intros Hnd. induction docs as [|d docs IH]; intros Hin.
  - unfold cluster_of. cbn [filter]. clear Hnd Hin.
    induction ks as [|k ks IHk]; simpl; [constructor | exact IHk].
  - unfold cluster_of in *. cbn [filter].
    rewrite (flat_map_ext _
               (fun k => (if key_eqb k (get_grouping_key py_repr d doc_type)
                          then (fun _ => [d]) k else [])
                         ++ filter (fun x => key_eqb
                                     (get_grouping_key py_repr x doc_type) k)
                              docs)).
    2:{ intros k. rewrite (key_eqb_sym k).
        destruct (key_eqb (get_grouping_key py_repr d doc_type) k);
          reflexivity. }
    etransitivity; [apply flat_map_app_perm|].
    rewrite (flat_map_select _ (fun _ => [d]) ks Hnd).
    assert (E : existsb (key_eqb (get_grouping_key py_repr d doc_type)) ks
                = true)
      by (apply existsb_key_in, Hin; left; reflexivity).
    rewrite E. simpl. constructor. apply IH.
    intros d' Hd'. apply Hin. right. exact Hd'.
Qed.

Lemma blocks_keep_records (docs : list record) :
  Permutation
    (map without_status
       (flat_map (block py_repr doc_type docs)
          (keys_in_order py_repr doc_type docs)))
    (map without_status docs).
Proof.
  destruct (keys_in_order_spec py_repr doc_type docs) as [Hnd Hin].
  etransitivity;
    [|apply Permutation_map,
        (clusters_partition (keys_in_order py_repr doc_type docs) docs Hnd)].
  2:{ intros d Hd. apply Hin. exists d. auto. }
  generalize (keys_in_order py_repr doc_type docs). intros ks.
  induction ks as [|k ks IH]; simpl; [constructor|].
  rewrite !map_app. apply Permutation_app; [|exact IH].
  apply block_same_records.
Qed.

Lemma blocks_status (docs : list record) (d : record) :
  In d (flat_map (block py_repr doc_type docs)
          (keys_in_order py_repr doc_type docs)) ->
  status_of d = Some "original" \/ status_of d = Some "duplicate".
Proof.
  intros H. apply in_flat_map in H as (k & _ & Hd).
  unfold block in Hd. rewrite mark_from_zero in Hd.
  destruct (by_filename (cluster_of py_repr doc_type k docs)) as [|x l];
    [contradiction|].
  destruct Hd as [<-|Hd]; [left; apply marked_status|].
  apply in_map_iff in Hd as (y & <- & _). right. apply marked_status.
Qed.

(** X16: on records that each have a filename, the grouping stage of one
    document type returns; its output holds the same records as its input,
    each once, differing at most in the status (so it has the same length),
    and every record of the output carries the status "original" or
    "duplicate". *)
Theorem processed_docs_keeps_records (docs : list record) :
  Forall has_filename docs ->
  exists out,
    processed_docs py_repr doc_type docs = ret out /\
    Permutation (map without_status out) (map without_status docs) /\
    List.length out = List.length docs /\
    Forall (fun d => status_of d = Some "original" \/
                     status_of d = Some "duplicate") out.
Proof.
  intros Hf.
  exists (flat_map (block py_repr doc_type docs)
            (keys_in_order py_repr doc_type docs)).
  split; [apply processed_docs_blocks, Hf|].
  pose proof (blocks_keep_records docs) as HP.
  split; [exact HP|]. split.
  - apply Permutation_length in HP. rewrite !length_map in HP. exact HP.
  - apply Forall_forall. intros d Hd. exact (blocks_status docs d Hd).
Qed.

End WholeStage.

Lemma processed_docs_keeps_records_example :
  exists out,
    processed_docs (fun _ => "") "w2"
      [[("filename", "b.json"); ("year", "2023")];
       [("filename", "a.json"); ("status", "original")]]
    = ret out /\
    List.length out = 2.
Proof.
  destruct (processed_docs_keeps_records (fun _ => "") "w2"
              [[("filename", "b.json"); ("year", "2023")];
               [("filename", "a.json"); ("status", "original")]])
    as (out & Hrun & _ & Hlen & _).
  - repeat constructor; discriminate.
  - exists out. split; [exact Hrun | exact Hlen].
Defined.

Section MissingFilename.

Variable py_repr : json -> string.
Variable doc_type : string.

Lemma keyed_cases (group_docs : list record) :
  keyed group_docs = raise KeyError \/ exists ks, keyed group_docs = ret ks.
Proof.
  induction group_docs as [|d rest IH]; [right; eexists; reflexivity|].
  simpl. unfold py_index. destruct (dict_get d "filename") as [f|];
    [|left; reflexivity].
  cbn [bind ret]. destruct IH as [->|[ks ->]];
    [left | right; eexists]; reflexivity.
Qed.

Lemma keyed_missing (group_docs : list record) (d : record) :
  In d group_docs -> filename_of d = None ->
  keyed group_docs = raise KeyError.
Proof.
  intros Hin Hd. induction group_docs as [|x rest IH]; [contradiction|].
  simpl. unfold py_index. destruct Hin as [->|Hin].
  - unfold filename_of in Hd. rewrite Hd. reflexivity.
  - destruct (dict_get x "filename"); [|reflexivity].
    cbn [bind ret]. rewrite (IH Hin). reflexivity.
Qed.

Lemma mark_groups_missing (groups : list (list string * list record))
  (k : list string) (group_docs : list record) (d : record) :
  In (k, group_docs) groups -> In d group_docs -> filename_of d = None ->
  mark_groups groups = raise KeyError.
Proof.
  intros Hg Hin Hd. induction groups as [|[k0 g0] rest IH]; [contradiction|].
  cbn [mark_groups]. unfold sort_by_filename.
  destruct Hg as [E|Hg].
  - injection E as -> ->. rewrite (keyed_missing _ _ Hin Hd). reflexivity.
  - destruct (keyed_cases g0) as [->|[ks ->]]; [reflexivity|].
    cbn [bind ret]. rewrite (IH Hg). reflexivity.
Qed.

(** X17: when a record of the collection has no "filename", the grouping
    stage raises [KeyError], whatever the other records are: the sort of the
    record's group reads the filename of each of its records. *)
Theorem processed_docs_missing_filename (docs : list record) (d : record) :
  In d docs -> filename_of d = None ->
  processed_docs py_repr doc_type docs = raise KeyError.
Proof.
  intros Hin Hd. unfold processed_docs. rewrite group_by_key_clusters.
  apply (mark_groups_missing _ (get_grouping_key py_repr d doc_type)
           (cluster_of py_repr doc_type
              (get_grouping_key py_repr d doc_type) docs) d);
    [| |exact Hd].
  - apply in_map_iff. exists (get_grouping_key py_repr d doc_type).
    split; [reflexivity|].
    apply (proj2 (keys_in_order_spec py_repr doc_type docs)).
    exists d. auto.
  - unfold cluster_of. apply filter_In. split; [exact Hin|].
    apply key_eqb_refl.
Qed.

End MissingFilename.

Lemma processed_docs_missing_filename_example :
  processed_docs (fun _ => "") "w2"
    [[("filename", "a.json"); ("year", "2023")]; [("year", "2022")]]
  = raise KeyError.
Proof.
  apply (processed_docs_missing_filename (fun _ => "") "w2"
           [[("filename", "a.json"); ("year", "2023")]; [("year", "2022")]]
           [("year", "2022")]);
    [right; left; reflexivity | reflexivity].
Defined.

(** ** process_documents: the run *)

Lemma identify_is_doc_type (json_data : json) :
  is_doc_type (identify_document_type json_data).
Proof.
  unfold identify_document_type.
  destruct (identify_body json_data) as [e|r] eqn:E;
    [left; reflexivity | exact (identify_body_range _ _ E)].
Qed.

Section Run.

Variable py_repr : json -> string.
Variable dateutil_parse : string -> option datetime.

Local Notation "'rejected'" :=
  (fun file => negb (is_accepted py_repr dateutil_parse file)).

Local Notation "'collected' files" :=
  (RunState
     [("paystub", flat_map (accepted_as py_repr dateutil_parse "paystub") files);
      ("w2", flat_map (accepted_as py_repr dateutil_parse "w2") files);
      ("1120", flat_map (accepted_as py_repr dateutil_parse "1120") files)]
     (List.length (filter (is_accepted py_repr dateutil_parse) files))
     (List.length (filter rejected files))
     (map fst (filter rejected files)))
  (at level 10, files at level 9).

Lemma load_file_error (pre : list (string * option json))
  (file : string * option json) :
  is_accepted py_repr dateutil_parse file = false ->
  count_error (collected pre) (fst file) = collected (pre ++ [file]).
Proof.
  intros E.
  assert (A : forall ty, accepted_as py_repr dateutil_parse ty file = []).
  { intros ty. unfold is_accepted in E. unfold accepted_as.
    destruct (snd file) as [j|]; [|reflexivity].
    destruct (extract_document_data py_repr dateutil_parse j (fst file));
      [discriminate E | reflexivity | reflexivity]. }
  unfold count_error. cbn [documents processed_files error_files error_file_list].
  rewrite !flat_map_app, !filter_app. cbn [flat_map filter].
  rewrite !A, E. cbn [negb app]. rewrite !app_nil_r, map_app, !length_app.
  cbn [map List.length]. rewrite Nat.add_1_r. reflexivity.
Qed.

Lemma load_file_collects (pre : list (string * option json))
  (file : string * option json) :
  load_file py_repr dateutil_parse (collected pre) file
  = collected (pre ++ [file]).
Proof.
  unfold load_file.
  destruct (snd file) as [j|] eqn:Ej;
    [|apply load_file_error; unfold is_accepted; rewrite Ej; reflexivity].
  destruct (extract_document_data py_repr dateutil_parse j (fst file))
    as [d ty|ty reason|e] eqn:Ex;
    try (apply load_file_error; unfold is_accepted; rewrite Ej, Ex;
         reflexivity).
  destruct (accepted_record_valid _ _ _ _ _ _ Ex) as [Ety Hv].
  assert (Hd : dict_truthy d = true)
    by (destruct Hv as (fn & vs & -> & _); reflexivity).
  assert (A : is_accepted py_repr dateutil_parse file = true)
    by (unfold is_accepted; rewrite Ej, Ex; reflexivity).
  assert (B : forall ty',
             accepted_as py_repr dateutil_parse ty' file
             = if String.eqb ty ty' then [d] else [])
    by (intros ty'; unfold accepted_as; rewrite Ej, Ex; reflexivity).
  rewrite Hd. cbn [documents processed_files error_files error_file_list].
  rewrite !flat_map_app, !filter_app. cbn [flat_map filter].
  rewrite !B, A. cbn [negb app]. rewrite !app_nil_r, !length_app.
  cbn [List.length]. rewrite Nat.add_1_r.
  pose proof (identify_is_doc_type j) as Hty. rewrite <- Ety in Hty.
  destruct Hty as [->|[->| ->]]; simpl; rewrite ?app_nil_r; reflexivity.
Qed.

Lemma load_files_from (files pre : list (string * option json)) :
  fold_left (load_file py_repr dateutil_parse) files (collected pre)
  = collected (pre ++ files).
Proof.
  revert pre. induction files as [|file files IH]; intros pre.
  - rewrite app_nil_r. reflexivity.
  - cbn [fold_left]. rewrite load_file_collects, IH, <- app_assoc.
    reflexivity.
Qed.

(** X18: the loop over the files collects, for each document type, the
    records of the accepted files of that type in the order of the files;
    [processed_files] is the number of accepted files, [error_files] the
    number of the others, [error_file_list] their names in the order of the
    files; so the two counters add up to the number of files. *)
Theorem load_files_collects (files : list (string * option json)) :
  load_files py_repr dateutil_parse files
  = RunState
      [("paystub", flat_map (accepted_as py_repr dateutil_parse "paystub") files);
       ("w2", flat_map (accepted_as py_repr dateutil_parse "w2") files);
       ("1120", flat_map (accepted_as py_repr dateutil_parse "1120") files)]
      (List.length (filter (is_accepted py_repr dateutil_parse) files))
      (List.length
         (filter (fun file => negb (is_accepted py_repr dateutil_parse file))
            files))
      (map fst
         (filter (fun file => negb (is_accepted py_repr dateutil_parse file))
            files)) /\
  processed_files (load_files py_repr dateutil_parse files)
  + error_files (load_files py_repr dateutil_parse files)
  = List.length files.
Proof.
  assert (E := load_files_from files []). cbn [app] in E.
  unfold load_files. change initial_state with (collected []).
  split; [exact E|]. rewrite E. cbn [processed_files error_files].
  clear E. induction files as [|file files IH]; [reflexivity|].
  cbn [filter]. destruct (is_accepted py_repr dateutil_parse file);
    cbn [negb List.length]; lia.
Qed.

End Run.

Section WholeRun.

Variable py_repr : json -> string.
Variable dateutil_parse : string -> option datetime.

Lemma accepted_as_valid (doc_type : string)
  (files : list (string * option json)) :
  Forall (valid_canonical py_repr doc_type)
    (flat_map (accepted_as py_repr dateutil_parse doc_type) files).
Proof.
  apply Forall_forall. intros d Hd.
  apply in_flat_map in Hd as (file & _ & Hd). unfold accepted_as in Hd.
  destruct (snd file) as [j|]; [|contradiction].
  destruct (extract_document_data py_repr dateutil_parse j (fst file))
    as [d' ty| |] eqn:Ex; try contradiction.
  destruct (String.eqb_spec ty doc_type) as [->|_]; [|contradiction].
  destruct Hd as [<-|[]].
  exact (proj2 (accepted_record_valid _ _ _ _ _ _ Ex)).
Qed.

Lemma accepted_as_count (files : list (string * option json)) :
  List.length (flat_map (accepted_as py_repr dateutil_parse "paystub") files)
  + List.length (flat_map (accepted_as py_repr dateutil_parse "w2") files)
  + List.length (flat_map (accepted_as py_repr dateutil_parse "1120") files)
  = List.length (filter (is_accepted py_repr dateutil_parse) files).
Proof.
  induction files as [|file files IH]; [reflexivity|].
  cbn [flat_map filter]. rewrite !length_app.
  assert (E : List.length (accepted_as py_repr dateutil_parse "paystub" file)
              + List.length (accepted_as py_repr dateutil_parse "w2" file)
              + List.length (accepted_as py_repr dateutil_parse "1120" file)
              = if is_accepted py_repr dateutil_parse file then 1 else 0).
  { unfold accepted_as, is_accepted.
    destruct (snd file) as [j|]; [|reflexivity].
    destruct (extract_document_data py_repr dateutil_parse j (fst file))
      as [d ty| |] eqn:Ex; try reflexivity.
    pose proof (identify_is_doc_type j) as Hty.
    rewrite <- (proj1 (accepted_record_valid _ _ _ _ _ _ Ex)) in Hty.
    destruct Hty as [->|[->| ->]]; reflexivity. }
  destruct (is_accepted py_repr dateutil_parse file); cbn [List.length]; lia.
Qed.

Lemma stage_returns (doc_type : string)
  (files : list (string * option json)) :
  exists out,
    processed_docs py_repr doc_type
      (flat_map (accepted_as py_repr dateutil_parse doc_type) files)
    = ret out /\
    List.length out
    = List.length
        (flat_map (accepted_as py_repr dateutil_parse doc_type) files).
Proof.
  set (docs := flat_map (accepted_as py_repr dateutil_parse doc_type) files).
  assert (Hf : Forall has_filename docs).
  { apply (Forall_impl _ (valid_has_filename py_repr doc_type)).
    apply accepted_as_valid. }
  exists (flat_map (block py_repr doc_type docs)
            (keys_in_order py_repr doc_type docs)).
  split; [apply processed_docs_blocks, Hf|].
  pose proof (blocks_keep_records py_repr doc_type docs) as HP.
  apply Permutation_length in HP. rewrite !length_map in HP. exact HP.
Qed.

(** X19: a run never raises, whatever the files hold: the final output
    has the keys "Paystubs", "W2" and "1120", in this order, each with the
    result of the grouping stage on the accepted records of its type; and
    the three counts printed at the end add up to [processed_files]. *)
Theorem process_documents_returns (files : list (string * option json)) :
  exists paystubs w2s forms,
    process_documents py_repr dateutil_parse files
    = ret ([("Paystubs", paystubs); ("W2", w2s); ("1120", forms)],
           load_files py_repr dateutil_parse files) /\
    processed_docs py_repr "paystub"
      (flat_map (accepted_as py_repr dateutil_parse "paystub") files)
    = ret paystubs /\
    processed_docs py_repr "w2"
      (flat_map (accepted_as py_repr dateutil_parse "w2") files)
    = ret w2s /\
    processed_docs py_repr "1120"
      (flat_map (accepted_as py_repr dateutil_parse "1120") files)
    = ret forms /\
    found_count [("Paystubs", paystubs); ("W2", w2s); ("1120", forms)] "paystub"
    + found_count [("Paystubs", paystubs); ("W2", w2s); ("1120", forms)] "w2"
    + found_count [("Paystubs", paystubs); ("W2", w2s); ("1120", forms)] "1120"
    = processed_files (load_files py_repr dateutil_parse files).
Proof.
  destruct (stage_returns "paystub" files) as (p & Ep & Lp).
  destruct (stage_returns "w2" files) as (w & Ew & Lw).
  destruct (stage_returns "1120" files) as (c & Ec & Lc).
  exists p, w, c.
  assert (E : load_files py_repr dateutil_parse files
              = RunState
                  [("paystub",
                    flat_map (accepted_as py_repr dateutil_parse "paystub") files);
                   ("w2",
                    flat_map (accepted_as py_repr dateutil_parse "w2") files);
                   ("1120",
                    flat_map (accepted_as py_repr dateutil_parse "1120") files)]
                  (List.length
                     (filter (is_accepted py_repr dateutil_parse) files))
                  (List.length
                     (filter
                        (fun file =>
                           negb (is_accepted py_repr dateutil_parse file))
                        files))
                  (map fst
                     (filter
                        (fun file =>
                           negb (is_accepted py_repr dateutil_parse file))
                        files)))
    by exact (load_files_from py_repr dateutil_parse files []).
  split; [|split; [exact Ep|split; [exact Ew|split; [exact Ec|]]]].
  - unfold process_documents. rewrite E at 1.
    cbn [documents finalize]. rewrite Ep. cbn [bind ret].
    rewrite Ew. cbn [bind ret]. rewrite Ec. cbn [bind ret].
    rewrite E. reflexivity.
  - rewrite E. cbn [processed_files]. rewrite <- accepted_as_count.
    unfold found_count. cbn. lia.
Qed.

End WholeRun.

(** ** The grouping stage on its own output *)

Lemma sort_by_key_sorted_id (l : list (string * record)) :
  StronglySorted key_le l -> sort_by_key l = l.
Proof.
  induction 1 as [|x l Hs IH Hx]; [reflexivity|].
  simpl. rewrite IH. destruct l as [|y l']; [reflexivity|].
  simpl. inversion Hx as [|? ? Hxy _]; subst.
  unfold key_le in Hxy. rewrite Hxy. reflexivity.
Qed.

Lemma sorted_same_keys (l1 l2 : list (string * record)) :
  map fst l1 = map fst l2 ->
  StronglySorted key_le l1 -> StronglySorted key_le l2.
Proof.
  revert l2. induction l1 as [|x l1 IH]; intros [|y l2] E Hs;
    try discriminate E; [constructor|].
  simpl in E. injection E as Exy E.
  inversion Hs as [|? ? Hs' Hx]; subst.
  constructor; [exact (IH _ E Hs')|].
  clear - Exy E Hx. revert l2 E.
  induction Hx as [|z l1 Hz _ IH]; intros [|w l2] E; try discriminate E;
    [constructor|].
  simpl in E. injection E as Ezw E.
  constructor; [|exact (IH _ E)].
  unfold key_le in *. rewrite <- Exy, <- Ezw. exact Hz.
Qed.

Lemma marked_marked (s s' : string) (d : record) :
  marked s (marked s' d) = marked s d.
Proof. unfold marked at 1. rewrite without_status_marked. reflexivity. Qed.

Lemma mark_from_idem (l : list record) :
  mark_from 0 (mark_from 0 l) = mark_from 0 l.
Proof.
  rewrite (mark_from_zero l). destruct l as [|x r]; [reflexivity|].
  rewrite mark_from_zero, marked_marked, map_map. f_equal.
  apply map_ext. intros y. apply marked_marked.
Qed.

Lemma fname_marked (s : string) (d : record) : fname (marked s d) = fname d.
Proof. unfold fname. rewrite marked_filename. reflexivity. Qed.

Lemma by_filename_marked (group_docs : list record) :
  by_filename (mark_from 0 (by_filename group_docs))
  = mark_from 0 (by_filename group_docs).
Proof.
  unfold by_filename at 1.
  rewrite sort_by_key_sorted_id.
  - unfold decorate. rewrite map_map. apply map_id.
  - apply (sorted_same_keys (sort_by_key (decorate group_docs)));
      [|apply sort_by_key_sorted].
    unfold by_filename.
    assert (H : forall q, In q (sort_by_key (decorate group_docs)) ->
                          fst q = fname (snd q)).
    { intros q Hq. apply (Permutation_in q (sort_by_key_perm _)) in Hq.
      unfold decorate in Hq. apply in_map_iff in Hq as (d & <- & _).
      reflexivity. }
    revert H. generalize (sort_by_key (decorate group_docs)). intros S H.
    rewrite mark_from_zero. destruct S as [|p S]; [reflexivity|].
    unfold decorate. cbn [map]. rewrite fname_marked, <- (H p (or_introl eq_refl)).
    f_equal. rewrite !map_map. apply map_ext_in. intros q Hq.
    cbn [fst]. rewrite fname_marked. apply H. right. exact Hq.
Qed.

Section StageIdempotence.

Variable py_repr : json -> string.
Variable doc_type : string.

Lemma keys_fold_block (k : list string) (l : list record) :
  (forall d, In d l -> get_grouping_key py_repr d doc_type = k) ->
  forall d acc,
    get_grouping_key py_repr d doc_type = k ->
    fold_left
      (fun ks x =>
         let kx := get_grouping_key py_repr x doc_type in
         if existsb (key_eqb kx) ks then ks else ks ++ [kx])
      (d :: l) acc
    = if existsb (key_eqb k) acc then acc else acc ++ [k].
Proof.
  induction l as [|x l IH]; intros Hl d acc Hd.
  - cbn [fold_left]. rewrite Hd. reflexivity.
  - cbn [fold_left] in *. rewrite Hd.
    rewrite (IH (fun y Hy => Hl y (or_intror Hy)) x _
               (Hl x (or_introl eq_refl))).
    destruct (existsb (key_eqb k) acc) eqn:E; [rewrite E; reflexivity|].
    rewrite existsb_app. cbn [existsb]. rewrite key_eqb_refl, E.
    reflexivity.
Qed.

Lemma keys_fold_blocks (f : list string -> list record)
  (ks : list (list string)) :
  (forall k, In k ks ->
             f k <> [] /\
             forall d, In d (f k) -> get_grouping_key py_repr d doc_type = k) ->
  forall acc,
    NoDup (acc ++ ks) ->
    fold_left
      (fun ks x =>
         let kx := get_grouping_key py_repr x doc_type in
         if existsb (key_eqb kx) ks then ks else ks ++ [kx])
      (flat_map f ks) acc
    = acc ++ ks.
Proof.
  induction ks as [|k ks IH]; intros Hf acc Hnd.
  - rewrite app_nil_r. reflexivity.
  - change (flat_map f (k :: ks)) with (f k ++ flat_map f ks).
    rewrite fold_left_app.
    destruct (Hf k (or_introl eq_refl)) as [Hne Hk].
    destruct (f k) as [|d l] eqn:Ef; [contradiction Hne; reflexivity|].
    rewrite (keys_fold_block k l (fun y Hy => Hk y (or_intror Hy)) d acc
               (Hk d (or_introl eq_refl))).
    assert (E : existsb (key_eqb k) acc = false).
    { destruct (existsb (key_eqb k) acc) eqn:E; [|reflexivity].
      apply existsb_key_in in E. apply NoDup_remove_2 in Hnd.
      contradiction Hnd. apply in_or_app. left. exact E. }
    rewrite E, IH.
    + rewrite <- app_assoc. reflexivity.
    + intros k' Hk'. apply Hf. right. exact Hk'.
    + rewrite <- app_assoc. exact Hnd.
Qed.

Lemma block_nonempty (docs : list record) (k : list string) :
  In k (keys_in_order py_repr doc_type docs) ->
  block py_repr doc_type docs k <> [].
Proof.
  intros Hk.
  apply (proj2 (keys_in_order_spec py_repr doc_type docs)) in Hk
    as (d & Hd & Ek).
  assert (Hc : In d (cluster_of py_repr doc_type k docs)).
  { unfold cluster_of. apply filter_In. split; [exact Hd|].
    rewrite Ek. apply key_eqb_refl. }
  apply (Permutation_in d (Permutation_sym (by_filename_perm _))) in Hc.
  unfold block. rewrite mark_from_zero.
  destruct (by_filename (cluster_of py_repr doc_type k docs));
    [contradiction | discriminate].
Qed.

Lemma blocks_keys (docs : list record) :
  keys_in_order py_repr doc_type
    (flat_map (block py_repr doc_type docs)
       (keys_in_order py_repr doc_type docs))
  = keys_in_order py_repr doc_type docs.
Proof.
  unfold keys_in_order at 1.
  rewrite (keys_fold_blocks (block py_repr doc_type docs)
             (keys_in_order py_repr doc_type docs)); [reflexivity| |].
  - intros k Hk. split; [apply block_nonempty, Hk|].
    intros d Hd. exact (block_key py_repr doc_type docs k d Hd).
  - exact (proj1 (keys_in_order_spec py_repr doc_type docs)).
Qed.

(** X20: the grouping stage is idempotent: run on its own output, it
    returns this output unchanged, in the same order and with the same
    statuses. *)
Theorem processed_docs_idempotent (docs : list record) :
  Forall has_filename docs ->
  exists out,
    processed_docs py_repr doc_type docs = ret out /\
    processed_docs py_repr doc_type out = ret out.
Proof.
  intros Hf.
  exists (flat_map (block py_repr doc_type docs)
            (keys_in_order py_repr doc_type docs)).
  split; [apply processed_docs_blocks, Hf|].
  rewrite processed_docs_blocks.
  - rewrite blocks_keys. f_equal. apply flat_map_ext. intros k.
    unfold block at 1. rewrite cluster_processed. unfold block.
    rewrite by_filename_marked. apply mark_from_idem.
  - apply Forall_forall. intros d Hd.
    apply in_flat_map in Hd as (k & _ & Hd).
    apply in_mark_from_zero in Hd as (s & x & Hx & ->).
    unfold has_filename. rewrite marked_filename.
    apply (Permutation_in x (by_filename_perm _)) in Hx.
    apply (cluster_key py_repr doc_type) in Hx as [_ Hx].
    rewrite Forall_forall in Hf. exact (Hf x Hx).
Qed.

End StageIdempotence.

Lemma processed_docs_idempotent_example :
  exists out,
    processed_docs (fun _ => "") "w2"
      [canonical_record "w2" "b.json" ["Ann Lee"; "Acme"; "2023"];
       canonical_record "w2" "c.json" ["Bob Ray"; "Acme"; "2023"];
       canonical_record "w2" "a.json" ["Ann Lee"; "Acme"; "2023"]]
    = ret out /\
    processed_docs (fun _ => "") "w2" out = ret out.
Proof.
  apply (processed_docs_idempotent (fun _ => "") "w2").
  repeat constructor; discriminate.
Defined.

(** ** parse_date: texts that are no dates *)

Lemma drop_forall (q : ascii -> bool) (s : string) :
  string_forall q s = true -> forall j, string_forall q (drop j s) = true.
Proof.
  induction s as [|c s IH]; intros H j; [destruct j; reflexivity|].
  destruct j as [|j]; [exact H|].
  simpl in H. apply andb_true_iff in H as [_ H]. simpl. apply IH, H.
Qed.

(** A pattern with an item that must match at least once fails on a text
    that has no character of the item's class. *)
Lemma match_items_needs (it : item) (its : list item) :
  In it its -> 1 <= rmin it ->
  forall s,
    string_forall (fun c => negb (cls it c)) s = true ->
    match_items its s = None.
Proof.
  intros Hin Hmin. induction its as [|it0 rest IH]; [contradiction|].
  intros s Hs. apply match_items_none. intros j Hj.
  destruct Hin as [->|Hin].
  - exfalso. destruct s as [|c s]; simpl in Hj; [lia|].
    simpl in Hs. apply andb_true_iff in Hs as [Hc _].
    apply negb_true_iff in Hc. rewrite Hc in Hj. lia.
  - apply (IH Hin). apply drop_forall, Hs.
Qed.

Section FreeText.

Variable dateutil_parse : string -> option datetime.

(** X21: a text without any digit is no date for the five patterns: when
    dateutil does not parse it either, [parse_date] returns it with the
    surrounding whitespace removed (the empty string for a text of
    whitespace only). *)
Theorem parse_date_free_text (s : string) :
  is_empty s = false -> no_digit (strip s) = true ->
  dateutil_parse (strip s) = None ->
  parse_date dateutil_parse s = ret (strip s).
Proof.
  intros He Hn Hd. unfold parse_date. rewrite He. cbn [orb].
  destruct (String.eqb_spec s "N/A") as [->|_]; [reflexivity|].
  assert (F : forall its,
             In (group is_digit 4 (Some 4)) its ->
             match_items its (strip s) = None).
  { intros its Hin.
    apply (match_items_needs (group is_digit 4 (Some 4)) its Hin);
      [simpl; lia | exact Hn]. }
  unfold parse_date_rules, rule_month_first, rule_day_first,
    rule_day_month_name, rule_month_name_day, rule_iso, rule_dateutil.
  rewrite (F re_numeric), (F re_day_month_name), (F re_month_name_day),
    (F re_iso), Hd by (simpl; auto 10).
  reflexivity.
Qed.

End FreeText.

Lemma parse_date_free_text_example :
  parse_date (fun _ => None) "  to be confirmed " = ret "to be confirmed".
Proof.
  exact (parse_date_free_text (fun _ => None) "  to be confirmed "
           eq_refl eq_refl eq_refl).
Defined.
